(** * xy_table.py: the path compiler and the operator session loop

    A shallow embedding of [src/xy_table.py].  Python strings are
    [string]s of 8-bit characters, Python floats are IEEE-754 binary64
    values ([spec_float]), the preallocated segment arrays are lists
    updated by index, files live in a finite map from path to content,
    and the clock, the socket and the console are explicit inputs.

    The built-ins [float], [str(round(x, r))] and [str(exception)] are
    not code of this program; they are the fields of [Python] below and
    every definition is parametric in them.  What the program prints on
    the console, the plot of [viewpath] and the launch of Mach4
    ([startup_routine]) are left out. *)

From Stdlib Require Import ZArith String Ascii List Bool Lia Permutation.
From Stdlib Require Import Floats.SpecFloat.
From stdpp Require Import gmap strings list pretty.

Local Open Scope string_scope.
Local Open Scope nat_scope.
Local Open Scope list_scope.

#[local] Arguments String.append !s1 s2 : simpl nomatch.

(** ** Python [str] operations used by the program *)

Module PyStr.

(** Characters are the code points below 256.  [c.isspace()] holds for
    TAB..CR, FS..US, SPACE, NEL (133) and NBSP (160). *)
Definition isspace (c : ascii) : bool :=
  let n := nat_of_ascii c in
  (((9 <=? n) && (n <=? 13)) || ((28 <=? n) && (n <=? 32))
   || (n =? 133) || (n =? 160))%nat.

Fixpoint lstrip (s : string) : string :=
  match s with
  | String c r => if isspace c then lstrip r else s
  | EmptyString => EmptyString
  end.

Fixpoint rstrip (s : string) : string :=
  match s with
  | String c r =>
      match rstrip r with
      | EmptyString => if isspace c then EmptyString else String c EmptyString
      | r' => String c r'
      end
  | EmptyString => EmptyString
  end.

(** [s.strip()] *)
Definition strip (s : string) : string := rstrip (lstrip s).

(** [c.lower()]: A..Z and the Latin-1 capitals 192..222 (215, the
    multiplication sign, apart) move up by 32. *)
Definition lower_char (c : ascii) : ascii :=
  let n := nat_of_ascii c in
  if (((65 <=? n) && (n <=? 90))
      || ((192 <=? n) && (n <=? 222) && negb (n =? 215)))%nat
  then ascii_of_nat (n + 32) else c.

(** [s.lower()] *)
Fixpoint lower (s : string) : string :=
  match s with
  | String c r => String (lower_char c) (lower r)
  | EmptyString => EmptyString
  end.

(** [sub in s] *)
Fixpoint contains (sub s : string) : bool :=
  String.prefix sub s ||
  match s with
  | String _ r => contains sub r
  | EmptyString => false
  end.

(** [s[n:]] *)
Fixpoint slice_from (n : nat) (s : string) : string :=
  match n, s with
  | S n', String _ r => slice_from n' r
  | _, _ => s
  end.

(** [s[:n]] *)
Fixpoint slice_to (n : nat) (s : string) : string :=
  match n, s with
  | S n', String c r => String c (slice_to n' r)
  | _, _ => EmptyString
  end.

(** [s.replace('.dxf', '')] *)
Fixpoint remove_dxf (s : string) : string :=
  match s with
  | String "." (String "d" (String "x" (String "f" r))) => remove_dxf r
  | String c r => String c (remove_dxf r)
  | EmptyString => EmptyString
  end.

(** [s.split(sep)] for a one-character separator: never empty. *)
Fixpoint split (sep : ascii) (s : string) : list string :=
  match s with
  | EmptyString => [EmptyString]
  | String c r =>
      if Ascii.eqb c sep then EmptyString :: split sep r
      else match split sep r with
           | w :: ws => String c w :: ws
           | [] => [String c EmptyString]
           end
  end.

(** The successive results of [file.readline()] on a text file: each
    line keeps its terminating newline, the last one may lack it. *)
Fixpoint readlines_from (cur : string) (s : string) : list string :=
  match s with
  | EmptyString => match cur with EmptyString => [] | _ => [String.rev cur] end
  | String c r =>
      if Ascii.eqb c "010"
      then String.rev (String c cur) :: readlines_from EmptyString r
      else readlines_from (String c cur) r
  end.

Definition readlines (s : string) : list string := readlines_from EmptyString s.

(** [s.split()]: the maximal runs of non-space characters. *)
Fixpoint words_from (cur : string) (s : string) : list string :=
  match s with
  | EmptyString => match cur with EmptyString => [] | _ => [String.rev cur] end
  | String c r =>
      if isspace c
      then match cur with
           | EmptyString => words_from EmptyString r
           | _ => String.rev cur :: words_from EmptyString r
           end
      else words_from (String c cur) r
  end.

Definition words (s : string) : list string := words_from EmptyString s.

(** ['{} {} {} '.format] on the unpacked list [args]: arguments beyond
    the third are ignored, fewer than three is an IndexError ([None]). *)
Definition format3 (args : list string) : option string :=
  match args with
  | a :: b :: c :: _ => Some (a +:+ " " +:+ b +:+ " " +:+ c +:+ " ")
  | _ => None
  end.

Definition nl : string := String "010" EmptyString.

End PyStr.

Import PyStr.

(** ** Numbers, exceptions and the results of a run *)

(** A cell of the segment arrays or a bounding-box variable holds the
    [int] 0 it was initialised with, or a float read from the file. *)
Inductive number := Int0 | Float (f : spec_float).

(** Python compares an [int] with a float by value: 0 behaves as +0.0. *)
Definition as_float (x : number) : spec_float :=
  match x with
  | Int0 => S754_zero false
  | Float f => f
  end.

(** [a > b], [a < b] and [a != b]; every comparison with a NaN is false,
    except [!=], which is true. *)
Definition py_gt (a b : number) : bool := SFltb (as_float b) (as_float a).
Definition py_lt (a b : number) : bool := SFltb (as_float a) (as_float b).
Definition py_ne (a b : number) : bool := negb (SFeqb (as_float a) (as_float b)).

Inductive exn :=
| ValueError (text : string)   (* float(text) rejected text *)
| IndexError                   (* a list or format index is out of range *)
| FileError (path : string)    (* open(path, ...) failed *)
| SendError.                   (* conn.send failed *)

(** A call returns, raises, or never comes back ([Hang]: a loop that
    cannot leave, or a read that blocks for ever). *)
Inductive outcome (A : Type) :=
| Return (a : A)
| Raise (e : exn)
| Hang.
Arguments Return {A} a.
Arguments Raise {A} e.
Arguments Hang {A}.

#[export] Instance outcome_ret : MRet outcome := @Return.
#[export] Instance outcome_bind : MBind outcome := fun A B k m =>
  match m with
  | Return a => k a
  | Raise e => Raise e
  | Hang => Hang
  end.

Fixpoint foldM {A B : Type} (f : A -> B -> outcome A) (a : A) (l : list B)
  : outcome A :=
  match l with
  | [] => Return a
  | b :: l' => a' ← f a b; foldM f a' l'
  end.

(** The built-ins the program calls.  [float_of_str s] is [float(s)]
    ([None]: ValueError), [str_round x r] is [str(round(x, r))] and
    [str_exn e] is [str(e)]. *)
Class Python := {
  float_of_str : string -> option spec_float;
  str_round : number -> nat -> string;
  str_exn : exn -> string
}.

(** [a[i]] and [a[i] = v] on a list, with Python's range check. *)
Definition fetch (a : list number) (i : nat) : outcome number :=
  match a !! i with
  | Some v => Return v
  | None => Raise IndexError
  end.

Definition store (a : list number) (i : nat) (v : number)
  : outcome (list number) :=
  if decide (i < length a) then Return (<[i:=v]> a) else Raise IndexError.

(** ** The path compiler: [dxf_to_gcode] *)

(** The local variables of [dxf_to_gcode] during the read loop. *)
Record locals := Locals {
  linecount : nat;
  xstart : list number;
  ystart : list number;
  xend : list number;
  yend : list number;
  xmax : number;
  xmin : number;
  ymax : number;
  ymin : number;
  error : string
}.

Definition initial (qty : nat) : locals :=
  {| linecount := 1;
     xstart := replicate qty Int0; ystart := replicate qty Int0;
     xend := replicate qty Int0; yend := replicate qty Int0;
     xmax := Int0; xmin := Int0; ymax := Int0; ymin := Int0;
     error := "" |}.

(** The four group codes the inner loop reacts to. *)
Inductive group := G10 | G20 | G11 | G21.

(** Where the read loop stands when it calls [readline]: at the top of
    the outer loop, at the top of the inner loop, or inside one of the
    four [if text == '<code>'] blocks, about to read the value. *)
Inductive cursor := Top | InEntity | ValueOf (g : group).

Definition array_of (g : group) (c : locals) : list number :=
  match g with
  | G10 => xstart c
  | G20 => ystart c
  | G11 => xend c
  | G21 => yend c
  end.

Definition with_array (g : group) (a : list number) (c : locals) : locals :=
  match g with
  | G10 => Locals (linecount c) a (ystart c) (xend c) (yend c)
             (xmax c) (xmin c) (ymax c) (ymin c) (error c)
  | G20 => Locals (linecount c) (xstart c) a (xend c) (yend c)
             (xmax c) (xmin c) (ymax c) (ymin c) (error c)
  | G11 => Locals (linecount c) (xstart c) (ystart c) a (yend c)
             (xmax c) (xmin c) (ymax c) (ymin c) (error c)
  | G21 => Locals (linecount c) (xstart c) (ystart c) (xend c) a
             (xmax c) (xmin c) (ymax c) (ymin c) (error c)
  end.

(** [if v > hi: hi = v] and [if v < lo: lo = v] *)
Definition raise_to (v hi : number) : number := if py_gt v hi then v else hi.
Definition lower_to (v lo : number) : number := if py_lt v lo then v else lo.

(** The [if text == '0'] block: the eight bounding-box updates in the
    order of the source, then [linecount = linecount + 1]. *)
Definition close_entity (c : locals) : outcome locals :=
  let n := linecount c in
  ys ← fetch (ystart c) n;
  let ymax1 := raise_to ys (ymax c) in
  let ymin1 := lower_to ys (ymin c) in
  ye ← fetch (yend c) n;
  let ymax2 := raise_to ye ymax1 in
  let ymin2 := lower_to ye ymin1 in
  xs ← fetch (xstart c) n;
  let xmax1 := raise_to xs (xmax c) in
  let xmin1 := lower_to xs (xmin c) in
  xe ← fetch (xend c) n;
  let xmax2 := raise_to xe xmax1 in
  let xmin2 := lower_to xe xmin1 in
  Return (Locals (n + 1) (xstart c) (ystart c) (xend c) (yend c)
            xmax2 xmin2 ymax2 ymin2 (error c)).

Definition capacity_message : string :=
  "Error: ran out of dimentioned line arrey. Increase qty value." +:+ nl.

Definition with_error (c : locals) : locals :=
  Locals (linecount c) (xstart c) (ystart c) (xend c) (yend c)
    (xmax c) (xmin c) (ymax c) (ymin c) (error c +:+ capacity_message).

Section Compiler.
Context `{Python}.

(** What the read loop does with the line [readline] has just returned:
    the next cursor ([None]: the outer loop is left, by [EOF] or by the
    capacity check) and the locals.  In the source the four value blocks
    end with [text = 'nothing'], so that at most one of the inner [if]s
    fires per line read at the top of the inner loop; the chain below
    says the same. *)
Definition at_line (qty : nat) (pc : cursor) (line : string) (c : locals)
  : outcome (option cursor * locals) :=
  let text := strip line in
  match pc with
  | Top =>
      if String.eqb text "EOF" then Return (None, c)
      else if String.eqb (lower text) "acdbline" then Return (Some InEntity, c)
      else Return (Some Top, c)
  | InEntity =>
      if String.eqb text "10" then Return (Some (ValueOf G10), c)
      else if String.eqb text "20" then Return (Some (ValueOf G20), c)
      else if String.eqb text "11" then Return (Some (ValueOf G11), c)
      else if String.eqb text "21" then Return (Some (ValueOf G21), c)
      else if String.eqb text "0" then
        c' ← close_entity c;
        if (qty <=? linecount c')%nat then Return (None, with_error c')
        else Return (Some Top, c')
      else Return (Some InEntity, c)
  | ValueOf g =>
      match float_of_str text with
      | None => Raise (ValueError text)
      | Some f =>
          a ← store (array_of g c) (linecount c) (Float f);
          Return (Some InEntity, with_array g a c)
      end
  end.

(** The read loop over the lines still to come.  Past the end of the
    file [readline] returns the empty string for ever: a pending value
    is read from it, and then neither loop can leave. *)
Fixpoint read_loop (qty : nat) (pc : cursor) (lines : list string) (c : locals)
  : outcome locals :=
  match lines with
  | line :: rest =>
      r ← at_line qty pc line c;
      match r with
      | (Some pc', c') => read_loop qty pc' rest c'
      | (None, c') => Return c'
      end
  | [] =>
      match pc with
      | ValueOf _ => _ ← at_line qty pc "" c; Hang
      | _ => Hang
      end
  end.

(** One turn of [for i in range(1, linecount)], on the text built so far
    and [feedflag]; [r = 2] is the rounding of the source. *)
Definition emit (feedrate : string) (c : locals) (acc : string * nat) (i : nat)
  : outcome (string * nat) :=
  let r := 2 in
  let '(gcode, feedflag) := acc in
  xs ← fetch (xstart c) i;
  xe0 ← fetch (xend c) (i - 1);
  ys ← fetch (ystart c) i;
  ye0 ← fetch (yend c) (i - 1);
  let '(gcode, feedflag) :=
    if py_ne xs xe0 || py_ne ys ye0
    then (gcode +:+ "G1 X" +:+ str_round xs r +:+ " Y" +:+ str_round ys r +:+ nl, 0)
    else (gcode, feedflag) in
  xe ← fetch (xend c) i;
  ye ← fetch (yend c) i;
  let gcode := gcode +:+ "G1 X" +:+ str_round xe r +:+ " Y" +:+ str_round ye r in
  let '(gcode, feedflag) :=
    if (feedflag =? 0)%nat then (gcode +:+ " F" +:+ feedrate, 1)
    else (gcode, feedflag) in
  Return (gcode +:+ nl, feedflag).

Definition header : string := "G90 G17 G21" +:+ nl.

(** The GCode generator: the text written to the output file. *)
Definition generate (feedrate : string) (c : locals) : outcome string :=
  acc ← foldM (emit feedrate c) (header, 0) (seq 1 (linecount c - 1));
  Return (fst acc).

End Compiler.

(** ** Files, the clock and the peer *)

(** One reading of [datetime.now()], in the two renderings the program
    uses: [str(datetime.timestamp(t))] and
    [t.strftime('[%m-%d-%y %I:%M:%S %p]')]. *)
Record instant := Instant { posix : string; stamp : string }.

(** What the program acts on besides its own variables.  A file is its
    text as text mode presents it; [open(path, 'r')] succeeds exactly on
    the paths of [files], [open(path, 'w')] and [open(path, 'a')] fail
    exactly on the paths of [locked].  [clock n] is the [n]-th reading of
    [datetime.now()] and [ticks] counts the readings made.  [sent] lists
    the payloads [conn.send] delivered, oldest first; [link] tells
    whether [conn.send] succeeds. *)
Record world := World {
  files : gmap string string;
  locked : gset string;
  clock : nat -> instant;
  ticks : nat;
  sent : list string;
  link : bool
}.

(** A call that acts on the world returns a value, raises, or hangs;
    the first two leave a world behind. *)
Inductive reply (A : Type) :=
| Done (a : A) (w : world)
| Fail (e : exn) (w : world)
| Stuck.
Arguments Done {A} a w.
Arguments Fail {A} e w.
Arguments Stuck {A}.

Definition and_then {A B : Type} (m : reply A) (k : A -> world -> reply B)
  : reply B :=
  match m with
  | Done a w => k a w
  | Fail e w => Fail e w
  | Stuck => Stuck
  end.

(** [try: m  except Exception as error: h(error)] *)
Definition try_except {A : Type} (m : reply A) (h : exn -> world -> reply A)
  : reply A :=
  match m with
  | Fail e w => h e w
  | _ => m
  end.

Definition lift {A : Type} (m : outcome A) (w : world) : reply A :=
  match m with
  | Return a => Done a w
  | Raise e => Fail e w
  | Hang => Stuck
  end.

Definition now (w : world) : instant * world :=
  (clock w (ticks w),
   World (files w) (locked w) (clock w) (S (ticks w)) (sent w) (link w)).

Definition with_files (fs : gmap string string) (w : world) : world :=
  World fs (locked w) (clock w) (ticks w) (sent w) (link w).

(** [f = open(path, 'r'); ... f.read()] *)
Definition open_read (path : string) (w : world) : reply string :=
  match files w !! path with
  | Some text => Done text w
  | None => Fail (FileError path) w
  end.

(** [f = open(path, 'w'); f.write(text); f.close()] *)
Definition write_file (path text : string) (w : world) : reply unit :=
  if decide (path ∈ locked w) then Fail (FileError path) w
  else Done tt (with_files (<[path := text]> (files w)) w).

(** [f = open(path, 'a'); f.write(text); f.close()] *)
Definition append_file (path text : string) (w : world) : reply unit :=
  if decide (path ∈ locked w) then Fail (FileError path) w
  else Done tt (with_files
                  (<[path := default "" (files w !! path) +:+ text]> (files w)) w).

(** [conn.send(bytes(text, 'utf8'))] *)
Definition send (text : string) (w : world) : reply unit :=
  if link w
  then Done tt (World (files w) (locked w) (clock w) (ticks w)
                  (sent w ++ [text]) (link w))
  else Fail SendError w.

Section Program.
Context `{Python}.

Definition error_log (err : exn) (w : world) : reply unit :=
  let '(t, w) := now w in
  let error := stamp t +:+ str_exn err +:+ nl in
  append_file "error_log.txt" error w.

(** The capacity of the segment arrays. *)
Definition qty : nat := 1000.

(** The read loop and the generator of [dxf_to_gcode] on the lines of
    the drawing, for arrays of [n] cells: the locals the read loop ends
    with and the text of the program. *)
Definition compile (n : nat) (lines : list string) (feedrate : string)
  : outcome (locals * string) :=
  c ← read_loop n Top lines (initial n);
  gcode ← generate feedrate c;
  Return (c, gcode).

Definition dxf_to_gcode (openfilepath savefile feedrate : string) (w : world)
  : reply unit :=
  and_then (open_read openfilepath w) (fun text w =>
  and_then (lift (compile qty (readlines text) feedrate) w) (fun r w =>
  write_file savefile (snd r) w)).

(** Column [k] of the point file of [viewpath]:
    [[float(line.split()[k]) for line in lines]]. *)
Fixpoint column (k : nat) (lines : list string) : outcome (list spec_float) :=
  match lines with
  | [] => Return []
  | line :: rest =>
      match words line !! k with
      | None => Raise IndexError
      | Some t =>
          match float_of_str t with
          | None => Raise (ValueError t)
          | Some f => fs ← column k rest; Return (f :: fs)
          end
      end
  end.

(** [__gcode__(gcode, feedrate, record)]: the command to send.  The
    plotting calls of [viewpath] are taken to succeed and leave no trace. *)
Definition __gcode__ (gcode feedrate record : string) (w : world)
  : reply string :=
  if String.eqb (lower gcode) "home" then Done "G90 G0 X0 Y0" w
  else if String.eqb (lower gcode) "absolute" then Done "G90" w
  else if contains "pulse x" (lower gcode)
  then Done ("G91 G1 X50 F" +:+ slice_from 7 gcode) w
  else if contains "pulse y" (lower gcode)
  then Done ("G91 G1 Y50 F" +:+ slice_from 7 gcode) w
  else if contains "scandxf" (lower gcode) then
    match open_read (slice_from 8 gcode) w with
    | Fail error w => and_then (error_log error w) (fun _ w => Done "G0" w)
    | Stuck => Stuck
    | Done _ w =>
        let txt := remove_dxf (slice_from 8 gcode) +:+ ".txt" in
        and_then (dxf_to_gcode (slice_from 8 gcode) txt feedrate w) (fun _ w =>
        Done txt w)
    end
  else if contains "viewpath" (lower gcode) then
    let path := slice_from 9 gcode in
    let path := if negb (contains ".txt" path) then path +:+ ".txt" else path in
    try_except
      (and_then (open_read path w) (fun text w =>
       let lines := readlines text in
       and_then (lift (column 0 lines) w) (fun x w =>
       and_then (lift (column 1 lines) w) (fun y w =>
       Done gcode w))))
      (fun error w => and_then (error_log error w) (fun _ w => Done "G0" w))
  else Done gcode w.

End Program.

(** ** The session loop *)

(** The variables of the main block that outlive one turn of the loop;
    [repeat] is [None] while it still holds its initial [0]. *)
Record session := Session {
  feedrate : string;
  repeat : option string;
  record : string;
  check : string
}.

Definition startup : session :=
  {| feedrate := "600"; repeat := None; record := ""; check := "" |}.

(** [pos] holds the list of fields of the record read at the top of the
    main loop, then, inside the drain loop, the text just received. *)
Inductive pos_value := Fields (l : list string) | Text (s : string).

(** [' ' in pos]: an element equal to [' '] of a list, a space
    character of a text. *)
Definition has_space (pos : pos_value) : bool :=
  match pos with
  | Fields l => bool_decide (" " ∈ l)
  | Text s => contains " " s
  end.

Section Session.
Context `{Python}.

(** [float(fields[3][:13])], the only part of the latency computation
    that can fail. *)
Definition sender_time (fields : list string) : outcome spec_float :=
  match fields !! 3 with
  | None => Raise IndexError
  | Some t =>
      match float_of_str (slice_to 13 t) with
      | None => Raise (ValueError (slice_to 13 t))
      | Some f => Return f
      end
  end.

Definition format_position (fields : list string) : outcome string :=
  match format3 fields with
  | Some text => Return text
  | None => Raise IndexError
  end.

(** The chain of [if]/[elif] on the operator's input (the routines
    [delta], repeat, [save], [clear], [feedrate]): the text handed on to
    [__gcode__] and the session. *)
Definition directive (gcode : string) (s : session) (w : world)
  : reply (string * session) :=
  if contains "delta" (lower gcode)
  then Done (gcode, Session (feedrate s) (Some ("G91 G0 " +:+ slice_from 6 gcode))
                      (record s) (check s)) w
  else
    match (if String.eqb gcode "" then repeat s else None) with
    | Some stored => Done (stored, s) w
    | None =>
        if contains "save" (lower gcode) then
          let gcode := slice_from 5 gcode in
          let gcode :=
            if negb (contains ".txt" gcode) then gcode +:+ ".txt" else gcode in
          and_then (write_file gcode (record s) w) (fun _ w => Done (gcode, s) w)
        else if String.eqb gcode "clear"
        then Done (gcode, Session (feedrate s) (repeat s) "" (check s)) w
        else if contains "feedrate" (lower gcode)
        then Done (gcode, Session (slice_from 9 (feedrate s)) (repeat s)
                            (record s) (check s)) w
        else Done (gcode, s) w
    end.

(** [try: conn.send(bytes(__gcode__(gcode, feedrate, record) + '\n', 'utf8'))]
    [except Exception as error: error_log(error)] *)
Definition transmit (gcode : string) (s : session) (w : world) : reply unit :=
  try_except
    (and_then (__gcode__ gcode (feedrate s) (record s) w) (fun command w =>
     send (command +:+ nl) w))
    error_log.

(** The drain loop [while not ' ' in pos], on the texts [conn.recv] is
    still to return; with none left [recv] blocks.  It returns the texts
    it has not read. *)
Fixpoint drain (inbox : list string) (pos : pos_value) (s : session) (w : world)
  : reply (list string * session) :=
  if has_space pos then Done (inbox, s) w
  else
    match inbox with
    | [] => Stuck
    | text :: inbox' =>
        let '(t1, w) := now w in
        and_then
          (if negb (String.eqb (check s) (posix t1))
              && negb (String.eqb (check s) "")
           then and_then (lift (format_position (split "," text)) w)
                  (fun line w => Done (record s +:+ line +:+ check s +:+ nl) w)
           else Done (record s) w)
          (fun record' w =>
        let '(t2, w) := now w in
        let s' := Session (feedrate s) (repeat s) record' (posix t2) in
        and_then (lift (sender_time (split "," text)) w) (fun _ w =>
        drain inbox' (Text text) s' w))
    end.

(** The operator's input interpreted and the command sent: the chain of
    routines, then the [try] block. *)
Definition respond (gcode : string) (s : session) (w : world) : reply session :=
  and_then (directive gcode s w) (fun r w =>
  let '(gcode, s) := r in
  and_then (transmit gcode s w) (fun _ w => Done s w)).

(** One turn of the main [while True], for the operator's input
    [gcode]. *)
Definition cycle (gcode : string) (inbox : list string) (s : session) (w : world)
  : reply (list string * session) :=
  match inbox with
  | [] => Stuck
  | text :: inbox' =>
      let pos := split "," text in
      and_then (lift (sender_time pos) w) (fun _ w =>
      and_then (lift (format_position pos) w) (fun line w =>
      let '(t, w) := now w in
      let s1 := Session (feedrate s) (repeat s)
                  (record s +:+ line +:+ posix t +:+ nl) (check s) in
      and_then (respond gcode s1 w) (fun s2 w =>
      drain inbox' (Fields pos) s2 w)))
  end.

(** A telemetry text the latency computation accepts: at least four
    fields, the fourth a number in its first 13 characters. *)
Definition well_formed (text : string) : bool :=
  match sender_time (split "," text) with
  | Return _ => true
  | _ => false
  end.

End Session.

(** ** A runtime to evaluate the model with

    [decimal] reads plain decimal literals (sign, digits, an optional
    point) and prints with two decimals.  It agrees with CPython on
    literals of at most 15 significant digits and on magnitudes below
    1e16; the examples below stay inside that range.  The theorems
    hold for every runtime. *)

Module Decimal.

Definition digit (c : ascii) : option Z :=
  let n := nat_of_ascii c in
  if ((48 <=? n) && (n <=? 57))%nat then Some (Z.of_nat (n - 48)) else None.

(** The leading digits of [s]: their value on top of [acc], how many
    they are, and what follows them. *)
Fixpoint scan_digits (s : string) (acc : Z) (count : nat) : Z * nat * string :=
  match s with
  | String c r =>
      match digit c with
      | Some d => scan_digits r (10 * acc + d) (S count)
      | None => (acc, count, s)
      end
  | EmptyString => (acc, count, s)
  end.

(** Sign, numerator and number of decimals of a literal. *)
Definition literal (s : string) : option (bool * Z * nat) :=
  let s := strip s in
  let '(neg, s) :=
    match s with
    | String "-" r => (true, r)
    | String "+" r => (false, r)
    | _ => (false, s)
    end in
  let '(i, ni, s) := scan_digits s 0 0 in
  match s with
  | EmptyString => if (ni =? 0)%nat then None else Some (neg, i, 0)
  | String "." r =>
      let '(n, nf, s) := scan_digits r i 0 in
      match s with
      | EmptyString => if (ni + nf =? 0)%nat then None else Some (neg, n, nf)
      | _ => None
      end
  | _ => None
  end.

Definition prec : Z := 53.
Definition emax : Z := 1024.

Definition of_Z (z : Z) : spec_float := binary_normalize prec emax z 0 false.

Definition float (s : string) : option spec_float :=
  match literal s with
  | Some (neg, n, k) =>
      Some (if (n =? 0)%Z then S754_zero neg
            else SFdiv prec emax (of_Z (if neg then - n else n))
                   (of_Z (10 ^ Z.of_nat k)))
  | None => None
  end.

Definition round_half_even (num den : Z) : Z :=
  let q := (num / den)%Z in
  let r := (num mod den)%Z in
  if (2 * r <? den)%Z then q
  else if (den <? 2 * r)%Z then (q + 1)%Z
  else if Z.even q then q else (q + 1)%Z.

(** The magnitude of [m * 2^e] in hundredths, rounded half to even. *)
Definition hundredths (m : positive) (e : Z) : Z :=
  if (0 <=? e)%Z then (Z.pos m * 2 ^ e * 100)%Z
  else round_half_even (Z.pos m * 100) (2 ^ (- e)).

Definition show_hundredths (neg : bool) (n : Z) : string :=
  let f := (n mod 100)%Z in
  (if neg then "-" else "") +:+ pretty (n / 100)%Z +:+ "." +:+
  (if (f mod 10 =? 0)%Z then pretty (f / 10)%Z
   else pretty (f / 10)%Z +:+ pretty (f mod 10)%Z).

Definition show (x : number) (r : nat) : string :=
  match x with
  | Int0 => "0"
  | Float (S754_zero neg) => show_hundredths neg 0
  | Float (S754_infinity neg) => if neg then "-inf" else "inf"
  | Float S754_nan => "nan"
  | Float (S754_finite neg m e) => show_hundredths neg (hundredths m e)
  end.

Definition message (e : exn) : string :=
  match e with
  | ValueError text => "could not convert string to float: '" +:+ text +:+ "'"
  | IndexError => "list index out of range"
  | FileError path => "[Errno 2] No such file or directory: '" +:+ path +:+ "'"
  | SendError => "[Errno 32] Broken pipe"
  end.

End Decimal.

Definition decimal : Python :=
  {| float_of_str := Decimal.float;
     str_round := Decimal.show;
     str_exn := Decimal.message |}.

(** ** Drawings

    The claims speak of drawing files made of line entities.  A drawing
    is a sequence of blocks: lines the outer loop passes over, and
    entities, each opened by an [AcDbLine] line, closed by a [0] line
    and holding group-code lines with their values and other lines. *)

Inductive item :=
| Field (tag value : string)   (* a 10/20/11/21 line and the line after it *)
| Other (text : string).       (* a line the inner loop ignores *)

Record entity := Entity {
  opener : string;
  items : list item;
  closer : string
}.

Inductive block :=
| Junk (text : string)
| Line (e : entity).

Definition item_lines (i : item) : list string :=
  match i with
  | Field tag value => [tag; value]
  | Other text => [text]
  end.

Definition entity_lines (e : entity) : list string :=
  opener e :: concat (map item_lines (items e)) ++ [closer e].

Definition block_lines (b : block) : list string :=
  match b with
  | Junk text => [text]
  | Line e => entity_lines e
  end.

(** The lines of a drawing, up to and including its [EOF] line. *)
Definition drawing_lines (bs : list block) (eof : string) : list string :=
  concat (map block_lines bs) ++ [eof].

Definition group_of (text : string) : option group :=
  if String.eqb text "10" then Some G10
  else if String.eqb text "20" then Some G20
  else if String.eqb text "11" then Some G11
  else if String.eqb text "21" then Some G21
  else None.

(** A line segment: start point and end point. *)
Record segment := Segment {
  start_x : number;
  start_y : number;
  end_x : number;
  end_y : number
}.

(** The all-zero segment of index 0. *)
Definition origin : segment := Segment Int0 Int0 Int0 Int0.

Definition with_coordinate (g : group) (v : number) (s : segment) : segment :=
  match g with
  | G10 => Segment v (start_y s) (end_x s) (end_y s)
  | G20 => Segment (start_x s) v (end_x s) (end_y s)
  | G11 => Segment (start_x s) (start_y s) v (end_y s)
  | G21 => Segment (start_x s) (start_y s) (end_x s) v
  end.

Definition coordinate (g : group) (s : segment) : number :=
  match g with
  | G10 => start_x s
  | G20 => start_y s
  | G11 => end_x s
  | G21 => end_y s
  end.

Definition entities (bs : list block) : list entity :=
  omap (fun b => match b with Line e => Some e | Junk _ => None end) bs.

Section Drawings.
Context `{Python}.

Definition valid_item (i : item) : bool :=
  match i with
  | Field tag value =>
      bool_decide (is_Some (group_of (strip tag)))
      && bool_decide (is_Some (float_of_str (strip value)))
  | Other text =>
      bool_decide (group_of (strip text) = None)
      && negb (String.eqb (strip text) "0")
  end.

Definition valid_entity (e : entity) : bool :=
  String.eqb (lower (strip (opener e))) "acdbline"
  && forallb valid_item (items e)
  && String.eqb (strip (closer e)) "0".

Definition valid_block (b : block) : bool :=
  match b with
  | Junk text =>
      negb (String.eqb (strip text) "EOF")
      && negb (String.eqb (lower (strip text)) "acdbline")
  | Line e => valid_entity e
  end.

(** A drawing of valid line entities, ended by an [EOF] line. *)
Definition valid_drawing (bs : list block) (eof : string) : bool :=
  forallb valid_block bs && String.eqb (strip eof) "EOF".

(** The segment an entity describes: each coordinate is the value of
    the last field with its group code, 0 when there is none. *)
Definition read_item (s : segment) (i : item) : segment :=
  match i with
  | Field tag value =>
      match group_of (strip tag), float_of_str (strip value) with
      | Some g, Some f => with_coordinate g (Float f) s
      | _, _ => s
      end
  | Other _ => s
  end.

Definition segment_of (e : entity) : segment :=
  fold_left read_item (items e) origin.

Definition segments (bs : list block) : list segment :=
  map segment_of (entities bs).

(** [s] starts where [prev] ends: the test of the generator, negated. *)
Definition chained (prev s : segment) : bool :=
  negb (py_ne (start_x s) (end_x prev) || py_ne (start_y s) (end_y prev)).

Definition bridge_line (s : segment) : string :=
  "G1 X" +:+ str_round (start_x s) 2 +:+ " Y" +:+ str_round (start_y s) 2 +:+ nl.

Definition draw_line (feed : option string) (s : segment) : string :=
  "G1 X" +:+ str_round (end_x s) 2 +:+ " Y" +:+ str_round (end_y s) 2 +:+
  match feed with
  | Some feedrate => " F" +:+ feedrate
  | None => ""
  end +:+ nl.

(** The move lines for [segs], the segment before them being [prev];
    [pending] tells whether the next draw move carries the feed rate. *)
Fixpoint moves (feedrate : string) (prev : segment) (pending : bool)
    (segs : list segment) : list string :=
  match segs with
  | [] => []
  | s :: rest =>
      if chained prev s
      then draw_line (if pending then Some feedrate else None) s
           :: moves feedrate s false rest
      else bridge_line s :: draw_line (Some feedrate) s
           :: moves feedrate s false rest
  end.

End Drawings.

(** The concatenation of texts. *)
Fixpoint concat_str (l : list string) : string :=
  match l with
  | [] => ""
  | s :: l' => s +:+ concat_str l'
  end.

Definition is_move (line : string) : bool := String.prefix "G1 X" line.
Definition has_feed (line : string) : bool := contains " F" line.

(** A printed number holds no newline and no capital F. *)
Fixpoint plain (s : string) : bool :=
  match s with
  | EmptyString => true
  | String c r => negb (Ascii.eqb c "010") && negb (Ascii.eqb c "F") && plain r
  end.

Fixpoint no_newline (s : string) : bool :=
  match s with
  | EmptyString => true
  | String c r => negb (Ascii.eqb c "010") && no_newline r
  end.

(** ** Vocabulary of the proofs and of the claims *)

(** The array of group [g] once [segs] have been stored behind the zero
    of index 0. *)
Definition cells (n : nat) (g : group) (segs : list segment) : list number :=
  map (coordinate g) (origin :: segs) ++ replicate (n - S (length segs)) Int0.

(** The bounding-box variables after the updates for [segs]. *)
Definition xmax_of (segs : list segment) : number :=
  fold_left (fun m s => raise_to (end_x s) (raise_to (start_x s) m)) segs Int0.
Definition xmin_of (segs : list segment) : number :=
  fold_left (fun m s => lower_to (end_x s) (lower_to (start_x s) m)) segs Int0.
Definition ymax_of (segs : list segment) : number :=
  fold_left (fun m s => raise_to (end_y s) (raise_to (start_y s) m)) segs Int0.
Definition ymin_of (segs : list segment) : number :=
  fold_left (fun m s => lower_to (end_y s) (lower_to (start_y s) m)) segs Int0.

Definition shape (n : nat) (count : nat) (stored closed : list segment)
    (err : string) : locals :=
  {| linecount := count;
     xstart := cells n G10 stored; ystart := cells n G20 stored;
     xend := cells n G11 stored; yend := cells n G21 stored;
     xmax := xmax_of closed; xmin := xmin_of closed;
     ymax := ymax_of closed; ymin := ymin_of closed;
     error := err |}.

(** The locals between two entities, [done] being closed, and inside an
    entity, [cur] being what has been read of it. *)
Definition parsed (n : nat) (done : list segment) (err : string) : locals :=
  shape n (S (length done)) done done err.
Definition within (n : nat) (done : list segment) (cur : segment) (err : string)
  : locals :=
  shape n (S (length done)) (done ++ [cur]) done err.

Definition xs_of (segs : list segment) : list number :=
  flat_map (fun s => [start_x s; end_x s]) segs.
Definition ys_of (segs : list segment) : list number :=
  flat_map (fun s => [start_y s; end_y s]) segs.

(** [m] is a greatest (least) element of [vs]: it is one of them, it is
    not a NaN, and none of them is above (below) it. *)
Definition greatest (m : number) (vs : list number) : Prop :=
  m ∈ vs /\ py_ne m m = false /\ forall v, v ∈ vs -> py_gt v m = false.
Definition least (m : number) (vs : list number) : Prop :=
  m ∈ vs /\ py_ne m m = false /\ forall v, v ∈ vs -> py_lt v m = false.

Definition above (m v : number) : bool := py_lt m v.
Definition below (m v : number) : bool := py_lt v m.

(** A line: no newline but the one that ends it. *)
Fixpoint one_line (s : string) : bool :=
  match s with
  | EmptyString => false
  | String c r =>
      if Ascii.eqb c "010" then String.eqb r "" else one_line r
  end.

(** No capital F. *)
Fixpoint no_f (s : string) : bool :=
  match s with
  | EmptyString => true
  | String c r => negb (Ascii.eqb c "F") && no_f r
  end.

(** Every segment starts where the one before it ends; no segment does. *)
Fixpoint linked (prev : segment) (segs : list segment) : bool :=
  match segs with
  | [] => true
  | s :: rest => chained prev s && linked s rest
  end.

Fixpoint apart (prev : segment) (segs : list segment) : bool :=
  match segs with
  | [] => true
  | s :: rest => negb (chained prev s) && apart s rest
  end.

(** The start point is not (0, 0): the test of the generator on the
    first segment, against the zeros of index 0. *)
Definition off_zero (s : segment) : bool :=
  py_ne (start_x s) Int0 || py_ne (start_y s) Int0.

(** The keywords [__gcode__] looks for inside the text, and those the
    main loop looks for before [save] and [feedrate]. *)
Definition gcode_keywords : list string :=
  ["pulse x"; "pulse y"; "scandxf"; "viewpath"].
Definition loop_keywords : list string := ["delta"; "save"].

(** None of the keywords [ks] occurs in [gcode], whatever the case. *)
Definition free_of (ks : list string) (gcode : string) : bool :=
  forallb (fun k => negb (contains k (lower gcode))) ks.

(** [s.endswith(suffix)] *)
Definition ends_with (suffix s : string) : bool :=
  String.prefix (String.rev suffix) (String.rev s).

(** Where [save <path>] writes. *)
Definition save_target (path : string) : string :=
  if contains ".txt" path then path else path +:+ ".txt".

Definition with_sent (text : string) (w : world) : world :=
  World (files w) (locked w) (clock w) (ticks w) (sent w ++ [text]) (link w).

Definition with_repeat (command : string) (s : session) : session :=
  Session (feedrate s) (Some command) (record s) (check s).

(** The session the routines of the main loop leave for an input they
    hand on to [__gcode__] as it is (one that is not empty, is not
    [clear] and is not taken by [save]): [delta] stores the repeat
    command, and otherwise [feedrate] cuts the stored feed rate. *)
Definition handed_on (gcode : string) (s : session) : session :=
  if contains "delta" (lower gcode)
  then with_repeat ("G91 G0 " +:+ slice_from 6 gcode) s
  else if contains "feedrate" (lower gcode)
  then Session (slice_from 9 (feedrate s)) (repeat s) (record s) (check s)
  else s.

(** The position of a telemetry text as the log shows it. *)
Definition position (text : string) : string :=
  default "" (format3 (split "," text)).

(** What the drain loop adds to the log for the texts it reads: the
    position of a text goes in, with the previous time check, when a
    previous check exists and the clock no longer reads it.  [prev] is
    the previous check; each text costs two readings of the clock, the
    second of which becomes the next check. *)
Fixpoint logged (prev : string) (clock : nat -> instant) (tick : nat)
    (texts : list string) : list string :=
  match texts with
  | [] => []
  | text :: rest =>
      (if negb (String.eqb prev (posix (clock tick)))
          && negb (String.eqb prev "")
       then [position text +:+ prev +:+ nl] else [])
      ++ logged (posix (clock (S tick))) clock (S (S tick)) rest
  end.

(** A bound that starts at [m] and moves to every value [beyond] it
    ([beyond m v]: [v] replaces [m]). *)
Definition running (beyond : number -> number -> bool) (vs : list number)
    (m : number) : number :=
  fold_left (fun m v => if beyond m v then v else m) vs m.

(** [m] is where such a bound started ([m0]) or a value of [vs] beyond
    [m0], and no value is beyond [m]. *)
Definition bound_of (beyond : number -> number -> bool) (m0 : number)
    (vs : list number) (m : number) : Prop :=
  (m = m0 \/ (m ∈ vs /\ beyond m0 m = true))
  /\ forall v, v ∈ m0 :: vs -> beyond m v = false.

Section Vocabulary.
Context `{Python}.

(** The coordinates of [segs] print without a newline or a capital F. *)
Definition printable (segs : list segment) : bool :=
  forallb (fun s =>
             plain (str_round (start_x s) 2) && plain (str_round (start_y s) 2)
             && plain (str_round (end_x s) 2) && plain (str_round (end_y s) 2))
    segs.

(** The program for [segs]. *)
Definition program (feedrate : string) (segs : list segment) : string :=
  header +:+ concat_str (moves feedrate origin true segs).

End Vocabulary.

(** ** Sample drawings, sessions and worlds *)

(** A line entity as a CAD program writes it: the four coordinates,
    and the Z values the loop passes over. *)
Definition line_entity (x1 y1 x2 y2 : string) : block :=
  Line {| opener := "AcDbLine";
          items := [Field " 10" x1; Field " 20" y1; Other " 30"; Other "0.0";
                    Field " 11" x2; Field " 21" y2; Other " 31"; Other "0.0"];
          closer := "  0" |}.

(** The three chained segments of the round-trip example: they start
    at (0, 0). *)
Definition open_square : list block :=
  [Junk "SECTION"; Junk "ENTITIES";
   line_entity "0.0" "0.0" "10.0" "0.0"; Junk "LINE";
   line_entity "10.0" "0.0" "10.0" "10.0"; Junk "LINE";
   line_entity "10.0" "10.0" "0.0" "10.0"; Junk "ENDSEC"].

(** Two chained segments that start away from (0, 0). *)
Definition corner : list block :=
  [line_entity "5.0" "5.0" "10.0" "5.0"; line_entity "10.0" "5.0" "10.0" "10.0"].

(** Two segments that do not touch, the first one starting at (0, 0). *)
Definition dashes : list block :=
  [line_entity "0.0" "0.0" "1.0" "1.0"; line_entity "5.0" "5.0" "6.0" "6.0"].

(** Two segments that do not touch, none at (0, 0). *)
Definition scattered : list block :=
  [line_entity "1.0" "1.0" "2.0" "2.0"; line_entity "3.0" "3.0" "4.0" "4.0"].

(** One segment away from the axes. *)
Definition diagonal : list block := [line_entity "5.0" "5.0" "10.0" "10.0"].

(** [k] copies of a segment. *)
Definition many (k : nat) : list block :=
  replicate k (line_entity "1.0" "1.0" "2.0" "2.0").

(** A world to run the examples in: no file, nothing locked, a clock
    that shows the tick number, the peer listening. *)
Definition quiet : world :=
  {| files := ∅; locked := ∅;
     clock := fun n => Instant (pretty n) ("[" +:+ pretty n +:+ "]");
     ticks := 0; sent := []; link := true |}.

(** The text of a file with the given lines. *)
Definition text_of (lines : list string) : string :=
  concat_str (map (fun l => l +:+ nl) lines).

(** The quiet world with the drawing [corner] in [corner.dxf]. *)
Definition workshop : world :=
  with_files {["corner.dxf" := text_of (drawing_lines corner "EOF")]} quiet.

(** A session with one sample in its log. *)
Definition logging : session :=
  {| feedrate := "600"; repeat := None;
     record := "1.0 2.0 0.0 17.25" +:+ nl; check := "" |}.

(** ** Vocabulary of the further properties *)

(** An array as the compiler keeps it: [n] cells, the one of index 0
    still holding its initial 0. *)
Definition kept (n : nat) (a : list number) : Prop :=
  length a = n /\ a !! 0 = Some Int0.

(** The four arrays are kept so. *)
Definition sized (n : nat) (c : locals) : Prop :=
  kept n (xstart c) /\ kept n (ystart c) /\ kept n (xend c) /\ kept n (yend c).

(** The bounding box holds the origin. *)
Definition boxed (c : locals) : Prop :=
  py_lt (xmax c) Int0 = false /\ py_gt (xmin c) Int0 = false
  /\ py_lt (ymax c) Int0 = false /\ py_gt (ymin c) Int0 = false.

(** The locals while the read loop runs, and once it has left. *)
Definition ready (n : nat) (c : locals) : Prop :=
  sized n c /\ boxed c /\ 1 <= linecount c < n /\ error c = "".

Definition finished (n : nat) (c : locals) : Prop :=
  sized n c /\ boxed c
  /\ 1 <= linecount c <= n
  /\ (error c = "" /\ linecount c < n
      \/ error c = capacity_message /\ linecount c = n).

#[local] Instance group_eq_dec : EqDecision group.
Proof. solve_decision. Defined.

(** No field of [its] has the group code [g]. *)
Definition lacks (g : group) (its : list item) : bool :=
  forallb (fun i => match i with
                    | Field tag _ =>
                        negb (bool_decide (group_of (strip tag) = Some g))
                    | Other _ => true
                    end) its.

(** The segments of [segs] that do not start where the one before them
    ends, [prev] being the segment before the first. *)
Fixpoint breaks (prev : segment) (segs : list segment) : nat :=
  match segs with
  | [] => 0
  | s :: rest => (if chained prev s then 0 else 1) + breaks s rest
  end.

(** Which move lines carry the feed rate, line by line.  A segment that
    does not start where [prev] ends gives two lines, the bridging move
    without the feed rate and the draw move with it; a segment that
    does gives its draw move alone, with the feed rate only when
    [pending] (no move has been drawn yet). *)
Fixpoint feeds (prev : segment) (pending : bool) (segs : list segment)
  : list bool :=
  match segs with
  | [] => []
  | s :: rest =>
      (if chained prev s then [pending] else [false; true])
      ++ feeds s false rest
  end.

(** [w'] comes after [w] in a run that sent at most [k] payloads: the
    locks, the clock and the link are those of [w], the clock has only
    been read further, and what was sent has only been added to. *)
Definition after (k : nat) (w w' : world) : Prop :=
  locked w' = locked w /\ clock w' = clock w /\ link w' = link w
  /\ ticks w <= ticks w'
  /\ exists new, sent w' = sent w ++ new /\ length new <= k.

(** A call made in [w] that returns or raises leaves a world that comes
    after [w]. *)
Definition settles {A : Type} (k : nat) (w : world) (m : reply A) : Prop :=
  match m with
  | Done _ w' | Fail _ w' => after k w w'
  | Stuck => True
  end.

(** Where [scandxf <path>] writes the program. *)
Definition scan_target (path : string) : string := remove_dxf path +:+ ".txt".

Section FurtherVocabulary.
Context `{Python}.

(** The world once [error_log err] has returned. *)
Definition noted (err : exn) (w : world) : world :=
  World (<["error_log.txt"
           := default "" (files w !! "error_log.txt")
              +:+ stamp (clock w (ticks w)) +:+ str_exn err +:+ nl]> (files w))
    (locked w) (clock w) (S (ticks w)) (sent w) (link w).

(** The entries [error_log] writes for [errs], the clock being read
    from [tick] on. *)
Fixpoint entries (clock : nat -> instant) (tick : nat) (errs : list exn)
  : string :=
  match errs with
  | [] => ""
  | err :: rest =>
      stamp (clock tick) +:+ str_exn err +:+ nl +:+ entries clock (S tick) rest
  end.

(** [error_log] called on each of [errs] in turn. *)
Fixpoint log_all (errs : list exn) (w : world) : reply unit :=
  match errs with
  | [] => Done tt w
  | err :: rest => and_then (error_log err w) (fun _ w => log_all rest w)
  end.

(** The main [while True] on the operator's successive inputs: the
    texts still to be received and the session once the last of them has
    been dealt with. *)
Fixpoint session_loop (inputs inbox : list string) (s : session) (w : world)
  : reply (list string * session) :=
  match inputs with
  | [] => Done (inbox, s) w
  | gcode :: inputs' =>
      and_then (cycle gcode inbox s w) (fun r w =>
      session_loop inputs' (fst r) (snd r) w)
  end.

End FurtherVocabulary.

(** The repeat command after [inputs]: the one the last input holding
    [delta] asked for. *)
Definition last_delta (inputs : list string) (stored : option string)
  : option string :=
  fold_left (fun stored gcode =>
               if contains "delta" (lower gcode)
               then Some ("G91 G0 " +:+ slice_from 6 gcode) else stored)
    inputs stored.

(** What one turn of the main loop on the input [gcode] may do to the
    session: the feed rate stays or loses its first nine characters,
    the repeat command is set by [delta] only, and the log is added to
    unless the input is [clear]. *)
Definition steps (gcode : string) (s s' : session) : Prop :=
  (feedrate s' = feedrate s \/ feedrate s' = slice_from 9 (feedrate s))
  /\ repeat s' = last_delta [gcode] (repeat s)
  /\ (String.eqb gcode "clear" = false ->
      exists more, record s' = record s +:+ more).

(** The world after one more reading of the clock. *)
Definition ticked (w : world) : world :=
  World (files w) (locked w) (clock w) (S (ticks w)) (sent w) (link w).

(** ** Further sample files, sessions and worlds *)

(** The quiet world with the peer gone: [conn.send] fails. *)
Definition offline : world :=
  World (files quiet) (locked quiet) (clock quiet) (ticks quiet) (sent quiet)
    false.

(** Three telemetry texts that carry the stop marker. *)
Definition telemetry : list string :=
  ["1.0,2.0,0.0,1000, "; "1.5,2.0,0.0,1001, "; "2.0,2.0,0.0,1002, "].

(** The lines of a file that is no drawing, with a value that is no
    number. *)
Definition garbled : list string :=
  ["hello"; "AcDbLine"; " 10"; "abc"; "  0"; "EOF"].

(** An item and a block as [readline] returns their lines, newline
    included. *)
Definition stored_item (i : item) : item :=
  match i with
  | Field tag value => Field (tag +:+ nl) (value +:+ nl)
  | Other text => Other (text +:+ nl)
  end.

Definition stored (b : block) : block :=
  match b with
  | Junk text => Junk (text +:+ nl)
  | Line e =>
      Line {| opener := opener e +:+ nl;
              items := map stored_item (items e);
              closer := closer e +:+ nl |}
  end.

(** An entity closed early by a Z value written [0]: its end point is
    left among the lines the outer loop passes over. *)
Definition cut_short : list block :=
  [Line {| opener := "AcDbLine";
           items := [Field " 10" "1.0"; Field " 20" "2.0"; Other " 30"];
           closer := "0" |};
   Junk " 11"; Junk "5.0"; Junk " 21"; Junk "6.0"; Junk " 31"; Junk "0.0";
   Junk "  0"].

(** The same start point, and nothing else. *)
Definition start_only : list block :=
  [Line {| opener := "acdbline";
           items := [Field "10" "1.0"; Field "20" "2.0"];
           closer := "0" |}].

(** An entity that gives its start X twice and no end point. *)
Definition twice : entity :=
  {| opener := "AcDbLine";
     items := [Field "10" "1.0"; Field " 10" "3.0"; Field "20" "2.0"];
     closer := "0" |}.

(** The quiet world with a drawing in [bad.dxf] whose first value is
    no number. *)
Definition scrapyard : world :=
  with_files {["bad.dxf" := text_of ["AcDbLine"; " 10"; "abc"; "  0"; "EOF"]]}
    quiet.

(** The quiet world with [run.txt] write-protected. *)
Definition readonly : world :=
  World (files quiet) {["run.txt"]} (clock quiet) (ticks quiet) (sent quiet)
    (link quiet).

(** ** What the read loop holds after some segments *)

Lemma cells_length n g segs :
  S (length segs) <= n -> length (cells n g segs) = n.
Proof.
  intros Hn. unfold cells.
  rewrite length_app, length_map, length_replicate. simpl. lia.
Qed.

Lemma cells_lookup n g segs i s :
  (origin :: segs) !! i = Some s -> cells n g segs !! i = Some (coordinate g s).
Proof.
  intros Hi. unfold cells.
  rewrite lookup_app_l.
  - rewrite list_lookup_fmap, Hi. reflexivity.
  - rewrite length_map. eapply lookup_lt_Some, Hi.
Qed.

Lemma cells_snoc_origin n g segs :
  S (length segs) < n -> cells n g (segs ++ [origin]) = cells n g segs.
Proof.
  intros Hn. unfold cells.
  rewrite length_app. simpl length.
  replace (n - S (length segs)) with (S (n - S (length segs + 1))) by lia.
  rewrite !map_cons, map_app. simpl.
  rewrite <- app_assoc. destruct g; reflexivity.
Qed.

Lemma cells_insert n g done cur v :
  <[S (length done) := v]> (cells n g (done ++ [cur]))
  = cells n g (done ++ [with_coordinate g v cur]).
Proof.
  unfold cells. rewrite !length_app. simpl length.
  rewrite !map_cons, !map_app. simpl map.
  rewrite !app_comm_cons, <- !app_assoc.
  rewrite insert_app_r_alt by (simpl; rewrite length_map; lia).
  simpl length. rewrite length_map.
  replace (S (length done) - S (length done)) with 0 by lia.
  simpl. destruct g; reflexivity.
Qed.


Lemma store_within n g done cur err v :
  S (length done) < n ->
  exists a,
    store (array_of g (within n done cur err))
      (linecount (within n done cur err)) v = Return a
    /\ with_array g a (within n done cur err)
       = within n done (with_coordinate g v cur) err.
Proof.
  intros Hn.
  exists (<[S (length done) := v]> (cells n g (done ++ [cur]))).
  split.
  - unfold store. simpl linecount.
    replace (array_of g (within n done cur err))
      with (cells n g (done ++ [cur])) by (destruct g; reflexivity).
    rewrite cells_length by (rewrite length_app; simpl; lia).
    destruct (decide (S (length done) < n)); [reflexivity | lia].
  - rewrite cells_insert. unfold within, shape.
    destruct g; simpl; f_equal;
      unfold cells; rewrite !length_app, !map_cons, !map_app; reflexivity.
Qed.

Lemma parsed_within n done err :
  S (length done) < n -> parsed n done err = within n done origin err.
Proof.
  intros Hn. unfold parsed, within, shape.
  rewrite !cells_snoc_origin by exact Hn. reflexivity.
Qed.

Lemma initial_parsed n : 1 < n -> initial n = parsed n [] "".
Proof.
  intros Hn. unfold initial, parsed, shape, cells. simpl.
  replace n with (S (n - 1)) at 1 2 3 4 by lia. reflexivity.
Qed.

Lemma close_within n done cur err :
  S (length done) < n ->
  close_entity (within n done cur err) = Return (parsed n (done ++ [cur]) err).
Proof.
  intros Hn. unfold close_entity. simpl linecount.
  assert (Hk : (origin :: done ++ [cur]) !! S (length done) = Some cur).
  { simpl. rewrite lookup_app_r by lia.
    replace (length done - length done) with 0 by lia. reflexivity. }
  unfold within, shape; simpl.
  unfold fetch.
  rewrite !(cells_lookup _ _ _ _ _ Hk). simpl.
  unfold parsed, shape. rewrite length_app. simpl length.
  replace (length done + 1 + 1) with (S (length done + 1)) by lia.
  replace (S (length done) + 1) with (S (length done + 1)) by lia.
  unfold xmax_of, xmin_of, ymax_of, ymin_of.
  rewrite !fold_left_app. reflexivity.
Qed.

Section ReadLoop.
Context `{Python}.
Variable n : nat.

Lemma read_loop_cons pc line rest c :
  read_loop n pc (line :: rest) c
  = match at_line n pc line c with
    | Return (Some pc', c') => read_loop n pc' rest c'
    | Return (None, c') => Return c'
    | Raise e => Raise e
    | Hang => Hang
    end.
Proof.
  simpl. destruct (at_line n pc line c) as [[[pc'|] c']| |]; reflexivity.
Qed.

Lemma at_line_tag line g c :
  group_of (strip line) = Some g ->
  at_line n InEntity line c = Return (Some (ValueOf g), c).
Proof.
  unfold group_of, at_line.
  destruct (String.eqb (strip line) "10"); [intros [= <-]; reflexivity|].
  destruct (String.eqb (strip line) "20"); [intros [= <-]; reflexivity|].
  destruct (String.eqb (strip line) "11"); [intros [= <-]; reflexivity|].
  destruct (String.eqb (strip line) "21"); [intros [= <-]; reflexivity|].
  discriminate.
Qed.

Lemma at_line_other line c :
  group_of (strip line) = None -> String.eqb (strip line) "0" = false ->
  at_line n InEntity line c = Return (Some InEntity, c).
Proof.
  unfold group_of, at_line. intros Hg H0. rewrite H0.
  destruct (String.eqb (strip line) "10"); [discriminate|].
  destruct (String.eqb (strip line) "20"); [discriminate|].
  destruct (String.eqb (strip line) "11"); [discriminate|].
  destruct (String.eqb (strip line) "21"); [discriminate|].
  reflexivity.
Qed.

Lemma at_line_value line g f done cur err :
  S (length done) < n ->
  float_of_str (strip line) = Some f ->
  at_line n (ValueOf g) line (within n done cur err)
  = Return (Some InEntity, within n done (with_coordinate g (Float f) cur) err).
Proof.
  intros Hn Hf. unfold at_line. rewrite Hf.
  destruct (store_within n g done cur err (Float f) Hn) as (a & Hs & Hw).
  rewrite Hs. simpl. rewrite Hw. reflexivity.
Qed.

Lemma read_items its : forall rest done cur err,
  S (length done) < n ->
  forallb valid_item its = true ->
  read_loop n InEntity (concat (map item_lines its) ++ rest)
    (within n done cur err)
  = read_loop n InEntity rest (within n done (fold_left read_item its cur) err).
Proof.
  induction its as [|i its IH]; intros rest done cur err Hn Hv; [reflexivity|].
  simpl in Hv. apply andb_prop in Hv as [Hi Hv].
  destruct i as [tag value | text]; simpl in Hi;
    simpl map; simpl concat; simpl app; simpl fold_left.
  - apply andb_prop in Hi as [Hg Hf].
    apply bool_decide_eq_true in Hg as [g Hg], Hf as [f Hf].
    rewrite read_loop_cons, (at_line_tag _ _ _ Hg).
    rewrite read_loop_cons, (at_line_value _ _ _ _ _ _ Hn Hf).
    rewrite <- (IH rest done _ err Hn Hv). simpl read_item.
    rewrite Hg, Hf. reflexivity.
  - apply andb_prop in Hi as [Hg H0].
    apply bool_decide_eq_true in Hg. apply negb_true_iff in H0.
    rewrite read_loop_cons, (at_line_other _ _ Hg H0). apply IH; assumption.
Qed.

Lemma lower_eof text :
  String.eqb (lower text) "acdbline" = true -> String.eqb text "EOF" = false.
Proof.
  intros Hl. destruct (String.eqb text "EOF") eqn:He; [|reflexivity].
  apply String.eqb_eq in He. subst text. discriminate Hl.
Qed.

Lemma read_entity e rest done err :
  S (length done) < n ->
  valid_entity e = true ->
  read_loop n Top (entity_lines e ++ rest) (parsed n done err)
  = if S (S (length done)) <? n
    then read_loop n Top rest (parsed n (done ++ [segment_of e]) err)
    else Return (with_error (parsed n (done ++ [segment_of e]) err)).
Proof.
  intros Hn Hv. unfold valid_entity in Hv.
  apply andb_prop in Hv as [Hv Hc]. apply andb_prop in Hv as [Ho Hi].
  unfold entity_lines. simpl.
  rewrite (lower_eof _ Ho), Ho. simpl.
  rewrite (parsed_within _ _ _ Hn), <- app_assoc.
  rewrite (read_items _ _ _ _ _ Hn Hi). simpl.
  apply String.eqb_eq in Hc. rewrite Hc. simpl.
  rewrite (close_within _ _ _ _ Hn). simpl.
  rewrite length_app. simpl length.
  replace (S (length done + 1)) with (S (S (length done))) by lia.
  destruct (n <=? S (S (length done))) eqn:Hq.
  - apply Nat.leb_le in Hq.
    destruct (S (S (length done)) <? n) eqn:Hq'; [|reflexivity].
    apply Nat.ltb_lt in Hq'. lia.
  - apply Nat.leb_gt in Hq.
    destruct (S (S (length done)) <? n) eqn:Hq'; [reflexivity|].
    apply Nat.ltb_ge in Hq'. lia.
Qed.

Lemma read_junk text rest c :
  valid_block (Junk text) = true ->
  read_loop n Top (text :: rest) c = read_loop n Top rest c.
Proof.
  simpl. intros Hv. apply andb_prop in Hv as [He Ha].
  apply negb_true_iff in He, Ha. rewrite He, Ha. reflexivity.
Qed.

Lemma segments_cons_line e bs :
  segments (Line e :: bs) = segment_of e :: segments bs.
Proof. reflexivity. Qed.

Lemma segments_cons_junk text bs : segments (Junk text :: bs) = segments bs.
Proof. reflexivity. Qed.

Lemma read_blocks bs : forall rest done err,
  S (length done) < n ->
  forallb valid_block bs = true ->
  read_loop n Top (concat (map block_lines bs) ++ rest) (parsed n done err)
  = if length done + length (segments bs) + 1 <? n
    then read_loop n Top rest (parsed n (done ++ segments bs) err)
    else Return (with_error
                   (parsed n (done ++ take (n - 1 - length done) (segments bs))
                      err)).
Proof.
  induction bs as [|b bs IH]; intros rest done err Hn Hv.
  - simpl. rewrite app_nil_r.
    replace (length done + 0 + 1 <? n) with true; [reflexivity|].
    symmetry. apply Nat.ltb_lt. lia.
  - simpl in Hv. apply andb_prop in Hv as [Hb Hv].
    destruct b as [text | e].
    + rewrite segments_cons_junk.
      change (concat (map block_lines (Junk text :: bs)) ++ rest)
        with (text :: concat (map block_lines bs) ++ rest).
      rewrite (read_junk _ _ _ Hb). apply IH; assumption.
    + rewrite segments_cons_line.
      change (concat (map block_lines (Line e :: bs)))
        with (entity_lines e ++ concat (map block_lines bs)).
      rewrite <- app_assoc.
      rewrite (read_entity _ _ _ _ Hn Hb). simpl length.
      destruct (S (S (length done)) <? n) eqn:Hq.
      * apply Nat.ltb_lt in Hq.
        rewrite IH by (try rewrite length_app; simpl; try lia; assumption).
        rewrite length_app. simpl length.
        replace (length done + 1 + length (segments bs) + 1)
          with (length done + S (length (segments bs)) + 1) by lia.
        rewrite <- !app_assoc. simpl app.
        destruct (length done + S (length (segments bs)) + 1 <? n);
          [reflexivity|].
        replace (n - 1 - length done) with (S (n - 1 - (length done + 1))) by lia.
        rewrite firstn_cons. reflexivity.
      * apply Nat.ltb_ge in Hq.
        replace (length done + S (length (segments bs)) + 1 <? n) with false
          by (symmetry; apply Nat.ltb_ge; lia).
        replace (n - 1 - length done) with 1 by lia.
        rewrite firstn_cons, take_0. reflexivity.
Qed.

End ReadLoop.

(** ** The generator on the parsed segments *)

Lemma append_assoc (a b c : string) : (a +:+ b) +:+ c = a +:+ (b +:+ c).
Proof. induction a as [|x a IH]; simpl; [reflexivity | rewrite IH; reflexivity]. Qed.

Lemma append_empty_r (a : string) : a +:+ "" = a.
Proof. induction a as [|x a IH]; simpl; [reflexivity | rewrite IH; reflexivity]. Qed.

Lemma concat_str_app (l1 l2 : list string) :
  concat_str (l1 ++ l2) = concat_str l1 +:+ concat_str l2.
Proof.
  induction l1 as [|s l1 IH]; simpl; [reflexivity|].
  rewrite IH, append_assoc. reflexivity.
Qed.

Ltac str_norm :=
  repeat first [rewrite append_assoc | rewrite append_empty_r | progress simpl].

Section Generator.
Context `{Python}.
Variable n : nat.

Lemma emit_shape feedrate count stored closed err acc flag i prev s :
  (origin :: stored) !! i = Some prev ->
  (origin :: stored) !! S i = Some s ->
  exists flag',
    emit feedrate (shape n count stored closed err) (acc, flag) (S i)
    = Return (acc +:+ concat_str (moves feedrate prev (flag =? 0) [s]), flag')
    /\ (flag' =? 0) = false.
Proof.
  intros Hp Hs. unfold emit. simpl xstart. simpl xend. simpl ystart. simpl yend.
  unfold fetch.
  replace (S i - 1) with i by lia.
  rewrite !(cells_lookup _ _ _ _ _ Hp), !(cells_lookup _ _ _ _ _ Hs).
  simpl. unfold chained.
  destruct (py_ne (start_x s) (end_x prev) || py_ne (start_y s) (end_y prev));
    simpl.
  - exists 1. split; [|reflexivity].
    unfold bridge_line, draw_line. str_norm. reflexivity.
  - destruct (flag =? 0) eqn:Hflag.
    + exists 1. split; [|reflexivity]. unfold draw_line. str_norm. reflexivity.
    + exists flag. split; [|exact Hflag]. unfold draw_line. str_norm. reflexivity.
Qed.

Lemma moves_cons feedrate prev pending s rest :
  moves feedrate prev pending (s :: rest)
  = moves feedrate prev pending [s] ++ moves feedrate s false rest.
Proof. simpl. destruct (chained prev s); reflexivity. Qed.

Lemma fold_emit feedrate count stored closed err todo :
  forall i prev acc flag,
  (forall k, k <= length todo ->
             (origin :: stored) !! (i + k) = (prev :: todo) !! k) ->
  exists flag',
    foldM (emit feedrate (shape n count stored closed err))
      (acc, flag) (seq (S i) (length todo))
    = Return (acc +:+ concat_str (moves feedrate prev (flag =? 0) todo), flag').
Proof.
  induction todo as [|s todo IH]; intros i prev acc flag Hall.
  - exists flag. simpl. rewrite append_empty_r. reflexivity.
  - assert (Hp : (origin :: stored) !! i = Some prev).
    { specialize (Hall 0). rewrite Nat.add_0_r in Hall. apply Hall. simpl. lia. }
    assert (Hs : (origin :: stored) !! S i = Some s).
    { specialize (Hall 1). replace (i + 1) with (S i) in Hall by lia.
      apply Hall. simpl. lia. }
    destruct (emit_shape feedrate count stored closed err acc flag i prev s Hp Hs)
      as (flag1 & Hemit & Hflag1).
    destruct (IH (S i) s
                (acc +:+ concat_str (moves feedrate prev (flag =? 0) [s])) flag1)
      as (flag2 & Hfold).
    { intros k Hk. specialize (Hall (S k)).
      replace (S i + k) with (i + S k) by lia. apply Hall. simpl. lia. }
    exists flag2.
    change (seq (S i) (length (s :: todo)))
      with (S i :: seq (S (S i)) (length todo)).
    change (foldM ?f ?a (?b :: ?l)) with (a' ← f a b; foldM f a' l).
    rewrite Hemit.
    change (foldM (emit feedrate (shape n count stored closed err))
              (acc +:+ concat_str (moves feedrate prev (flag =? 0) [s]), flag1)
              (seq (S (S i)) (length todo))
            = Return (acc +:+ concat_str (moves feedrate prev (flag =? 0)
                                            (s :: todo)), flag2)).
    rewrite Hfold, Hflag1.
    rewrite (moves_cons _ _ _ s todo), concat_str_app, append_assoc.
    reflexivity.
Qed.

Lemma generate_shape feedrate segs closed err :
  generate feedrate (shape n (S (length segs)) segs closed err)
  = Return (header +:+ concat_str (moves feedrate origin true segs)).
Proof.
  unfold generate. simpl linecount.
  replace (S (length segs) - 1) with (length segs) by lia.
  destruct (fold_emit feedrate (S (length segs)) segs closed err segs
              0 origin header 0) as (flag & Hfold).
  { intros k _. reflexivity. }
  rewrite Hfold. reflexivity.
Qed.

End Generator.

(** ** Order on floats, and running bounds *)

Ltac cmp_cases :=
  repeat match goal with
  | |- context [(?a ?= ?b)%Z] => destruct (Z.compare_spec a b)
  | H : context [(?a ?= ?b)%Z] |- _ => destruct (Z.compare_spec a b)
  | |- context [PosDef.Pos.compare_cont Eq ?a ?b] =>
      change (PosDef.Pos.compare_cont Eq a b) with (Pos.compare a b);
      destruct (Pos.compare_spec a b)
  | H : context [PosDef.Pos.compare_cont Eq ?a ?b] |- _ =>
      change (PosDef.Pos.compare_cont Eq a b) with (Pos.compare a b) in H;
      destruct (Pos.compare_spec a b)
  end.

Ltac float_cases :=
  unfold SFltb, SFcompare;
  repeat match goal with
  | |- forall f : spec_float, _ => intros [[]|[]| |[] ? ?]
  end;
  try discriminate; try reflexivity; intros;
  cmp_cases; simpl in *; try discriminate; try reflexivity; try lia;
  subst; try reflexivity.

Lemma SFltb_irrefl : forall a, SFltb a a = false.
Proof. float_cases. Qed.

Lemma SFltb_trans : forall a b c,
  SFltb a b = true -> SFltb b c = true -> SFltb a c = true.
Proof. float_cases. Qed.

Lemma SFltb_above_zero_eq : forall a b,
  SFltb (S754_zero false) a = true -> SFltb (S754_zero false) b = true ->
  SFltb a b = false -> SFltb b a = false -> a = b.
Proof. float_cases. Qed.

Lemma SFltb_below_zero_eq : forall a b,
  SFltb a (S754_zero false) = true -> SFltb b (S754_zero false) = true ->
  SFltb a b = false -> SFltb b a = false -> a = b.
Proof. float_cases. Qed.

Lemma SFltb_not_nan_l : forall a b, SFltb a b = true -> SFeqb a a = true.
Proof. unfold SFeqb. float_cases. Qed.

Lemma SFltb_not_nan_r : forall a b, SFltb a b = true -> SFeqb b b = true.
Proof. unfold SFeqb. float_cases. Qed.

Lemma as_float_inj_above a b :
  SFltb (S754_zero false) (as_float a) = true ->
  SFltb (S754_zero false) (as_float b) = true ->
  as_float a = as_float b -> a = b.
Proof. destruct a, b; simpl; try discriminate; congruence. Qed.

Lemma as_float_inj_below a b :
  SFltb (as_float a) (S754_zero false) = true ->
  SFltb (as_float b) (S754_zero false) = true ->
  as_float a = as_float b -> a = b.
Proof. destruct a, b; simpl; try discriminate; congruence. Qed.

Section RunningBound.
Variable beyond : number -> number -> bool.   (* [beyond m v]: [v] replaces [m] *)
Hypothesis beyond_irrefl : forall a, beyond a a = false.
Hypothesis beyond_trans : forall a b c,
  beyond a b = true -> beyond b c = true -> beyond a c = true.
Hypothesis beyond_tie : forall a b,
  beyond Int0 a = true -> beyond Int0 b = true ->
  beyond a b = false -> beyond b a = false -> a = b.

Lemma running_bound vs : forall m, bound_of beyond m vs (running beyond vs m).
Proof.
  induction vs as [|v vs IH]; intros m.
  - split; [left; reflexivity|]. intros u Hu.
    apply list_elem_of_singleton in Hu. subst u. apply beyond_irrefl.
  - simpl. destruct (IH (if beyond m v then v else m)) as [Hin Hub].
    set (M := running beyond vs (if beyond m v then v else m)) in *.
    destruct (beyond m v) eqn:Hmv.
    + split.
      * right. destruct Hin as [-> | [Hin Hlt]].
        -- split; [left | exact Hmv].
        -- split; [right; exact Hin | exact (beyond_trans _ _ _ Hmv Hlt)].
      * intros u Hu. apply elem_of_cons in Hu as [-> | Hu]; [| apply Hub, Hu].
        destruct (beyond M m) eqn:HMm; [|reflexivity].
        rewrite <- (Hub v (list_elem_of_here _ _)).
        symmetry. exact (beyond_trans _ _ _ HMm Hmv).
    + split.
      * destruct Hin as [-> | [Hin Hlt]]; [left; reflexivity|].
        right. split; [right; exact Hin | exact Hlt].
      * intros u Hu. apply elem_of_cons in Hu as [-> | Hu];
          [apply Hub; left|].
        apply elem_of_cons in Hu as [-> | Hu];
          [| apply Hub; right; exact Hu].
        destruct Hin as [-> | [Hin Hlt]]; [exact Hmv|].
        destruct (beyond M v) eqn:HMv; [|reflexivity].
        rewrite <- Hmv. symmetry. exact (beyond_trans _ _ _ Hlt HMv).
Qed.

Lemma bound_of_unique vs vs' m m' :
  (forall v, v ∈ vs <-> v ∈ vs') ->
  bound_of beyond Int0 vs m -> bound_of beyond Int0 vs' m' -> m = m'.
Proof.
  intros Hsame [Hin Hub] [Hin' Hub'].
  destruct Hin as [-> | [Hin Hlt]], Hin' as [-> | [Hin' Hlt']].
  - reflexivity.
  - rewrite (Hub m') in Hlt'; [discriminate|]. right. apply Hsame, Hin'.
  - rewrite (Hub' m) in Hlt; [discriminate|]. right. apply Hsame, Hin.
  - apply beyond_tie; try assumption.
    + apply Hub. right. apply Hsame, Hin'.
    + apply Hub'. right. apply Hsame, Hin.
Qed.

Lemma running_permutation vs vs' :
  Permutation vs vs' -> running beyond vs Int0 = running beyond vs' Int0.
Proof.
  intros Hp. apply (bound_of_unique vs vs'); try apply running_bound.
  intros v. split; intros Hv.
  - rewrite <- Hp. exact Hv.
  - rewrite Hp. exact Hv.
Qed.

End RunningBound.

(** ** The bounding box *)

Lemma above_irrefl a : above a a = false.
Proof. apply SFltb_irrefl. Qed.
Lemma above_trans a b c :
  above a b = true -> above b c = true -> above a c = true.
Proof. apply SFltb_trans. Qed.
Lemma above_tie a b :
  above Int0 a = true -> above Int0 b = true ->
  above a b = false -> above b a = false -> a = b.
Proof.
  unfold above, py_lt. intros Ha Hb Hab Hba.
  apply as_float_inj_above; try assumption.
  apply SFltb_above_zero_eq; assumption.
Qed.

Lemma below_irrefl a : below a a = false.
Proof. apply SFltb_irrefl. Qed.
Lemma below_trans a b c :
  below a b = true -> below b c = true -> below a c = true.
Proof. unfold below, py_lt. intros Hab Hbc. exact (SFltb_trans _ _ _ Hbc Hab). Qed.
Lemma below_tie a b :
  below Int0 a = true -> below Int0 b = true ->
  below a b = false -> below b a = false -> a = b.
Proof.
  unfold below, py_lt. intros Ha Hb Hab Hba.
  apply as_float_inj_below; try assumption.
  apply SFltb_below_zero_eq; assumption.
Qed.

Lemma fold_pairs (f : number -> number -> number) (p q : segment -> number)
    segs : forall m,
  fold_left (fun m s => f (q s) (f (p s) m)) segs m
  = fold_left (fun m v => f v m) (flat_map (fun s => [p s; q s]) segs) m.
Proof.
  induction segs as [|s segs IH]; intros m; [reflexivity|].
  simpl. apply IH.
Qed.

Lemma xmax_running segs : xmax_of segs = running above (xs_of segs) Int0.
Proof. apply (fold_pairs raise_to start_x end_x). Qed.
Lemma xmin_running segs : xmin_of segs = running below (xs_of segs) Int0.
Proof. apply (fold_pairs lower_to start_x end_x). Qed.
Lemma ymax_running segs : ymax_of segs = running above (ys_of segs) Int0.
Proof. apply (fold_pairs raise_to start_y end_y). Qed.
Lemma ymin_running segs : ymin_of segs = running below (ys_of segs) Int0.
Proof. apply (fold_pairs lower_to start_y end_y). Qed.

Lemma running_greatest vs : greatest (running above vs Int0) (Int0 :: vs).
Proof.
  destruct (running_bound above above_irrefl above_trans vs Int0) as [Hin Hub].
  split; [|split].
  - destruct Hin as [-> | [Hin _]]; [left | right; exact Hin].
  - destruct Hin as [-> | [_ Hlt]]; [reflexivity|].
    unfold py_ne.
    rewrite (SFltb_not_nan_r (as_float Int0)
               (as_float (running above vs Int0)) Hlt).
    reflexivity.
  - exact Hub.
Qed.

Lemma running_least vs : least (running below vs Int0) (Int0 :: vs).
Proof.
  destruct (running_bound below below_irrefl below_trans vs Int0) as [Hin Hub].
  split; [|split].
  - destruct Hin as [-> | [Hin _]]; [left | right; exact Hin].
  - destruct Hin as [-> | [_ Hlt]]; [reflexivity|].
    unfold py_ne.
    rewrite (SFltb_not_nan_l (as_float (running below vs Int0))
               (as_float Int0) Hlt).
    reflexivity.
  - exact Hub.
Qed.

Lemma flat_map_permutation {A B} (f : A -> list B) (l l' : list A) :
  Permutation l l' -> Permutation (flat_map f l) (flat_map f l').
Proof.
  induction 1; simpl.
  - constructor.
  - apply Permutation_app_head. assumption.
  - rewrite !app_assoc. apply Permutation_app_tail, Permutation_app_comm.
  - etransitivity; eassumption.
Qed.

Lemma box_permutation segs segs' :
  Permutation segs segs' ->
  xmax_of segs = xmax_of segs' /\ xmin_of segs = xmin_of segs'
  /\ ymax_of segs = ymax_of segs' /\ ymin_of segs = ymin_of segs'.
Proof.
  intros Hp.
  rewrite !xmax_running, !xmin_running, !ymax_running, !ymin_running.
  repeat split.
  - apply (running_permutation above above_irrefl above_trans above_tie).
    apply flat_map_permutation, Hp.
  - apply (running_permutation below below_irrefl below_trans below_tie).
    apply flat_map_permutation, Hp.
  - apply (running_permutation above above_irrefl above_trans above_tie).
    apply flat_map_permutation, Hp.
  - apply (running_permutation below below_irrefl below_trans below_tie).
    apply flat_map_permutation, Hp.
Qed.

(** ** The lines of the program text *)

Lemma readlines_from_line l : forall cur rest,
  one_line l = true ->
  readlines_from cur (l +:+ rest)
  = String.rev_app cur l :: readlines rest.
Proof.
  induction l as [|c l IH]; intros cur rest Hl; [discriminate|].
  simpl in Hl |- *. destruct (Ascii.eqb c "010") eqn:Hc.
  - apply String.eqb_eq in Hl. subst l. reflexivity.
  - rewrite IH by exact Hl. reflexivity.
Qed.

Lemma readlines_concat ls :
  forallb one_line ls = true -> readlines (concat_str ls) = ls.
Proof.
  induction ls as [|l ls IH]; intros Hls; [reflexivity|].
  simpl in Hls. apply andb_prop in Hls as [Hl Hls].
  simpl. unfold readlines at 1. rewrite readlines_from_line by exact Hl.
  rewrite IH by exact Hls. reflexivity.
Qed.


Lemma one_line_app a b :
  no_newline a = true -> one_line b = true -> one_line (a +:+ b) = true.
Proof.
  induction a as [|c a IH]; simpl; intros Ha Hb; [exact Hb|].
  apply andb_prop in Ha as [Hc Ha]. apply negb_true_iff in Hc.
  rewrite Hc. apply IH; assumption.
Qed.

Lemma plain_no_newline s : plain s = true -> no_newline s = true.
Proof.
  induction s as [|c s IH]; simpl; [reflexivity|]. intros Hs.
  apply andb_prop in Hs as [Hc Hs]. apply andb_prop in Hc as [Hc _].
  rewrite Hc. apply IH, Hs.
Qed.


Lemma prefix_cons a s1 b s2 :
  String.prefix (String a s1) (String b s2)
  = if ascii_dec a b then String.prefix s1 s2 else false.
Proof. reflexivity. Qed.

Lemma contains_cons sub c s :
  contains sub (String c s) = String.prefix sub (String c s) || contains sub s.
Proof. reflexivity. Qed.

Lemma no_f_cons c s :
  no_f (String c s) = true -> c <> "F"%char /\ no_f s = true.
Proof.
  simpl. intros Hs. apply andb_prop in Hs as [Hf Hs].
  apply negb_true_iff in Hf. apply Ascii.eqb_neq in Hf. auto.
Qed.

Lemma no_f_app a b : no_f (a +:+ b) = no_f a && no_f b.
Proof.
  induction a as [|c a IH]; simpl; [reflexivity|].
  rewrite IH, andb_assoc. reflexivity.
Qed.

Lemma plain_no_f s : plain s = true -> no_f s = true.
Proof.
  induction s as [|c s IH]; simpl; [reflexivity|]. intros Hs.
  apply andb_prop in Hs as [Hc Hs]. apply andb_prop in Hc as [_ Hc].
  rewrite Hc. apply IH, Hs.
Qed.

Lemma no_f_no_feed s : no_f s = true -> has_feed s = false.
Proof.
  unfold has_feed.
  induction s as [|c s IH]; [reflexivity|]. intros Hs.
  apply no_f_cons in Hs as (_ & Hs).
  rewrite contains_cons, (IH Hs), orb_false_r, prefix_cons.
  destruct (ascii_dec " " c); [|reflexivity].
  destruct s as [|d s]; [reflexivity|].
  apply no_f_cons in Hs as (Hd & _).
  rewrite prefix_cons. destruct (ascii_dec "F" d); [congruence | reflexivity].
Qed.

Lemma prefix_app a b : String.prefix a (a +:+ b) = true.
Proof.
  induction a as [|c a IH]; [destruct b; reflexivity|].
  change (String c a +:+ b) with (String c (a +:+ b)).
  rewrite prefix_cons. destruct (ascii_dec c c); [exact IH | congruence].
Qed.

Lemma contains_prefix sub s : String.prefix sub s = true -> contains sub s = true.
Proof.
  intros Hp.
  destruct s; [change (contains sub "") with (String.prefix sub "" || false)
              | rewrite contains_cons];
    rewrite Hp; reflexivity.
Qed.

Lemma contains_app_r sub a b :
  contains sub b = true -> contains sub (a +:+ b) = true.
Proof.
  intros Hb. induction a as [|c a IH]; [exact Hb|].
  change (String c a +:+ b) with (String c (a +:+ b)).
  rewrite contains_cons, IH. apply orb_true_r.
Qed.

(** ** Compiling a drawing *)

Section Compile.
Context `{Python}.

Lemma compile_blocks n bs rest feedrate :
  1 < n ->
  forallb valid_block bs = true ->
  n <= S (length (segments bs)) ->
  compile n (concat (map block_lines bs) ++ rest) feedrate
  = Return (with_error (parsed n (take (n - 1) (segments bs)) ""),
            program feedrate (take (n - 1) (segments bs))).
Proof.
  intros Hn Hv Hfull. unfold compile.
  rewrite (initial_parsed _ Hn).
  rewrite read_blocks by (simpl; assumption || lia).
  simpl length.
  replace (0 + length (segments bs) + 1 <? n) with false
    by (symmetry; apply Nat.ltb_ge; lia).
  rewrite Nat.sub_0_r. simpl app.
  change (with_error (parsed n (take (n - 1) (segments bs)) ""))
    with (shape n (S (length (take (n - 1) (segments bs))))
            (take (n - 1) (segments bs)) (take (n - 1) (segments bs))
            ("" +:+ capacity_message)).
  simpl mbind. unfold mbind, outcome_bind.
  rewrite generate_shape. reflexivity.
Qed.

Lemma compile_drawing n bs eof trailer feedrate :
  1 < n ->
  valid_drawing bs eof = true ->
  S (length (segments bs)) < n ->
  compile n (drawing_lines bs eof ++ trailer) feedrate
  = Return (parsed n (segments bs) "", program feedrate (segments bs)).
Proof.
  intros Hn Hv Hfit. unfold compile, drawing_lines.
  apply andb_prop in Hv as [Hv He].
  rewrite (initial_parsed _ Hn), <- app_assoc.
  rewrite read_blocks by (simpl; assumption || lia).
  simpl length.
  replace (0 + length (segments bs) + 1 <? n) with true
    by (symmetry; apply Nat.ltb_lt; lia).
  simpl app. simpl read_loop. rewrite He. simpl.
  unfold mbind, outcome_bind. unfold parsed at 1.
  rewrite generate_shape. reflexivity.
Qed.

Lemma moves_step feedrate prev pending s rest :
  moves feedrate prev pending (s :: rest)
  = if chained prev s
    then draw_line (if pending then Some feedrate else None) s
         :: moves feedrate s false rest
    else bridge_line s :: draw_line (Some feedrate) s
         :: moves feedrate s false rest.
Proof. reflexivity. Qed.

Lemma forallb_cons {A} (f : A -> bool) a l :
  forallb f (a :: l) = f a && forallb f l.
Proof. reflexivity. Qed.

Lemma moves_one_line feedrate segs : forall prev pending,
  printable segs = true -> no_newline feedrate = true ->
  forallb one_line (moves feedrate prev pending segs) = true.
Proof.
  induction segs as [|s segs IH]; intros prev pending Hp Hf; [reflexivity|].
  simpl in Hp. apply andb_prop in Hp as [Hs Hp].
  apply andb_prop in Hs as [Hs H4]. apply andb_prop in Hs as [Hs H3].
  apply andb_prop in Hs as [H1 H2].
  apply plain_no_newline in H1, H2, H3, H4.
  assert (Hb : one_line (bridge_line s) = true).
  { unfold bridge_line. repeat (apply one_line_app; [assumption || reflexivity|]).
    reflexivity. }
  assert (Hd : forall feed, match feed with Some f => f = feedrate | None => True end ->
                            one_line (draw_line feed s) = true).
  { intros feed Hfeed. unfold draw_line.
    repeat (apply one_line_app; [assumption || reflexivity|]).
    destruct feed as [f|]; [subst f|]; simpl; [|reflexivity].
    apply (one_line_app feedrate nl Hf). reflexivity. }
  rewrite moves_step. destruct (chained prev s); rewrite !forallb_cons.
  - rewrite Hd by (destruct pending; trivial). apply IH; assumption.
  - rewrite Hb, Hd by trivial. apply IH; assumption.
Qed.

Lemma moves_are_moves feedrate segs : forall prev pending,
  forallb is_move (moves feedrate prev pending segs) = true.
Proof.
  induction segs as [|s segs IH]; intros prev pending; [reflexivity|].
  assert (Hb : is_move (bridge_line s) = true) by apply prefix_app.
  assert (Hd : forall feed, is_move (draw_line feed s) = true)
    by (intros feed; apply prefix_app).
  rewrite moves_step. destruct (chained prev s); rewrite !forallb_cons;
    rewrite ?Hb, Hd, IH; reflexivity.
Qed.

Lemma program_lines feedrate segs :
  printable segs = true -> no_newline feedrate = true ->
  readlines (program feedrate segs)
  = header :: moves feedrate origin true segs.
Proof.
  intros Hp Hf.
  change (program feedrate segs)
    with (concat_str (header :: moves feedrate origin true segs)).
  apply readlines_concat. simpl. apply moves_one_line; assumption.
Qed.

Lemma moves_linked feedrate segs : forall prev,
  linked prev segs = true ->
  moves feedrate prev false segs = map (draw_line None) segs.
Proof.
  induction segs as [|s segs IH]; intros prev Hl; [reflexivity|].
  simpl in Hl |- *. apply andb_prop in Hl as [-> Hl].
  rewrite IH by exact Hl. reflexivity.
Qed.

Lemma moves_apart feedrate segs : forall prev pending,
  apart prev segs = true ->
  moves feedrate prev pending segs
  = flat_map (fun s => [bridge_line s; draw_line (Some feedrate) s]) segs.
Proof.
  induction segs as [|s segs IH]; intros prev pending Ha; [reflexivity|].
  simpl in Ha |- *. apply andb_prop in Ha as [Hc Ha].
  apply negb_true_iff in Hc. rewrite Hc, (IH _ _ Ha). reflexivity.
Qed.

Lemma chained_origin s : chained origin s = negb (off_zero s).
Proof. reflexivity. Qed.

Lemma bridge_no_feed s :
  printable [s] = true -> has_feed (bridge_line s) = false.
Proof.
  intros Hp. simpl in Hp. rewrite andb_true_r in Hp.
  apply andb_prop in Hp as [Hp _]. apply andb_prop in Hp as [Hp _].
  apply andb_prop in Hp as [H1 H2].
  apply plain_no_f in H1, H2.
  apply no_f_no_feed. unfold bridge_line.
  rewrite !no_f_app, H1, H2. reflexivity.
Qed.

Lemma draw_no_feed s :
  printable [s] = true -> has_feed (draw_line None s) = false.
Proof.
  intros Hp. simpl in Hp. rewrite andb_true_r in Hp.
  apply andb_prop in Hp as [Hp H4]. apply andb_prop in Hp as [_ H3].
  apply plain_no_f in H3, H4.
  apply no_f_no_feed. unfold draw_line.
  rewrite !no_f_app, H3, H4. reflexivity.
Qed.

Lemma draw_feed feedrate s : has_feed (draw_line (Some feedrate) s) = true.
Proof.
  unfold has_feed, draw_line.
  do 4 apply contains_app_r.
  apply contains_prefix, (prefix_app " F" (feedrate +:+ nl)).
Qed.

End Compile.

(** ** The claims on the path compiler *)

Section CompilerClaims.
Context `{Python}.

Lemma segments_app bs1 bs2 : segments (bs1 ++ bs2) = segments bs1 ++ segments bs2.
Proof.
  unfold segments, entities. rewrite omap_app, map_app. reflexivity.
Qed.

Lemma qty_large : 1 < qty.
Proof. unfold qty. lia. Qed.

(** A valid drawing compiles: the program is that of the first
    [n - 1] segments, and the locals hold them. *)
Lemma compile_program n bs eof trailer feedrate :
  1 < n ->
  valid_drawing bs eof = true ->
  compile n (drawing_lines bs eof ++ trailer) feedrate
  = Return (if S (length (segments bs)) <? n
            then parsed n (take (n - 1) (segments bs)) ""
            else with_error (parsed n (take (n - 1) (segments bs)) ""),
            program feedrate (take (n - 1) (segments bs))).
Proof.
  intros Hn Hv. destruct (S (length (segments bs)) <? n) eqn:Hfit.
  - apply Nat.ltb_lt in Hfit.
    rewrite take_ge by lia. apply compile_drawing; assumption.
  - apply Nat.ltb_ge in Hfit. unfold drawing_lines.
    rewrite <- app_assoc. apply andb_prop in Hv as [Hv _].
    apply compile_blocks; assumption.
Qed.

Lemma length_pairs {A B} (f g : A -> B) (l : list A) :
  length (flat_map (fun a => [f a; g a]) l) = 2 * length l.
Proof. induction l as [|a l IH]; [reflexivity|]. simpl. rewrite IH. lia. Qed.

Lemma printable_cons s l : printable (s :: l) = printable [s] && printable l.
Proof.
  unfold printable. rewrite !forallb_cons.
  change (forallb _ []) with true. rewrite andb_true_r. reflexivity.
Qed.

(** C1, as amended.  A valid drawing of at most [qty - 1] segments, each
    starting where the one before it ends, compiles to the header, a
    bridging move when the first segment does not start at (0, 0), and
    one draw move per segment; the feed rate is on the first draw move
    and on no other line.  When the numbers and the feed rate print
    without a newline (and the numbers without a capital F), these moves
    are the lines of the text after the header. *)
Theorem chained_program_moves bs eof trailer feedrate s1 rest :
  valid_drawing bs eof = true ->
  segments bs = s1 :: rest ->
  length (segments bs) < qty ->
  linked s1 rest = true ->
  exists c text lines,
    compile qty (drawing_lines bs eof ++ trailer) feedrate = Return (c, text)
    /\ text = header +:+ concat_str lines
    /\ lines = (if off_zero s1 then [bridge_line s1] else [])
               ++ draw_line (Some feedrate) s1 :: map (draw_line None) rest
    /\ forallb is_move lines = true
    /\ length lines = length (segments bs) + (if off_zero s1 then 1 else 0)
    /\ (printable (segments bs) = true -> no_newline feedrate = true ->
        readlines text = header :: lines
        /\ map has_feed lines
           = (if off_zero s1 then [false] else [])
             ++ true :: replicate (length rest) false).
Proof.
  intros Hv Hsegs Hfit Hlink.
  pose proof (compile_program qty bs eof trailer feedrate qty_large Hv) as Hc.
  rewrite (take_ge (segments bs)) in Hc by lia.
  eexists _, _, _. split; [exact Hc|].
  assert (Hlines : moves feedrate origin true (segments bs)
                   = (if off_zero s1 then [bridge_line s1] else [])
                     ++ draw_line (Some feedrate) s1
                     :: map (draw_line None) rest).
  { rewrite Hsegs, moves_step, chained_origin, (moves_linked _ _ _ Hlink).
    destruct (off_zero s1); reflexivity. }
  split; [unfold program; rewrite Hlines; reflexivity|].
  split; [reflexivity|].
  split; [rewrite <- Hlines; apply moves_are_moves|].
  split.
  - rewrite length_app, length_cons, length_map, Hsegs, length_cons.
    destruct (off_zero s1); simpl; lia.
  - intros Hprint Hfeed.
    split; [rewrite program_lines by assumption; rewrite Hlines; reflexivity|].
    rewrite Hsegs, printable_cons in Hprint.
    apply andb_prop in Hprint as [Hp1' Hprest].
    rewrite map_app, map_cons, draw_feed.
    assert (Hrest : map has_feed (map (draw_line None) rest)
                    = replicate (length rest) false).
    { clear -Hprest. induction rest as [|s rest IH]; [reflexivity|].
      rewrite printable_cons in Hprest.
      apply andb_prop in Hprest as [Hs Hprest].
      rewrite !map_cons, (IH Hprest), (draw_no_feed _ Hs). reflexivity. }
    rewrite Hrest.
    destruct (off_zero s1); [|reflexivity].
    rewrite map_cons, (bridge_no_feed _ Hp1'). reflexivity.
Qed.

(** C2, as amended.  A valid drawing of at most [qty - 1] segments, none
    starting where the one before it ends and the first not at (0, 0),
    compiles to the header and, per segment, a bridging move followed by
    a draw move: 2N move lines.  When the numbers and the feed rate
    print without a newline, these moves are the lines of the text after
    the header. *)
Theorem bridged_program_moves bs eof trailer feedrate :
  valid_drawing bs eof = true ->
  length (segments bs) < qty ->
  apart origin (segments bs) = true ->
  exists c text lines,
    compile qty (drawing_lines bs eof ++ trailer) feedrate = Return (c, text)
    /\ text = header +:+ concat_str lines
    /\ lines = flat_map (fun s => [bridge_line s; draw_line (Some feedrate) s])
                 (segments bs)
    /\ forallb is_move lines = true
    /\ length lines = 2 * length (segments bs)
    /\ (printable (segments bs) = true -> no_newline feedrate = true ->
        readlines text = header :: lines).
Proof.
  intros Hv Hfit Hapart.
  pose proof (compile_program qty bs eof trailer feedrate qty_large Hv) as Hc.
  rewrite (take_ge (segments bs)) in Hc by lia.
  eexists _, _, _. split; [exact Hc|].
  split; [unfold program; rewrite (moves_apart _ _ _ _ Hapart); reflexivity|].
  split; [reflexivity|].
  split; [rewrite <- (moves_apart feedrate _ origin true Hapart);
          apply moves_are_moves|].
  split; [apply length_pairs|].
  intros Hprint Hfeed.
  rewrite program_lines by assumption.
  rewrite (moves_apart _ _ _ _ Hapart). reflexivity.
Qed.

(** C10.  The arrays keep zeros at index 0 and the first segment at
    index 1; for a valid drawing with at least one entity the program
    is the header, a bridging move to the first segment's start exactly
    when that start is not (0, 0), then the first draw move, which
    carries the feed rate, and the other moves.  When the numbers and
    the feed rate print without a newline (and the numbers without a
    capital F), the text shows a bridging line before the first draw line
    if and only if the start is not (0, 0). *)
Theorem first_segment_bridge bs eof trailer feedrate s1 rest :
  valid_drawing bs eof = true ->
  segments bs = s1 :: rest ->
  exists c text others,
    compile qty (drawing_lines bs eof ++ trailer) feedrate = Return (c, text)
    /\ (xstart c !! 0, ystart c !! 0, xend c !! 0, yend c !! 0)
       = (Some Int0, Some Int0, Some Int0, Some Int0)
    /\ (xstart c !! 1, ystart c !! 1) = (Some (start_x s1), Some (start_y s1))
    /\ text = header
              +:+ concat_str ((if off_zero s1 then [bridge_line s1] else [])
                              ++ draw_line (Some feedrate) s1 :: others)
    /\ (printable (take (qty - 1) (segments bs)) = true ->
        no_newline feedrate = true ->
        readlines text
        = header :: (if off_zero s1 then [bridge_line s1] else [])
                    ++ draw_line (Some feedrate) s1 :: others
        /\ ((exists others',
               readlines text
               = header :: bridge_line s1 :: draw_line (Some feedrate) s1
                        :: others')
            <-> off_zero s1 = true)).
Proof.
  intros Hv Hsegs.
  pose proof (compile_program qty bs eof trailer feedrate qty_large Hv) as Hc.
  assert (Hkept : take (qty - 1) (segments bs) = s1 :: take (qty - 2) rest).
  { rewrite Hsegs. reflexivity. }
  rewrite Hkept in Hc. rewrite Hkept.
  eexists _, _, (moves feedrate s1 false (take (qty - 2) rest)).
  split; [exact Hc|].
  split; [destruct (S (length (segments bs)) <? qty); reflexivity|].
  split; [destruct (S (length (segments bs)) <? qty); reflexivity|].
  assert (Hmoves : moves feedrate origin true (s1 :: take (qty - 2) rest)
                   = (if off_zero s1 then [bridge_line s1] else [])
                     ++ draw_line (Some feedrate) s1
                     :: moves feedrate s1 false (take (qty - 2) rest)).
  { rewrite moves_step, chained_origin. destruct (off_zero s1); reflexivity. }
  split; [unfold program; rewrite Hmoves; reflexivity|].
  intros Hprint Hfeed.
  assert (Hlines : readlines (program feedrate (s1 :: take (qty - 2) rest))
                   = header :: (if off_zero s1 then [bridge_line s1] else [])
                               ++ draw_line (Some feedrate) s1
                               :: moves feedrate s1 false (take (qty - 2) rest)).
  { rewrite program_lines by assumption. rewrite Hmoves. reflexivity. }
  split; [exact Hlines|].
  rewrite Hlines. rewrite printable_cons in Hprint.
  apply andb_prop in Hprint as [Hp1 _].
  destruct (off_zero s1).
  - split; [reflexivity|]. intros _. eexists. reflexivity.
  - split; [|discriminate]. intros [others' Heq].
    assert (Hfirst : draw_line (Some feedrate) s1 = bridge_line s1)
      by (apply (f_equal (fun l => hd "" (tail l))) in Heq; exact Heq).
    pose proof (draw_feed feedrate s1) as Hyes.
    rewrite Hfirst, (bridge_no_feed _ Hp1) in Hyes. discriminate Hyes.
Qed.

(** C6.  A valid drawing with more line entities than the arrays take,
    [qty] or more and so [qty + 1] in particular, compiles: the capacity
    error is recorded (the error text, empty until then, holds the
    message of line 187), the read loop has stopped after [qty - 1]
    entities (whatever follows them in the file is not read), and the
    program is that of these [qty - 1] segments. *)
Theorem capacity_overflow bs eof trailer feedrate :
  valid_drawing bs eof = true ->
  qty <= length (segments bs) ->
  exists c,
    compile qty (drawing_lines bs eof ++ trailer) feedrate
    = Return (c, program feedrate (take (qty - 1) (segments bs)))
    /\ error c
       = "Error: ran out of dimentioned line arrey. Increase qty value." +:+ nl
    /\ error c <> error (initial qty)
    /\ linecount c = qty
    /\ (xstart c, ystart c, xend c, yend c)
       = (cells qty G10 (take (qty - 1) (segments bs)),
          cells qty G20 (take (qty - 1) (segments bs)),
          cells qty G11 (take (qty - 1) (segments bs)),
          cells qty G21 (take (qty - 1) (segments bs)))
    /\ (forall front back other,
          bs = front ++ back -> length (segments front) = qty - 1 ->
          compile qty (concat (map block_lines front) ++ other) feedrate
          = Return (c, program feedrate (take (qty - 1) (segments bs)))).
Proof.
  intros Hv Hlen.
  pose proof (compile_program qty bs eof trailer feedrate qty_large Hv) as Hc.
  replace (S (length (segments bs)) <? qty) with false in Hc
    by (symmetry; apply Nat.ltb_ge; lia).
  eexists. split; [exact Hc|].
  split; [reflexivity|].
  split; [discriminate|].
  split; [|split; [reflexivity|]].
  - simpl. rewrite length_take. unfold qty in *. lia.
  - intros front back other -> Hfront.
    apply andb_prop in Hv as [Hv _]. rewrite forallb_app in Hv.
    apply andb_prop in Hv as [Hv _].
    rewrite segments_app, take_app_le by lia.
    apply compile_blocks; [apply qty_large | exact Hv | unfold qty in *; lia].
Qed.

(** C3, as amended.  For a valid drawing the bounding box is the
    greatest and the least value among 0 and the start and end
    coordinates of the segments read; two valid drawings of at most
    [qty - 1] segments whose segments are a permutation of each other
    get the same box. *)
Theorem bounding_box bs eof trailer feedrate :
  valid_drawing bs eof = true ->
  exists c text,
    compile qty (drawing_lines bs eof ++ trailer) feedrate = Return (c, text)
    /\ greatest (xmax c) (Int0 :: xs_of (take (qty - 1) (segments bs)))
    /\ least (xmin c) (Int0 :: xs_of (take (qty - 1) (segments bs)))
    /\ greatest (ymax c) (Int0 :: ys_of (take (qty - 1) (segments bs)))
    /\ least (ymin c) (Int0 :: ys_of (take (qty - 1) (segments bs)))
    /\ (forall bs' eof' trailer' feedrate',
          valid_drawing bs' eof' = true ->
          length (segments bs) < qty ->
          Permutation (segments bs) (segments bs') ->
          exists c' text',
            compile qty (drawing_lines bs' eof' ++ trailer') feedrate'
            = Return (c', text')
            /\ (xmin c', xmax c', ymin c', ymax c')
               = (xmin c, xmax c, ymin c, ymax c)).
Proof.
  intros Hv.
  pose proof (compile_program qty bs eof trailer feedrate qty_large Hv) as Hc.
  eexists _, _. split; [exact Hc|].
  set (kept := take (qty - 1) (segments bs)).
  assert (Hbox : forall (b : bool) segs,
            let c := if b then parsed qty segs ""
                     else with_error (parsed qty segs "") in
            (xmin c, xmax c, ymin c, ymax c)
            = (xmin_of segs, xmax_of segs, ymin_of segs, ymax_of segs))
    by (intros [] segs; reflexivity).
  pose proof (Hbox (S (length (segments bs)) <? qty) kept) as Hb.
  cbv zeta in Hb. injection Hb as Hxmin Hxmax Hymin Hymax.
  rewrite Hxmin, Hxmax, Hymin, Hymax.
  split; [rewrite xmax_running; apply running_greatest|].
  split; [rewrite xmin_running; apply running_least|].
  split; [rewrite ymax_running; apply running_greatest|].
  split; [rewrite ymin_running; apply running_least|].
  intros bs' eof' trailer' feedrate' Hv' Hfit Hperm.
  pose proof (compile_program qty bs' eof' trailer' feedrate' qty_large Hv')
    as Hc'.
  eexists _, _. split; [exact Hc'|].
  pose proof (Hbox (S (length (segments bs')) <? qty)
                (take (qty - 1) (segments bs'))) as Hb'.
  cbv zeta in Hb'. rewrite Hb'.
  assert (Hlen : length (segments bs') = length (segments bs))
    by (symmetry; apply Permutation_length, Hperm).
  unfold kept. rewrite !take_ge by lia.
  destruct (box_permutation _ _ Hperm) as (-> & -> & -> & ->).
  reflexivity.
Qed.

End CompilerClaims.

(** ** The compiler claims on the sample drawings *)

Lemma chained_program_moves_witness :
  valid_drawing (H := decimal) corner "EOF" = true
  /\ length (segments (H := decimal) corner) < qty
  /\ linked (hd origin (segments (H := decimal) corner))
       (tail (segments (H := decimal) corner)) = true
  /\ exists c text lines,
       compile (H := decimal) qty (drawing_lines corner "EOF" ++ []) "600"
       = Return (c, text)
       /\ text = header +:+ concat_str lines
       /\ readlines text = header :: lines
       /\ length lines = 3
       /\ map has_feed lines = [false; true; false].
Proof.
  assert (Hv : valid_drawing (H := decimal) corner "EOF" = true)
    by (vm_compute; reflexivity).
  assert (Hfit : length (segments (H := decimal) corner) < qty)
    by (apply Nat.ltb_lt; vm_compute; reflexivity).
  assert (Hl : linked (hd origin (segments (H := decimal) corner))
                 (tail (segments (H := decimal) corner)) = true)
    by (vm_compute; reflexivity).
  assert (Hp : printable (H := decimal) (segments (H := decimal) corner) = true)
    by (vm_compute; reflexivity).
  assert (Hf : no_newline "600" = true) by (vm_compute; reflexivity).
  split; [exact Hv|]. split; [exact Hfit|]. split; [exact Hl|].
  destruct (chained_program_moves (H := decimal) corner "EOF" [] "600"
              (hd origin (segments (H := decimal) corner))
              (tail (segments (H := decimal) corner))
              Hv eq_refl Hfit Hl)
    as (c & text & lines & Hc & Ht & _ & _ & Hn & Hshow).
  destruct (Hshow Hp Hf) as [Hr Hfeed].
  exists c, text, lines.
  split; [exact Hc|]. split; [exact Ht|]. split; [exact Hr|].
  split; [exact Hn | exact Hfeed].
Defined.

(** C1 as stated fails on the round-trip drawing of the specification:
    its three chained segments start at (0, 0), and the program has
    three move lines, not four. *)
Lemma chained_from_zero_counterexample :
  valid_drawing (H := decimal) open_square "EOF" = true
  /\ linked (hd origin (segments (H := decimal) open_square))
       (tail (segments (H := decimal) open_square)) = true
  /\ length (segments (H := decimal) open_square) = 3
  /\ exists c,
       compile (H := decimal) qty (drawing_lines open_square "EOF") "600"
       = Return (c, "G90 G17 G21" +:+ nl +:+ "G1 X10.0 Y0.0 F600" +:+ nl
                    +:+ "G1 X10.0 Y10.0" +:+ nl +:+ "G1 X0.0 Y10.0" +:+ nl)
       /\ length (filter (fun l => is_move l = true)
                    (readlines ("G90 G17 G21" +:+ nl
                                +:+ "G1 X10.0 Y0.0 F600" +:+ nl
                                +:+ "G1 X10.0 Y10.0" +:+ nl
                                +:+ "G1 X0.0 Y10.0" +:+ nl)))
          <> 3 + 1.
Proof.
  split; [vm_compute; reflexivity|].
  split; [vm_compute; reflexivity|].
  split; [vm_compute; reflexivity|].
  eexists. split; [vm_compute; reflexivity|].
  vm_compute. discriminate.
Qed.

Lemma bridged_program_moves_witness :
  valid_drawing (H := decimal) scattered "EOF" = true
  /\ length (segments (H := decimal) scattered) < qty
  /\ apart origin (segments (H := decimal) scattered) = true
  /\ exists c text lines,
       compile (H := decimal) qty (drawing_lines scattered "EOF" ++ []) "600"
       = Return (c, text)
       /\ text = header +:+ concat_str lines
       /\ readlines text = header :: lines
       /\ length lines = 4.
Proof.
  assert (Hv : valid_drawing (H := decimal) scattered "EOF" = true)
    by (vm_compute; reflexivity).
  assert (Hfit : length (segments (H := decimal) scattered) < qty)
    by (apply Nat.ltb_lt; vm_compute; reflexivity).
  assert (Ha : apart origin (segments (H := decimal) scattered) = true)
    by (vm_compute; reflexivity).
  assert (Hp : printable (H := decimal) (segments (H := decimal) scattered)
               = true) by (vm_compute; reflexivity).
  assert (Hf : no_newline "600" = true) by (vm_compute; reflexivity).
  split; [exact Hv|]. split; [exact Hfit|]. split; [exact Ha|].
  destruct (bridged_program_moves (H := decimal) scattered "EOF" [] "600"
              Hv Hfit Ha)
    as (c & text & lines & Hc & Ht & _ & _ & Hn & Hshow).
  exists c, text, lines.
  split; [exact Hc|]. split; [exact Ht|].
  split; [exact (Hshow Hp Hf) | exact Hn].
Defined.

(** C2 as stated fails on two segments that do not touch when the
    first one starts at (0, 0): no bridging move precedes it, and the
    program has three move lines, not four.  It also fails on 1000
    segments that do not touch: the arrays take 999 of them, and the
    program has 1998 move lines, not 2000. *)
Lemma unchained_counterexample :
  (valid_drawing (H := decimal) dashes "EOF" = true
   /\ apart (hd origin (segments (H := decimal) dashes))
        (tail (segments (H := decimal) dashes)) = true
   /\ length (segments (H := decimal) dashes) = 2
   /\ exists c,
        compile (H := decimal) qty (drawing_lines dashes "EOF") "600"
        = Return (c, "G90 G17 G21" +:+ nl +:+ "G1 X1.0 Y1.0 F600" +:+ nl
                     +:+ "G1 X5.0 Y5.0" +:+ nl +:+ "G1 X6.0 Y6.0 F600" +:+ nl)
        /\ length (filter (fun l => is_move l = true)
                     (readlines ("G90 G17 G21" +:+ nl
                                 +:+ "G1 X1.0 Y1.0 F600" +:+ nl
                                 +:+ "G1 X5.0 Y5.0" +:+ nl
                                 +:+ "G1 X6.0 Y6.0 F600" +:+ nl)))
           <> 2 * 2)
  /\ (valid_drawing (H := decimal) (many 1000) "EOF" = true
      /\ apart origin (segments (H := decimal) (many 1000)) = true
      /\ length (segments (H := decimal) (many 1000)) = 1000
      /\ exists c text lines,
           compile (H := decimal) qty (drawing_lines (many 1000) "EOF") "600"
           = Return (c, text)
           /\ readlines text = header :: lines
           /\ forallb is_move lines = true
           /\ length lines = 1998
           /\ length lines <> 2 * 1000).
Proof.
  split.
  { split; [vm_compute; reflexivity|].
    split; [vm_compute; reflexivity|].
    split; [vm_compute; reflexivity|].
    eexists. split; [vm_compute; reflexivity|].
    vm_compute. discriminate. }
  assert (Hv : valid_drawing (H := decimal) (many 1000) "EOF" = true)
    by (vm_compute; reflexivity).
  split; [exact Hv|].
  split; [vm_compute; reflexivity|].
  split; [vm_compute; reflexivity|].
  pose proof (compile_program (H := decimal) qty (many 1000) "EOF" [] "600"
                qty_large Hv) as Hc.
  rewrite app_nil_r in Hc.
  set (kept := take (qty - 1) (segments (H := decimal) (many 1000))) in *.
  assert (Hp : printable (H := decimal) kept = true) by (vm_compute; reflexivity).
  assert (Ha : apart origin kept = true) by (vm_compute; reflexivity).
  assert (Hk : length kept = 999) by (vm_compute; reflexivity).
  assert (Hlen : length (moves (H := decimal) "600" origin true kept) = 1998).
  { rewrite (moves_apart (H := decimal) "600" kept origin true Ha).
    rewrite length_pairs, Hk. reflexivity. }
  eexists _, _, (moves (H := decimal) "600" origin true kept).
  split; [exact Hc|].
  split; [apply program_lines; [exact Hp | reflexivity]|].
  split; [apply moves_are_moves|].
  split; [exact Hlen|].
  rewrite Hlen. discriminate.
Qed.

Lemma first_segment_bridge_witness :
  valid_drawing (H := decimal) corner "EOF" = true
  /\ off_zero (hd origin (segments (H := decimal) corner)) = true
  /\ exists c text others,
       compile (H := decimal) qty (drawing_lines corner "EOF" ++ []) "600"
       = Return (c, text)
       /\ readlines text
          = header :: ("G1 X5.0 Y5.0" +:+ nl) :: ("G1 X10.0 Y5.0 F600" +:+ nl)
                   :: others.
Proof.
  assert (Hv : valid_drawing (H := decimal) corner "EOF" = true)
    by (vm_compute; reflexivity).
  assert (Hp : printable (H := decimal)
                 (take (qty - 1) (segments (H := decimal) corner)) = true)
    by (vm_compute; reflexivity).
  assert (Hf : no_newline "600" = true) by (vm_compute; reflexivity).
  split; [exact Hv|].
  split; [vm_compute; reflexivity|].
  destruct (first_segment_bridge (H := decimal) corner "EOF" [] "600"
              (hd origin (segments (H := decimal) corner))
              (tail (segments (H := decimal) corner))
              Hv eq_refl)
    as (c & text & others & Hc & _ & _ & _ & Hshow).
  destruct (Hshow Hp Hf) as [Hr _].
  exists c, text, others. split; [exact Hc | exact Hr].
Defined.

Lemma capacity_overflow_witness :
  valid_drawing (H := decimal) (many 1001) "EOF" = true
  /\ qty <= length (segments (H := decimal) (many 1001))
  /\ length (segments (H := decimal) (many 1001)) = qty + 1
  /\ exists c,
       compile (H := decimal) qty (drawing_lines (many 1001) "EOF" ++ []) "600"
       = Return (c, program (H := decimal) "600"
                      (take (qty - 1) (segments (H := decimal) (many 1001))))
       /\ error c
          = "Error: ran out of dimentioned line arrey. Increase qty value."
            +:+ nl
       /\ error c <> ""
       /\ linecount c = qty.
Proof.
  assert (Hv : valid_drawing (H := decimal) (many 1001) "EOF" = true)
    by (vm_compute; reflexivity).
  assert (Hn : qty <= length (segments (H := decimal) (many 1001)))
    by (apply Nat.leb_le; vm_compute; reflexivity).
  split; [exact Hv|]. split; [exact Hn|].
  split; [vm_compute; reflexivity|].
  destruct (capacity_overflow (H := decimal) (many 1001) "EOF" [] "600" Hv Hn)
    as (c & Hc & He & Hne & Hl & _).
  exists c. split; [exact Hc|]. split; [exact He|].
  split; [exact Hne | exact Hl].
Defined.

Lemma bounding_box_witness :
  valid_drawing (H := decimal) diagonal "EOF" = true
  /\ exists c text,
       compile (H := decimal) qty (drawing_lines diagonal "EOF" ++ []) "600"
       = Return (c, text)
       /\ greatest (xmax c)
            (Int0 :: xs_of (take (qty - 1) (segments (H := decimal) diagonal)))
       /\ least (xmin c)
            (Int0 :: xs_of (take (qty - 1) (segments (H := decimal) diagonal))).
Proof.
  assert (Hv : valid_drawing (H := decimal) diagonal "EOF" = true)
    by (vm_compute; reflexivity).
  split; [assumption|].
  destruct (bounding_box (H := decimal) diagonal "EOF" [] "600" Hv)
    as (c & text & Hc & Hxmax & Hxmin & _).
  exists c, text. split; [exact Hc|]. split; [exact Hxmax | exact Hxmin].
Defined.

(** C3 as stated fails on a single segment from (5, 5) to (10, 10): the
    least X among its points is 5, but [xmin] stays at the 0 it was
    initialised with, which is none of them and is below them all. *)
Lemma bounding_box_counterexample :
  valid_drawing (H := decimal) diagonal "EOF" = true
  /\ exists c text five ten,
       compile (H := decimal) qty (drawing_lines diagonal "EOF") "600"
       = Return (c, text)
       /\ float_of_str (Python := decimal) "5.0" = Some five
       /\ float_of_str (Python := decimal) "10.0" = Some ten
       /\ xs_of (segments (H := decimal) diagonal) = [Float five; Float ten]
       /\ least (Float five) [Float five; Float ten]
       /\ xmin c = Int0
       /\ py_lt (xmin c) (Float five) = true
       /\ ~ least (xmin c) (xs_of (segments (H := decimal) diagonal)).
Proof.
  split; [vm_compute; reflexivity|].
  eexists _, _, _, _.
  split; [vm_compute; reflexivity|].
  split; [vm_compute; reflexivity|].
  split; [vm_compute; reflexivity|].
  split; [vm_compute; reflexivity|].
  split.
  { split; [left|]. split; [reflexivity|].
    intros v Hv. apply elem_of_cons in Hv as [-> | Hv]; [reflexivity|].
    apply list_elem_of_singleton in Hv. subst v. reflexivity. }
  split; [reflexivity|].
  split; [reflexivity|].
  intros (Hin & _). vm_compute in Hin.
  apply elem_of_cons in Hin as [Hin | Hin]; [discriminate|].
  apply list_elem_of_singleton in Hin. discriminate.
Qed.

(** ** The claims on the session loop *)

Section SessionClaims.
Context `{Python}.

Lemma free_of_cons k ks gcode :
  free_of (k :: ks) gcode = negb (contains k (lower gcode)) && free_of ks gcode.
Proof. reflexivity. Qed.

(** A text that is no routine of [__gcode__] is returned as it is. *)
Lemma gcode_verbatim gcode feed log w :
  String.eqb (lower gcode) "home" = false ->
  String.eqb (lower gcode) "absolute" = false ->
  free_of gcode_keywords gcode = true ->
  __gcode__ gcode feed log w = Done gcode w.
Proof.
  intros Hhome Habs Hfree. unfold gcode_keywords in Hfree.
  rewrite !free_of_cons in Hfree.
  apply andb_prop in Hfree as [Hx Hfree]. apply andb_prop in Hfree as [Hy Hfree].
  apply andb_prop in Hfree as [Hs Hfree]. apply andb_prop in Hfree as [Hv _].
  apply negb_true_iff in Hx, Hy, Hs, Hv.
  unfold __gcode__. rewrite Hhome, Habs, Hx, Hy, Hs, Hv. reflexivity.
Qed.

Lemma send_up text w :
  link w = true -> send text w = Done tt (with_sent text w).
Proof.
  destruct w as [fs lk cl tk sn up]. simpl. intros ->. reflexivity.
Qed.

Lemma transmit_verbatim gcode s w :
  String.eqb (lower gcode) "home" = false ->
  String.eqb (lower gcode) "absolute" = false ->
  free_of gcode_keywords gcode = true ->
  link w = true ->
  transmit gcode s w = Done tt (with_sent (gcode +:+ nl) w).
Proof.
  intros Hhome Habs Hfree Hlink. unfold transmit.
  rewrite (gcode_verbatim _ _ _ _ Hhome Habs Hfree).
  unfold and_then. rewrite (send_up _ _ Hlink). reflexivity.
Qed.

(** C4, as amended.  An input [feedrate <value>] with none of the other
    keywords in it touches neither the repeat command, nor the log, nor
    the time check, and is sent to the peer as it is, newline-terminated,
    in the same cycle. *)
Theorem feedrate_input_is_sent value s w :
  free_of loop_keywords ("feedrate " +:+ value) = true ->
  free_of gcode_keywords ("feedrate " +:+ value) = true ->
  link w = true ->
  exists s',
    respond ("feedrate " +:+ value) s w
    = Done s' (with_sent ("feedrate " +:+ value +:+ nl) w)
    /\ repeat s' = repeat s /\ record s' = record s /\ check s' = check s.
Proof.
  intros Hloop Hfree Hlink. unfold loop_keywords in Hloop.
  rewrite !free_of_cons in Hloop.
  apply andb_prop in Hloop as [Hd Hloop]. apply andb_prop in Hloop as [Hs _].
  apply negb_true_iff in Hd, Hs.
  exists (Session (slice_from 9 (feedrate s)) (repeat s) (record s) (check s)).
  split; [|repeat split].
  unfold respond, directive. rewrite Hd, Hs.
  change (String.eqb ("feedrate " +:+ value) "") with false.
  change (String.eqb ("feedrate " +:+ value) "clear") with false.
  replace (contains "feedrate" (lower ("feedrate " +:+ value))) with true
    by (symmetry; apply contains_prefix, (prefix_app "feedrate")).
  cbv beta iota zeta. unfold and_then at 1.
  rewrite transmit_verbatim; try assumption; reflexivity.
Qed.

(** C5, as amended.  An input [delta <increment>] stores the command
    [G91 G0 <increment>] as the repeat command and is itself sent to the
    peer, as it is, in the same cycle; from then on an empty input sends
    the stored command and leaves the session as it was. *)
Theorem delta_stores_and_empty_replays expr s w :
  free_of gcode_keywords ("delta " +:+ expr) = true ->
  free_of gcode_keywords ("G91 G0 " +:+ expr) = true ->
  link w = true ->
  respond ("delta " +:+ expr) s w
  = Done (with_repeat ("G91 G0 " +:+ expr) s)
      (with_sent ("delta " +:+ expr +:+ nl) w)
  /\ forall s2 w2,
       repeat s2 = Some ("G91 G0 " +:+ expr) -> link w2 = true ->
       respond "" s2 w2 = Done s2 (with_sent ("G91 G0 " +:+ expr +:+ nl) w2).
Proof.
  intros Hdelta Hstored Hlink. split.
  - unfold respond, directive.
    replace (contains "delta" (lower ("delta " +:+ expr))) with true
      by (symmetry; apply contains_prefix, (prefix_app "delta")).
    unfold and_then at 1.
    rewrite transmit_verbatim; try assumption; reflexivity.
  - intros s2 w2 Hrep Hlink2. unfold respond, directive.
    change (contains "delta" (lower "")) with false.
    change (String.eqb "" "") with true.
    cbv beta iota. rewrite Hrep. unfold and_then at 1.
    rewrite transmit_verbatim; try assumption; reflexivity.
Qed.

(** C8, as amended.  An input [save <path>] writes the log to [<path>]
    when [<path>] contains [.txt] anywhere, and to [<path>.txt] when it
    does not; the session, and the log in it, stay as they were. *)
Theorem save_writes_log path s w :
  contains "delta" (lower ("save " +:+ path)) = false ->
  save_target path ∉ locked w ->
  directive ("save " +:+ path) s w
  = Done (save_target path, s)
      (with_files (<[save_target path := record s]> (files w)) w).
Proof.
  intros Hdelta Hfree. unfold save_target in *. unfold directive.
  rewrite Hdelta.
  change (String.eqb ("save " +:+ path) "") with false.
  replace (contains "save" (lower ("save " +:+ path))) with true
    by (symmetry; apply contains_prefix, (prefix_app "save")).
  cbv beta iota zeta.
  change (slice_from 5 ("save " +:+ path)) with path.
  replace (if negb (contains ".txt" path) then path +:+ ".txt" else path)
    with (if contains ".txt" path then path else path +:+ ".txt")
    by (destruct (contains ".txt" path); reflexivity).
  unfold write_file.
  destruct (decide (_ ∈ locked w)) as [Hin | _]; [contradiction|].
  reflexivity.
Qed.

(** The routines of the main loop hand on, as it is, an input that is
    not empty, is not [clear], and holds [save] only behind a [delta]
    (the [elif] chain stops at [delta], before [save]). *)
Lemma directive_handed_on gcode s w :
  String.eqb gcode "" = false ->
  String.eqb gcode "clear" = false ->
  contains "delta" (lower gcode) = true
  \/ contains "save" (lower gcode) = false ->
  directive gcode s w = Done (gcode, handed_on gcode s) w.
Proof.
  intros Hne Hnc Hsave. unfold directive, handed_on.
  destruct (contains "delta" (lower gcode)) eqn:Hd; [reflexivity|].
  destruct Hsave as [Hsave | Hsave]; [discriminate|].
  rewrite Hne, Hsave, Hnc.
  destruct (contains "feedrate" (lower gcode)); reflexivity.
Qed.

Lemma respond_handed_on gcode s w :
  String.eqb gcode "" = false ->
  String.eqb gcode "clear" = false ->
  contains "delta" (lower gcode) = true
  \/ contains "save" (lower gcode) = false ->
  respond gcode s w
  = and_then (transmit gcode (handed_on gcode s) w) (fun _ w =>
    Done (handed_on gcode s) w).
Proof.
  intros Hne Hnc Hsave. unfold respond.
  rewrite (directive_handed_on _ _ _ Hne Hnc Hsave). reflexivity.
Qed.

(** C9, as amended.  For an operator input [scandxf <path>] with
    neither [pulse x] nor [pulse y] in it, and with [save] in it only
    together with [delta], when [<path>] cannot be opened and the error
    record can be written: [__gcode__] appends the time stamp and the
    error to [error_log.txt] and returns [G0]; the turn of the main loop
    on that input sends [G0] to the peer and ends normally, the log and
    the time check of the session as they were. *)
Theorem scandxf_missing_file path s w :
  contains "pulse x" (lower ("scandxf " +:+ path)) = false ->
  contains "pulse y" (lower ("scandxf " +:+ path)) = false ->
  contains "delta" (lower ("scandxf " +:+ path)) = true
  \/ contains "save" (lower ("scandxf " +:+ path)) = false ->
  files w !! path = None ->
  "error_log.txt" ∉ locked w ->
  link w = true ->
  let entry := stamp (clock w (ticks w)) +:+ str_exn (FileError path) +:+ nl in
  let w' := World (<["error_log.txt"
                     := default "" (files w !! "error_log.txt") +:+ entry]>
                     (files w))
              (locked w) (clock w) (S (ticks w)) (sent w) (link w) in
  (forall feed log,
     __gcode__ ("scandxf " +:+ path) feed log w = Done "G0" w')
  /\ exists s',
       respond ("scandxf " +:+ path) s w
       = Done s' (with_sent ("G0" +:+ nl) w')
       /\ s' = handed_on ("scandxf " +:+ path) s
       /\ record s' = record s /\ check s' = check s.
Proof.
  intros Hx Hy Hsave Hmiss Hlog Hlink entry w'.
  assert (Hg : forall feed log,
            __gcode__ ("scandxf " +:+ path) feed log w = Done "G0" w').
  { intros feed log. unfold __gcode__. rewrite Hx, Hy.
    change (String.eqb (lower ("scandxf " +:+ path)) "home") with false.
    change (String.eqb (lower ("scandxf " +:+ path)) "absolute") with false.
    replace (contains "scandxf" (lower ("scandxf " +:+ path))) with true
      by (symmetry; apply contains_prefix, (prefix_app "scandxf")).
    cbv beta iota.
    change (slice_from 8 ("scandxf " +:+ path)) with path.
    unfold open_read. rewrite Hmiss.
    unfold error_log, now, append_file. cbv beta iota zeta.
    change (locked (World _ ?l _ _ _ _)) with l.
    destruct (decide ("error_log.txt" ∈ locked w)) as [Hin | _];
      [contradiction|].
    reflexivity. }
  split; [exact Hg|].
  exists (handed_on ("scandxf " +:+ path) s).
  split; [|split; [reflexivity|]].
  - rewrite (respond_handed_on ("scandxf " +:+ path) s w eq_refl eq_refl Hsave).
    unfold transmit. rewrite Hg. unfold and_then, try_except.
    rewrite (send_up ("G0" +:+ nl) w' Hlink). reflexivity.
  - unfold handed_on.
    destruct (contains "delta" (lower ("scandxf " +:+ path)));
      [split; reflexivity|].
    destruct (contains "feedrate" (lower ("scandxf " +:+ path)));
      split; reflexivity.
Qed.

Lemma drain_exit inbox pos s w :
  has_space pos = true -> drain inbox pos s w = Done (inbox, s) w.
Proof. intros Hpos. destruct inbox; simpl; rewrite Hpos; reflexivity. Qed.

Lemma well_formed_position text :
  well_formed text = true ->
  format_position (split "," text) = Return (position text)
  /\ exists f, sender_time (split "," text) = Return f.
Proof.
  unfold well_formed, position, format_position.
  destruct (sender_time (split "," text)) as [f| |] eqn:Hs; try discriminate.
  intros _. split; [|exists f; reflexivity].
  unfold sender_time in Hs.
  destruct (split "," text) as [|a [|b [|c [|d l]]]]; try discriminate Hs.
  reflexivity.
Qed.

Lemma logged_cons prev clock tick text rest :
  logged prev clock tick (text :: rest)
  = logged prev clock tick [text]
    ++ logged (posix (clock (S tick))) clock (S (S tick)) rest.
Proof. simpl. rewrite app_nil_r. reflexivity. Qed.

(** One turn of the drain loop on a well-formed text. *)
Lemma drain_step text inbox pos s w :
  has_space pos = false ->
  well_formed text = true ->
  drain (text :: inbox) pos s w
  = drain inbox (Text text)
      (Session (feedrate s) (repeat s)
         (record s
          +:+ concat_str (logged (check s) (clock w) (ticks w) [text]))
         (posix (clock w (S (ticks w)))))
      (World (files w) (locked w) (clock w) (S (S (ticks w))) (sent w) (link w)).
Proof.
  intros Hpos Hwf.
  destruct (well_formed_position text Hwf) as (Hline & f & Htime).
  simpl drain. rewrite Hpos. unfold now. cbv beta iota zeta.
  rewrite Hline, Htime. simpl ticks. simpl clock.
  unfold logged.
  destruct (negb (String.eqb (check s) (posix (clock w (ticks w))))
            && negb (String.eqb (check s) "")).
  - unfold lift, and_then. simpl concat_str.
    rewrite append_empty_r, ?append_assoc. reflexivity.
  - unfold lift, and_then. simpl concat_str.
    rewrite append_empty_r. reflexivity.
Qed.

(** C7, as amended.  Entered without the stop marker in [pos] (no
    field of the record read at the top of the main loop is a lone
    space), and given texts the latency computation accepts, the drain
    loop reads the texts up to and including the first one that holds a
    space and leaves the rest unread; for each text read it adds to the
    log the position with the previous time check, exactly when a
    previous time check exists and differs from the clock read on
    receipt ([logged]), and it takes a new time check. *)
Theorem drain_log_and_exit pre last rest pos s w :
  has_space pos = false ->
  forallb (fun t => negb (contains " " t) && well_formed t) pre = true ->
  contains " " last = true ->
  well_formed last = true ->
  drain (pre ++ last :: rest) pos s w
  = Done (rest,
          Session (feedrate s) (repeat s)
            (record s
             +:+ concat_str (logged (check s) (clock w) (ticks w)
                               (pre ++ [last])))
            (posix (clock w (ticks w + 2 * length pre + 1))))
      (World (files w) (locked w) (clock w)
         (ticks w + 2 * length (pre ++ [last])) (sent w) (link w)).
Proof.
  revert pos s w.
  induction pre as [|text pre IH]; intros pos s w Hpos Hpre Hlast Hwf.
  - change ([] ++ last :: rest) with (last :: rest).
    rewrite (drain_step _ _ _ _ _ Hpos Hwf).
    rewrite drain_exit by exact Hlast.
    simpl length. simpl app.
    replace (ticks w + 2 * 0 + 1) with (S (ticks w)) by lia.
    replace (ticks w + 2 * 1) with (S (S (ticks w))) by lia.
    reflexivity.
  - rewrite forallb_cons in Hpre. apply andb_prop in Hpre as [Htext Hpre].
    apply andb_prop in Htext as [Hns Hwft]. apply negb_true_iff in Hns.
    change ((text :: pre) ++ last :: rest) with (text :: pre ++ last :: rest).
    rewrite (drain_step _ _ _ _ _ Hpos Hwft).
    rewrite IH by assumption.
    cbn [feedrate repeat record check files locked clock ticks sent link].
    change ((text :: pre) ++ [last]) with (text :: (pre ++ [last])).
    rewrite (logged_cons _ _ _ text (pre ++ [last])).
    rewrite concat_str_app, append_assoc.
    change (length (text :: pre)) with (S (length pre)).
    change (length (text :: pre ++ [last])) with (S (length (pre ++ [last]))).
    replace (S (S (ticks w)) + 2 * length pre + 1)
      with (ticks w + 2 * S (length pre) + 1) by lia.
    replace (S (S (ticks w)) + 2 * length (pre ++ [last]))
      with (ticks w + 2 * S (length (pre ++ [last]))) by lia.
    reflexivity.
Qed.

End SessionClaims.

(** ** The session claims on sample inputs *)

Lemma feedrate_input_is_sent_witness :
  free_of loop_keywords ("feedrate " +:+ "500") = true
  /\ free_of gcode_keywords ("feedrate " +:+ "500") = true
  /\ link quiet = true
  /\ exists s',
       respond (H := decimal) ("feedrate " +:+ "500") logging quiet
       = Done s' (with_sent ("feedrate " +:+ "500" +:+ nl) quiet)
       /\ repeat s' = repeat logging /\ record s' = record logging
       /\ check s' = check logging.
Proof.
  assert (H1 : free_of loop_keywords ("feedrate " +:+ "500") = true)
    by (vm_compute; reflexivity).
  assert (H2 : free_of gcode_keywords ("feedrate " +:+ "500") = true)
    by (vm_compute; reflexivity).
  assert (H3 : link quiet = true) by reflexivity.
  split; [exact H1|]. split; [exact H2|]. split; [exact H3|].
  exact (feedrate_input_is_sent (H := decimal) "500" logging quiet H1 H2 H3).
Defined.

(** C4 as stated fails on [feedrate 500]: the input is sent to the peer,
    and the stored feed rate becomes the empty text, not 500. *)
Lemma feedrate_input_counterexample :
  exists s' w',
    respond (H := decimal) "feedrate 500" startup quiet = Done s' w'
    /\ sent quiet = []
    /\ sent w' = ["feedrate 500" +:+ nl]
    /\ feedrate s' = ""
    /\ feedrate s' <> "500".
Proof.
  eexists _, _. split; [vm_compute; reflexivity|].
  split; [reflexivity|]. split; [reflexivity|]. split; [reflexivity|].
  discriminate.
Qed.

Lemma delta_stores_and_empty_replays_witness :
  free_of gcode_keywords ("delta " +:+ "X1 Y-2") = true
  /\ free_of gcode_keywords ("G91 G0 " +:+ "X1 Y-2") = true
  /\ link quiet = true
  /\ respond (H := decimal) ("delta " +:+ "X1 Y-2") startup quiet
     = Done (with_repeat ("G91 G0 " +:+ "X1 Y-2") startup)
         (with_sent ("delta " +:+ "X1 Y-2" +:+ nl) quiet)
  /\ respond (H := decimal) "" (with_repeat ("G91 G0 " +:+ "X1 Y-2") startup)
       quiet
     = Done (with_repeat ("G91 G0 " +:+ "X1 Y-2") startup)
         (with_sent ("G91 G0 " +:+ "X1 Y-2" +:+ nl) quiet).
Proof.
  assert (H1 : free_of gcode_keywords ("delta " +:+ "X1 Y-2") = true)
    by (vm_compute; reflexivity).
  assert (H2 : free_of gcode_keywords ("G91 G0 " +:+ "X1 Y-2") = true)
    by (vm_compute; reflexivity).
  assert (H3 : link quiet = true) by reflexivity.
  split; [exact H1|]. split; [exact H2|]. split; [exact H3|].
  destruct (delta_stores_and_empty_replays (H := decimal) "X1 Y-2" startup quiet
              H1 H2 H3) as [Hstore Hreplay].
  split; [exact Hstore|].
  exact (Hreplay (with_repeat ("G91 G0 " +:+ "X1 Y-2") startup) quiet
           eq_refl H3).
Defined.

(** C5 as stated fails on [delta X1]: the repeat command is stored, and
    the input itself is sent to the peer in the same cycle. *)
Lemma delta_input_counterexample :
  exists s' w',
    respond (H := decimal) "delta X1" startup quiet = Done s' w'
    /\ repeat s' = Some "G91 G0 X1"
    /\ sent quiet = []
    /\ sent w' = ["delta X1" +:+ nl]
    /\ sent w' <> sent quiet.
Proof.
  eexists _, _. split; [vm_compute; reflexivity|].
  split; [reflexivity|]. split; [reflexivity|]. split; [reflexivity|].
  discriminate.
Qed.

Lemma save_writes_log_witness :
  contains "delta" (lower ("save " +:+ "report.txt")) = false
  /\ (save_target "report.txt" ∉ locked quiet)
  /\ save_target "report.txt" = "report.txt"
  /\ save_target "report" = "report.txt"
  /\ directive ("save " +:+ "report.txt") logging quiet
     = Done ("report.txt", logging)
         (with_files (<["report.txt" := record logging]> (files quiet)) quiet).
Proof.
  assert (H1 : contains "delta" (lower ("save " +:+ "report.txt")) = false)
    by (vm_compute; reflexivity).
  assert (H2 : save_target "report.txt" ∉ locked quiet)
    by apply not_elem_of_empty.
  split; [exact H1|]. split; [exact H2|].
  split; [reflexivity|]. split; [reflexivity|].
  exact (save_writes_log "report.txt" logging quiet H1 H2).
Defined.

(** C8 as stated fails on [save a.txt.bak]: the argument does not end
    in [.txt], yet nothing is appended, because [.txt] occurs inside it;
    the log goes to [a.txt.bak]. *)
Lemma save_suffix_counterexample :
  ends_with ".txt" "a.txt.bak" = false
  /\ exists w',
       directive "save a.txt.bak" logging quiet
       = Done ("a.txt.bak", logging) w'
       /\ files w' !! "a.txt.bak" = Some (record logging)
       /\ files w' !! "a.txt.bak.txt" = None.
Proof.
  split; [vm_compute; reflexivity|].
  eexists. split; [vm_compute; reflexivity|].
  split; [vm_compute; reflexivity | vm_compute; reflexivity].
Qed.

Lemma scandxf_missing_file_witness :
  contains "pulse x" (lower ("scandxf " +:+ "part.dxf")) = false
  /\ contains "pulse y" (lower ("scandxf " +:+ "part.dxf")) = false
  /\ (contains "delta" (lower ("scandxf " +:+ "part.dxf")) = true
      \/ contains "save" (lower ("scandxf " +:+ "part.dxf")) = false)
  /\ files quiet !! "part.dxf" = None
  /\ ("error_log.txt" ∉ locked quiet)
  /\ link quiet = true
  /\ exists w',
       __gcode__ (H := decimal) ("scandxf " +:+ "part.dxf") "600" "" quiet
       = Done "G0" w'
       /\ files w' !! "error_log.txt"
          = Some ("[0][Errno 2] No such file or directory: 'part.dxf'" +:+ nl)
       /\ exists s',
            respond (H := decimal) ("scandxf " +:+ "part.dxf") logging quiet
            = Done s' (with_sent ("G0" +:+ nl) w')
            /\ s' = handed_on ("scandxf " +:+ "part.dxf") logging
            /\ record s' = record logging /\ check s' = check logging.
Proof.
  assert (H1 : contains "pulse x" (lower ("scandxf " +:+ "part.dxf")) = false)
    by (vm_compute; reflexivity).
  assert (H2 : contains "pulse y" (lower ("scandxf " +:+ "part.dxf")) = false)
    by (vm_compute; reflexivity).
  assert (H0 : contains "delta" (lower ("scandxf " +:+ "part.dxf")) = true
               \/ contains "save" (lower ("scandxf " +:+ "part.dxf")) = false)
    by (right; vm_compute; reflexivity).
  assert (H3 : files quiet !! "part.dxf" = None) by apply lookup_empty.
  assert (H4 : "error_log.txt" ∉ locked quiet) by apply not_elem_of_empty.
  assert (H5 : link quiet = true) by reflexivity.
  split; [exact H1|]. split; [exact H2|]. split; [exact H0|].
  split; [exact H3|]. split; [exact H4|]. split; [exact H5|].
  destruct (scandxf_missing_file (H := decimal) "part.dxf" logging quiet
              H1 H2 H0 H3 H4 H5) as [Hg Hr].
  eexists. split; [exact (Hg "600" "")|]. split; [|exact Hr].
  vm_compute. reflexivity.
Defined.

(** C9 as stated fails on [scandxf pulse x.dxf]: the file is missing,
    but the text holds [pulse x], so [__gcode__] takes it for a pulse
    routine, logs nothing and returns a pulse command, not [G0].  It
    fails on [scandxf saved.dxf] too: the text holds [save], so the
    main loop takes it for its own [save] routine before [__gcode__]
    sees it, writes the log to [xf saved.dxf.txt] and sends that name;
    no error is logged and no [G0] is sent. *)
Lemma scandxf_taken_counterexample :
  files quiet !! "pulse x.dxf" = None
  /\ __gcode__ (H := decimal) "scandxf pulse x.dxf" "600" "" quiet
     = Done "G91 G1 X50 F pulse x.dxf" quiet
  /\ "G91 G1 X50 F pulse x.dxf" <> "G0"
  /\ files quiet !! "error_log.txt" = None
  /\ files quiet !! "saved.dxf" = None
  /\ exists w',
       respond (H := decimal) "scandxf saved.dxf" logging quiet
       = Done logging w'
       /\ sent quiet = []
       /\ sent w' = ["xf saved.dxf.txt" +:+ nl]
       /\ sent w' <> ["G0" +:+ nl]
       /\ files w' !! "error_log.txt" = None
       /\ files w' !! "xf saved.dxf.txt" = Some (record logging).
Proof.
  split; [apply lookup_empty|].
  split; [vm_compute; reflexivity|].
  split; [discriminate|].
  split; [apply lookup_empty|].
  split; [apply lookup_empty|].
  eexists. split; [vm_compute; reflexivity|].
  split; [reflexivity|]. split; [reflexivity|]. split; [discriminate|].
  split; vm_compute; reflexivity.
Qed.

Lemma drain_log_and_exit_witness :
  has_space (Fields ["0.0"; "0.0"; "0.0"; "1000"]) = false
  /\ forallb (fun t => negb (contains " " t) && well_formed (H := decimal) t)
       ["1.0,0.0,0.0,1001"; "2.0,0.0,0.0,1002"] = true
  /\ contains " " "3.0,0.0,0.0,1003, " = true
  /\ well_formed (H := decimal) "3.0,0.0,0.0,1003, " = true
  /\ exists s' w',
       drain (H := decimal)
         (["1.0,0.0,0.0,1001"; "2.0,0.0,0.0,1002"]
          ++ "3.0,0.0,0.0,1003, " :: ["4.0,0.0,0.0,1004"])
         (Fields ["0.0"; "0.0"; "0.0"; "1000"]) startup quiet
       = Done (["4.0,0.0,0.0,1004"], s') w'
       /\ record s' = "2.0 0.0 0.0 1" +:+ nl +:+ "3.0 0.0 0.0 3" +:+ nl
       /\ check s' = "5"
       /\ ticks w' = 6.
Proof.
  assert (H1 : has_space (Fields ["0.0"; "0.0"; "0.0"; "1000"]) = false)
    by (vm_compute; reflexivity).
  assert (H2 : forallb (fun t => negb (contains " " t)
                                 && well_formed (H := decimal) t)
                 ["1.0,0.0,0.0,1001"; "2.0,0.0,0.0,1002"] = true)
    by (vm_compute; reflexivity).
  assert (H3 : contains " " "3.0,0.0,0.0,1003, " = true)
    by (vm_compute; reflexivity).
  assert (H4 : well_formed (H := decimal) "3.0,0.0,0.0,1003, " = true)
    by (vm_compute; reflexivity).
  split; [exact H1|]. split; [exact H2|]. split; [exact H3|].
  split; [exact H4|].
  eexists _, _.
  split; [exact (drain_log_and_exit (H := decimal) _ _ _ _ startup quiet
                   H1 H2 H3 H4)|].
  split; [vm_compute; reflexivity|].
  split; [vm_compute; reflexivity | reflexivity].
Defined.

(** C7 as stated fails on two records drained from the start of a
    session, the clock showing 0, 1, 2, 3 at its four readings.  The
    first record is received at 0, and no observation precedes it, yet
    nothing is logged for it: the time check is still empty.  The second
    is received at 2, the previous check being 1: its position is
    logged, but beside 1, the previous check, not beside the receipt
    time 2. *)
Lemma drain_receipt_counterexample :
  exists s' w',
    drain (H := decimal) ["1.0,0.0,0.0,1001"; "2.0,0.0,0.0,1002, "]
      (Fields ["0.0"; "0.0"; "0.0"; "1000"]) startup quiet
    = Done ([], s') w'
    /\ check startup = ""
    /\ map (fun n => posix (clock quiet n)) [0; 1; 2; 3] = ["0"; "1"; "2"; "3"]
    /\ record startup = ""
    /\ record s' = "2.0 0.0 0.0 1" +:+ nl
    /\ record s' <> "1.0 0.0 0.0 0" +:+ nl +:+ "2.0 0.0 0.0 2" +:+ nl
    /\ record s' <> "2.0 0.0 0.0 2" +:+ nl.
Proof.
  eexists _, _. split; [vm_compute; reflexivity|].
  split; [reflexivity|]. split; [vm_compute; reflexivity|].
  split; [reflexivity|]. split; [reflexivity|].
  split; discriminate.
Qed.

(** ** The model run on concrete inputs *)

Example strip_line : strip ("  AcDbLine " +:+ nl) = "AcDbLine".
Proof. reflexivity. Qed.

Example lower_marker : lower "AcDbLine" = "acdbline".
Proof. reflexivity. Qed.

Example slice_save : slice_from 5 "save report" = "report".
Proof. reflexivity. Qed.

Example slice_short : slice_from 9 "600" = "".
Proof. reflexivity. Qed.

Example remove_every_dxf : remove_dxf "a.dxf.dxfb.dx" = "ab.dx".
Proof. reflexivity. Qed.

Example split_fields : split "," "1,2,,3," = ["1"; "2"; ""; "3"; ""].
Proof. reflexivity. Qed.

Example split_empty : split "," "" = [""].
Proof. reflexivity. Qed.

Example words_of_line : words (" 10.0  0.0" +:+ nl) = ["10.0"; "0.0"].
Proof. reflexivity. Qed.

Example readlines_text :
  readlines ("a" +:+ nl +:+ nl +:+ "b") = ["a" +:+ nl; nl; "b"].
Proof. reflexivity. Qed.

Example format_ignores_extra :
  format3 ["1"; "2"; "3"; "1000"; " "] = Some "1 2 3 ".
Proof. reflexivity. Qed.

Example marker_in_fields :
  has_space (Fields ["1"; "2"; "3"; "1000"; " "]) = true
  /\ has_space (Fields ["1"; "2"; "3"; "1000 "]) = false
  /\ has_space (Text "1,2,3,1000 ") = true.
Proof. repeat split; vm_compute; reflexivity. Qed.

Example decimal_reads :
  Decimal.float " 10.0" = Some (S754_finite false 5629499534213120 (-49))
  /\ Decimal.float "-0" = Some (S754_zero true)
  /\ Decimal.float "" = None
  /\ Decimal.float "AcDbLine" = None.
Proof. repeat split; vm_compute; reflexivity. Qed.

Example decimal_prints :
  option_map (fun f => Decimal.show (Float f) 2) (Decimal.float "2.675")
  = Some "2.67"
  /\ option_map (fun f => Decimal.show (Float f) 2) (Decimal.float "-0.125")
     = Some "-0.12"
  /\ option_map (fun f => Decimal.show (Float f) 2) (Decimal.float "10")
     = Some "10.0"
  /\ Decimal.show Int0 2 = "0".
Proof. repeat split; vm_compute; reflexivity. Qed.

Example zero_equals_minus_zero :
  py_ne (Float (S754_zero true)) Int0 = false
  /\ py_ne (Float S754_nan) (Float S754_nan) = true
  /\ py_gt (Float S754_nan) Int0 = false.
Proof. repeat split; reflexivity. Qed.

(** The round-trip example of the specification. *)
Example round_trip :
  exists c,
    compile (H := decimal) qty (drawing_lines open_square "EOF") "600"
    = Return (c, "G90 G17 G21" +:+ nl +:+ "G1 X10.0 Y0.0 F600" +:+ nl
                 +:+ "G1 X10.0 Y10.0" +:+ nl +:+ "G1 X0.0 Y10.0" +:+ nl).
Proof. eexists. vm_compute. reflexivity. Qed.

(** A drawing that ends without [EOF] keeps the read loop turning; a
    value that is no number stops the compiler with an exception. *)
Example no_eof_hangs :
  compile (H := decimal) qty (concat (map block_lines corner)) "600" = Hang.
Proof. vm_compute. reflexivity. Qed.

Example bad_value_raises :
  compile (H := decimal) qty ["AcDbLine"; " 10"; "abc"; "  0"; "EOF"] "600"
  = Raise (ValueError "abc").
Proof. vm_compute. reflexivity. Qed.

(** [dxf_to_gcode] is [compile] between reading the drawing and writing
    the program. *)
Lemma dxf_to_gcode_writes `{Python} openfilepath savefile feedrate w text c gcode :
  files w !! openfilepath = Some text ->
  compile qty (readlines text) feedrate = Return (c, gcode) ->
  savefile ∉ locked w ->
  dxf_to_gcode openfilepath savefile feedrate w
  = Done tt (with_files (<[savefile := gcode]> (files w)) w).
Proof.
  intros Hfile Hcompile Hfree. unfold dxf_to_gcode, open_read.
  rewrite Hfile. unfold and_then at 1. rewrite Hcompile.
  unfold lift, and_then, write_file. simpl snd.
  destruct (decide (savefile ∈ locked w)); [contradiction | reflexivity].
Qed.

(** [scandxf corner.dxf] from the operator: the program goes to
    [corner.txt], whose path is the command sent to the peer. *)
Example scandxf_end_to_end :
  exists w',
    respond (H := decimal) "scandxf corner.dxf" startup workshop
    = Done startup w'
    /\ sent w' = ["corner.txt" +:+ nl]
    /\ files w' !! "corner.txt"
       = Some ("G90 G17 G21" +:+ nl +:+ "G1 X5.0 Y5.0" +:+ nl
               +:+ "G1 X10.0 Y5.0 F600" +:+ nl +:+ "G1 X10.0 Y10.0" +:+ nl).
Proof.
  eexists. split; [vm_compute; reflexivity|].
  split; vm_compute; reflexivity.
Qed.

(** One whole turn of the main loop on the input [home]. *)
Example cycle_home :
  exists w',
    cycle (H := decimal) "home" ["1.0,2.0,0.0,1000"; "0.0,0.0,0.0,1001, "]
      startup quiet
    = Done ([], Session "600" None ("1.0 2.0 0.0 0" +:+ nl) "2") w'
    /\ sent w' = ["G90 G0 X0 Y0" +:+ nl]
    /\ ticks w' = 3.
Proof.
  eexists. split; [vm_compute; reflexivity|].
  split; reflexivity.
Qed.

(** ** Further properties: the compiler on any file *)

Section Bounds.
Context `{Python}.
Variable n : nat.

Lemma kept_insert a i v :
  kept n a -> 1 <= i -> kept n (<[i := v]> a).
Proof.
  intros [Hlen H0] Hi. split.
  - rewrite length_insert. exact Hlen.
  - rewrite list_lookup_insert_ne by lia. exact H0.
Qed.

Lemma sized_array g c : sized n c -> kept n (array_of g c).
Proof. intros (H1 & H2 & H3 & H4). destruct g; assumption. Qed.

Lemma with_array_sized g a c :
  sized n c -> kept n a -> sized n (with_array g a c).
Proof.
  intros (H1 & H2 & H3 & H4) Ha.
  destruct g; repeat split; simpl; first [apply Ha | apply H1 | apply H2 | apply H3 | apply H4].
Qed.

Lemma fetch_kept a i : kept n a -> i < n -> exists v, fetch a i = Return v.
Proof.
  intros [Hlen _] Hi. unfold fetch.
  destruct (a !! i) as [v|] eqn:Hv; [exists v; reflexivity|].
  apply lookup_ge_None in Hv. lia.
Qed.

Lemma raise_to_origin v hi :
  py_lt hi Int0 = false -> py_lt (raise_to v hi) Int0 = false.
Proof.
  unfold raise_to, py_gt, py_lt. destruct (SFltb (as_float hi) (as_float v)) eqn:Hv;
    [|trivial].
  generalize (as_float hi) (as_float v) Hv. simpl. clear.
  float_cases.
Qed.

Lemma lower_to_origin v lo :
  py_gt lo Int0 = false -> py_gt (lower_to v lo) Int0 = false.
Proof.
  unfold lower_to, py_gt, py_lt. destruct (SFltb (as_float v) (as_float lo)) eqn:Hv;
    [|trivial].
  generalize (as_float lo) (as_float v) Hv. simpl. clear.
  float_cases.
Qed.

Lemma close_entity_ready c :
  ready n c ->
  exists c', close_entity c = Return c'
             /\ sized n c' /\ boxed c'
             /\ linecount c' = S (linecount c) /\ error c' = "".
Proof.
  intros (Hs & Hb & Hl & He). unfold close_entity.
  destruct Hs as (H1 & H2 & H3 & H4).
  destruct (fetch_kept _ (linecount c) H2) as [ys ->]; [lia|].
  destruct (fetch_kept _ (linecount c) H4) as [ye ->]; [lia|].
  destruct (fetch_kept _ (linecount c) H1) as [xs ->]; [lia|].
  destruct (fetch_kept _ (linecount c) H3) as [xe ->]; [lia|].
  eexists. split; [reflexivity|].
  destruct Hb as (B1 & B2 & B3 & B4).
  split; [repeat split; simpl; first [apply H1 | apply H2 | apply H3 | apply H4]|].
  split.
  - repeat split; simpl;
      first [apply raise_to_origin, raise_to_origin; assumption
            | apply lower_to_origin, lower_to_origin; assumption].
  - simpl. split; [lia | exact He].
Qed.

Lemma at_line_ready pc line c :
  ready n c ->
  match at_line n pc line c with
  | Return (Some _, c') => ready n c'
  | Return (None, c') => finished n c'
  | Raise e => e = ValueError (strip line) /\ float_of_str (strip line) = None
  | Hang => False
  end.
Proof.
  intros Hr.
  assert (Hfin : finished n c).
  { destruct Hr as (Hs & Hb & Hl & He).
    split; [exact Hs|]. split; [exact Hb|]. split; [lia|].
    left. split; [exact He | lia]. }
  destruct pc as [| |g]; unfold at_line.
  - destruct (String.eqb (strip line) "EOF"); [exact Hfin|].
    destruct (String.eqb (lower (strip line)) "acdbline"); exact Hr.
  - destruct (String.eqb (strip line) "10"); [exact Hr|].
    destruct (String.eqb (strip line) "20"); [exact Hr|].
    destruct (String.eqb (strip line) "11"); [exact Hr|].
    destruct (String.eqb (strip line) "21"); [exact Hr|].
    destruct (String.eqb (strip line) "0"); [|exact Hr].
    destruct (close_entity_ready c Hr) as (c' & -> & Hs' & Hb' & Hl' & He').
    unfold mbind, outcome_bind.
    destruct Hr as (_ & _ & Hl & _).
    destruct (n <=? linecount c') eqn:Hq.
    + apply Nat.leb_le in Hq.
      split; [exact Hs'|]. split; [exact Hb'|].
      split; [simpl; lia|]. right. simpl. rewrite He'. split; [reflexivity | lia].
    + apply Nat.leb_gt in Hq.
      split; [exact Hs'|]. split; [exact Hb'|]. split; [lia | exact He'].
  - destruct (float_of_str (strip line)) as [f|] eqn:Hf; [|split; reflexivity].
    destruct Hr as (Hs & Hb & Hl & He).
    unfold store. destruct (sized_array g c Hs) as [Hlen H0].
    destruct (decide (linecount c < length (array_of g c))) as [_|Hno]; [|lia].
    unfold mbind, outcome_bind.
    split; [|split; [|split]].
    + apply with_array_sized; [exact Hs|].
      apply kept_insert; [split; assumption | lia].
    + destruct g; exact Hb.
    + destruct g; exact Hl.
    + destruct g; exact He.
Qed.

Lemma read_loop_ready lines : forall pc c,
  ready n c ->
  match read_loop n pc lines c with
  | Return c' => finished n c'
  | Raise e =>
      exists text, e = ValueError text /\ float_of_str text = None
                   /\ (text = "" \/ exists line, line ∈ lines /\ text = strip line)
  | Hang => True
  end.
Proof.
  induction lines as [|line rest IH]; intros pc c Hr.
  - destruct pc as [| |g]; [exact I | exact I |].
    change (read_loop n (ValueOf g) [] c)
      with (_ ← at_line n (ValueOf g) "" c; Hang (A := locals)).
    pose proof (at_line_ready (ValueOf g) "" c Hr) as Ha.
    unfold mbind, outcome_bind.
    destruct (at_line n (ValueOf g) "" c) as [[o c']|e|]; [exact I | | exact I].
    destruct Ha as [-> Hf]. exists "".
    split; [reflexivity|]. split; [exact Hf | left; reflexivity].
  - rewrite read_loop_cons.
    pose proof (at_line_ready pc line c Hr) as Ha.
    destruct (at_line n pc line c) as [[[pc'|] c']|e|]; [| exact Ha | | exact I].
    + specialize (IH pc' c' Ha).
      destruct (read_loop n pc' rest c') as [c''|e|]; [exact IH | | exact I].
      destruct IH as (text & -> & Hf & Hin). exists text.
      split; [reflexivity|]. split; [exact Hf|].
      destruct Hin as [-> | (l & Hl & ->)]; [left; reflexivity|].
      right. exists l. split; [right; exact Hl | reflexivity].
    + destruct Ha as [-> Hf]. exists (strip line).
      split; [reflexivity|]. split; [exact Hf|].
      right. exists line. split; [left | reflexivity].
Qed.

Lemma emit_total feedrate c acc i :
  sized n c -> 1 <= i < n ->
  exists more flag,
    emit feedrate c acc i = Return (fst acc +:+ more, flag).
Proof.
  intros (H1 & H2 & H3 & H4) Hi. destruct acc as [gcode flag]. unfold emit.
  destruct (fetch_kept _ i H1) as [xs ->]; [lia|].
  destruct (fetch_kept _ (i - 1) H3) as [xe0 ->]; [lia|].
  destruct (fetch_kept _ i H2) as [ys ->]; [lia|].
  destruct (fetch_kept _ (i - 1) H4) as [ye0 ->]; [lia|].
  destruct (fetch_kept _ i H3) as [xe ->]; [lia|].
  destruct (fetch_kept _ i H4) as [ye ->]; [lia|].
  unfold mbind, outcome_bind.
  destruct (py_ne xs xe0 || py_ne ys ye0); cbv beta iota zeta.
  - change (0 =? 0) with true. cbv beta iota zeta.
    eexists _, _. simpl fst. rewrite !append_assoc. reflexivity.
  - destruct (flag =? 0); cbv beta iota zeta; eexists _, _; simpl fst;
      rewrite ?append_assoc; reflexivity.
Qed.

Lemma foldM_emit feedrate c l : forall acc,
  sized n c -> Forall (fun i => 1 <= i < n) l ->
  exists more flag,
    foldM (emit feedrate c) acc l = Return (fst acc +:+ more, flag).
Proof.
  induction l as [|i l IH]; intros acc Hs Hl.
  - exists "", (snd acc). simpl. rewrite append_empty_r. destruct acc; reflexivity.
  - apply Forall_cons in Hl as [Hi Hl].
    destruct (emit_total feedrate c acc i Hs Hi) as (m1 & f1 & He).
    destruct (IH (fst acc +:+ m1, f1) Hs Hl) as (m2 & f2 & Hf).
    exists (m1 +:+ m2), f2.
    change (foldM ?f ?a (?b :: ?l)) with (a' ← f a b; foldM f a' l).
    rewrite He. unfold mbind, outcome_bind.
    rewrite Hf. simpl fst. rewrite append_assoc. reflexivity.
Qed.

Lemma generate_total feedrate c :
  finished n c -> exists more, generate feedrate c = Return (header +:+ more).
Proof.
  intros (Hs & _ & Hl & _). unfold generate.
  destruct (foldM_emit feedrate c (seq 1 (linecount c - 1)) (header, 0) Hs)
    as (more & flag & ->).
  - apply Forall_forall. intros i Hi. apply list_elem_of_In, in_seq in Hi. lia.
  - exists more. reflexivity.
Qed.

Lemma initial_ready : 1 < n -> ready n (initial n).
Proof.
  intros Hn. split; [|split; [|split]].
  - repeat split; simpl; try apply length_replicate;
      destruct n as [|k]; try lia; reflexivity.
  - repeat split.
  - simpl. lia.
  - reflexivity.
Qed.

End Bounds.

Section CompilerExtras.
Context `{Python}.

(** X1.  Whatever the lines of the file, the only exception the read
    loop and the generator raise is the ValueError of [float] on a line
    read as a value (or on the empty text [readline] returns past the
    end of the file), which [float] rejects: the arrays are never
    indexed out of range. *)
Theorem compile_raises_value_error_only lines feedrate e :
  compile qty lines feedrate = Raise e ->
  exists text,
    e = ValueError text /\ float_of_str text = None
    /\ (text = "" \/ exists line, line ∈ lines /\ text = strip line).
Proof.
  unfold compile. intros Hc.
  pose proof (read_loop_ready qty lines Top (initial qty)
                (initial_ready qty qty_large)) as Hr.
  destruct (read_loop qty Top lines (initial qty)) as [c|e'|];
    unfold mbind, outcome_bind in Hc; [| | discriminate Hc].
  - destruct (generate_total qty feedrate c Hr) as (more & Hg).
    rewrite Hg in Hc. discriminate Hc.
  - injection Hc as <-. exact Hr.
Qed.

(** The locals and the text of a compilation that returns. *)
Lemma compile_finished lines feedrate c text :
  compile qty lines feedrate = Return (c, text) ->
  finished qty c /\ exists more, text = header +:+ more.
Proof.
  unfold compile. intros Hc.
  pose proof (read_loop_ready qty lines Top (initial qty)
                (initial_ready qty qty_large)) as Hr.
  destruct (read_loop qty Top lines (initial qty)) as [c'|e'|];
    unfold mbind, outcome_bind in Hc; [| discriminate Hc | discriminate Hc].
  destruct (generate_total qty feedrate c' Hr) as (more & Hg).
  rewrite Hg in Hc. injection Hc as <- <-.
  split; [exact Hr | exists more; reflexivity].
Qed.

(** X2.  Whatever the lines of the file, when the compiler returns:
    [linecount] lies between 1 and [qty]; the capacity error is
    recorded exactly when [linecount] has reached [qty], the error text
    being empty otherwise; the four arrays still have [qty] cells with
    the 0 of index 0 in place; the bounding box holds the origin; and
    the program text starts with the header line. *)
Theorem compile_returns_in_bounds lines feedrate c text :
  compile qty lines feedrate = Return (c, text) ->
  1 <= linecount c <= qty
  /\ (error c = "" /\ linecount c < qty
      \/ error c = capacity_message /\ linecount c = qty)
  /\ sized qty c /\ boxed c
  /\ exists more, text = header +:+ more.
Proof.
  intros Hc.
  destruct (compile_finished lines feedrate c text Hc)
    as ((Hs & Hb & Hl & He) & Hh).
  split; [exact Hl|]. split; [exact He|]. split; [exact Hs|].
  split; [exact Hb | exact Hh].
Qed.

(** The read loop on valid blocks that fit, then on what follows. *)
Lemma read_fitting n bs rest :
  1 < n -> forallb valid_block bs = true -> S (length (segments bs)) < n ->
  read_loop n Top (concat (map block_lines bs) ++ rest) (initial n)
  = read_loop n Top rest (parsed n (segments bs) "").
Proof.
  intros Hn Hv Hfit. rewrite (initial_parsed _ Hn).
  rewrite read_blocks by (simpl; assumption || lia).
  simpl length.
  replace (0 + length (segments bs) + 1 <? n) with true
    by (symmetry; apply Nat.ltb_lt; lia).
  reflexivity.
Qed.

(** Inside an entity opened after valid blocks that fit. *)
Lemma read_opened n bs op its rest :
  1 < n -> forallb valid_block bs = true -> S (length (segments bs)) < n ->
  String.eqb (lower (strip op)) "acdbline" = true ->
  forallb valid_item its = true ->
  read_loop n Top
    (concat (map block_lines bs) ++ op :: concat (map item_lines its) ++ rest)
    (initial n)
  = read_loop n InEntity rest
      (within n (segments bs) (fold_left read_item its origin) "").
Proof.
  intros Hn Hv Hfit Hop Hits.
  rewrite (read_fitting n bs _ Hn Hv Hfit).
  rewrite read_loop_cons. unfold at_line.
  rewrite (lower_eof _ Hop), Hop.
  rewrite (parsed_within _ _ _ Hfit).
  apply read_items; assumption.
Qed.

Lemma compile_hang n lines feedrate :
  read_loop n Top lines (initial n) = Hang -> compile n lines feedrate = Hang.
Proof. unfold compile. intros ->. reflexivity. Qed.

Lemma compile_raise n lines feedrate e :
  read_loop n Top lines (initial n) = Raise e ->
  compile n lines feedrate = Raise e.
Proof. unfold compile. intros ->. reflexivity. Qed.

(** X3.  A drawing with no [EOF] line never leaves the read loop:
    after valid blocks that fit the arrays, whether the file ends
    between two entities or inside one (after its [AcDbLine] line and
    some complete fields), the compiler does not return, and
    [dxf_to_gcode] on a file with such lines neither returns nor
    writes. *)
Theorem missing_eof_hangs bs feedrate :
  forallb valid_block bs = true ->
  S (length (segments bs)) < qty ->
  compile qty (concat (map block_lines bs)) feedrate = Hang
  /\ (forall op its,
        String.eqb (lower (strip op)) "acdbline" = true ->
        forallb valid_item its = true ->
        compile qty (concat (map block_lines bs)
                     ++ op :: concat (map item_lines its)) feedrate = Hang)
  /\ (forall openfilepath savefile w text,
        files w !! openfilepath = Some text ->
        readlines text = concat (map block_lines bs)
        \/ (exists op its,
              String.eqb (lower (strip op)) "acdbline" = true
              /\ forallb valid_item its = true
              /\ readlines text
                 = concat (map block_lines bs)
                   ++ op :: concat (map item_lines its)) ->
        dxf_to_gcode openfilepath savefile feedrate w = Stuck).
Proof.
  intros Hv Hfit.
  assert (Hhang : compile qty (concat (map block_lines bs)) feedrate = Hang).
  { apply compile_hang.
    rewrite <- (app_nil_r (concat (map block_lines bs))).
    rewrite (read_fitting qty bs [] qty_large Hv Hfit). reflexivity. }
  assert (Hcut : forall op its,
            String.eqb (lower (strip op)) "acdbline" = true ->
            forallb valid_item its = true ->
            compile qty (concat (map block_lines bs)
                         ++ op :: concat (map item_lines its)) feedrate
            = Hang).
  { intros op its Hop Hits. apply compile_hang.
    rewrite <- (app_nil_r (concat (map item_lines its))).
    rewrite (read_opened qty bs op its [] qty_large Hv Hfit Hop Hits).
    reflexivity. }
  split; [exact Hhang|]. split; [exact Hcut|].
  intros openfilepath savefile w text Hfile Hlines.
  unfold dxf_to_gcode, open_read. rewrite Hfile. unfold and_then at 1.
  destruct Hlines as [-> | (op & its & Hop & Hits & ->)].
  - rewrite Hhang. reflexivity.
  - rewrite (Hcut op its Hop Hits). reflexivity.
Qed.

Lemma compile_bad_value n bs op its tag value rest feedrate g :
  1 < n -> forallb valid_block bs = true -> S (length (segments bs)) < n ->
  String.eqb (lower (strip op)) "acdbline" = true ->
  forallb valid_item its = true ->
  group_of (strip tag) = Some g ->
  float_of_str (strip value) = None ->
  compile n (concat (map block_lines bs)
             ++ op :: concat (map item_lines its) ++ tag :: value :: rest)
    feedrate
  = Raise (ValueError (strip value)).
Proof.
  intros Hn Hv Hfit Hop Hits Htag Hval. apply compile_raise.
  rewrite (read_opened n bs op its _ Hn Hv Hfit Hop Hits).
  rewrite read_loop_cons, (at_line_tag _ _ _ _ Htag).
  rewrite read_loop_cons. unfold at_line. rewrite Hval. reflexivity.
Qed.

End CompilerExtras.

Section CompilerExtras2.
Context `{Python}.

(** X4.  The result depends on the drawing through its line entities
    only: two valid drawings that describe the same segments in the same
    order compile to the same locals and the same program, whatever
    lines lie between the entities and whatever lines the entities hold
    besides their last 10, 20, 11 and 21 fields.  So the lines that
    follow an early [0] line inside an entity, such as the coordinates
    behind a Z value written [0], are lost. *)
Theorem compile_depends_on_segments bs bs' eof eof' trailer trailer' feedrate :
  valid_drawing bs eof = true ->
  valid_drawing bs' eof' = true ->
  segments bs = segments bs' ->
  compile qty (drawing_lines bs eof ++ trailer) feedrate
  = compile qty (drawing_lines bs' eof' ++ trailer') feedrate.
Proof.
  intros Hv Hv' Hsame.
  rewrite (compile_program qty bs eof trailer feedrate qty_large Hv).
  rewrite (compile_program qty bs' eof' trailer' feedrate qty_large Hv').
  rewrite Hsame. reflexivity.
Qed.

Lemma coordinate_with g g' v s :
  coordinate g (with_coordinate g' v s)
  = if decide (g = g') then v else coordinate g s.
Proof. destruct g, g', s; reflexivity. Qed.

Lemma lacks_fold g its : forall s,
  lacks g its = true ->
  coordinate g (fold_left read_item its s) = coordinate g s.
Proof.
  induction its as [|i its IH]; intros s Hl; [reflexivity|].
  unfold lacks in Hl. rewrite forallb_cons in Hl.
  apply andb_prop in Hl as [Hi Hl].
  simpl fold_left. rewrite (IH _ Hl).
  destruct i as [tag value | text]; [|reflexivity].
  simpl. apply negb_true_iff, bool_decide_eq_false in Hi.
  destruct (group_of (strip tag)) as [g'|]; [|reflexivity].
  destruct (float_of_str (strip value)) as [f|]; [|reflexivity].
  rewrite coordinate_with.
  destruct (decide (g = g')) as [->|]; [contradiction Hi; reflexivity | reflexivity].
Qed.

Lemma last_field_fold g front tag value back f s :
  group_of (strip tag) = Some g ->
  float_of_str (strip value) = Some f ->
  lacks g back = true ->
  coordinate g (fold_left read_item (front ++ Field tag value :: back) s)
  = Float f.
Proof.
  intros Htag Hval Hback.
  rewrite fold_left_app. simpl fold_left.
  rewrite (lacks_fold _ _ _ Hback). simpl. rewrite Htag, Hval.
  rewrite coordinate_with.
  destruct (decide (g = g)); [reflexivity | contradiction].
Qed.

Lemma array_of_parsed (b : bool) n g segs :
  array_of g (if b then parsed n segs "" else with_error (parsed n segs ""))
  = cells n g segs.
Proof. destruct b, g; reflexivity. Qed.

Lemma entities_segments bs k e :
  entities bs !! k = Some e -> segments bs !! k = Some (segment_of e).
Proof. intros He. unfold segments. rewrite list_lookup_fmap, He. reflexivity. Qed.

(** X5.  For a valid drawing, the cell of index [k + 1] of each of the
    four arrays holds what the entity of rank [k] (from 0, below
    [qty - 1]) says: the value of its last field with the array's group
    code, and the initial 0 when the entity has no such field (nothing
    is inherited from the entity before). *)
Theorem cell_holds_last_field bs eof trailer feedrate k e g :
  valid_drawing bs eof = true ->
  entities bs !! k = Some e ->
  S k < qty ->
  exists c text,
    compile qty (drawing_lines bs eof ++ trailer) feedrate = Return (c, text)
    /\ (lacks g (items e) = true -> array_of g c !! S k = Some Int0)
    /\ (forall front tag value back f,
          items e = front ++ Field tag value :: back ->
          group_of (strip tag) = Some g ->
          float_of_str (strip value) = Some f ->
          lacks g back = true ->
          array_of g c !! S k = Some (Float f)).
Proof.
  intros Hv He Hk.
  pose proof (compile_program qty bs eof trailer feedrate qty_large Hv) as Hc.
  eexists _, _. split; [exact Hc|].
  assert (Hcell : forall v, coordinate g (segment_of e) = v ->
            array_of g (if S (length (segments bs)) <? qty
                        then parsed qty (take (qty - 1) (segments bs)) ""
                        else with_error
                               (parsed qty (take (qty - 1) (segments bs)) ""))
              !! S k = Some v).
  { intros v <-. rewrite array_of_parsed.
    apply cells_lookup. simpl.
    rewrite lookup_take_lt by (unfold qty in *; lia).
    apply entities_segments, He. }
  split.
  - intros Hl. apply Hcell. unfold segment_of. rewrite (lacks_fold _ _ _ Hl).
    destruct g; reflexivity.
  - intros front tag value back f Hits Htag Hval Hback. apply Hcell.
    unfold segment_of. rewrite Hits.
    apply last_field_fold; assumption.
Qed.

Lemma moves_length feedrate segs : forall prev pending,
  length (moves feedrate prev pending segs) = length segs + breaks prev segs.
Proof.
  induction segs as [|s segs IH]; intros prev pending; [reflexivity|].
  rewrite moves_step. simpl breaks.
  destruct (chained prev s); simpl length; rewrite IH; lia.
Qed.

Lemma breaks_le segs : forall prev, breaks prev segs <= length segs.
Proof.
  induction segs as [|s segs IH]; intros prev; [reflexivity|].
  simpl. specialize (IH s). destruct (chained prev s); lia.
Qed.

Lemma moves_feeds feedrate segs : forall prev pending,
  printable segs = true ->
  length (List.filter has_feed (moves feedrate prev pending segs))
  = breaks prev segs
    + match segs with
      | s :: _ => if chained prev s && pending then 1 else 0
      | [] => 0
      end.
Proof.
  induction segs as [|s segs IH]; intros prev pending Hp; [reflexivity|].
  rewrite printable_cons in Hp. apply andb_prop in Hp as [Hs Hp].
  rewrite moves_step. simpl breaks.
  pose proof (IH s false Hp) as Hrest.
  assert (Hzero : match segs with
                  | s0 :: _ => if chained s s0 && false then 1 else 0
                  | [] => 0
                  end = 0).
  { destruct segs; [reflexivity|]. rewrite andb_false_r. reflexivity. }
  rewrite Hzero, Nat.add_0_r in Hrest.
  destruct (chained prev s); simpl andb.
  - destruct pending; simpl List.filter.
    + rewrite draw_feed. simpl length. rewrite Hrest. lia.
    + rewrite (draw_no_feed _ Hs). rewrite Hrest. lia.
  - simpl List.filter. rewrite (bridge_no_feed _ Hs), draw_feed.
    simpl length. rewrite Hrest. lia.
Qed.

Lemma moves_feed_map feedrate segs : forall prev pending,
  printable segs = true ->
  map has_feed (moves feedrate prev pending segs) = feeds prev pending segs.
Proof.
  induction segs as [|s segs IH]; intros prev pending Hp; [reflexivity|].
  rewrite printable_cons in Hp. apply andb_prop in Hp as [Hs Hp].
  rewrite moves_step. simpl feeds.
  destruct (chained prev s).
  - rewrite map_cons, (IH _ _ Hp).
    destruct pending; [rewrite draw_feed | rewrite (draw_no_feed _ Hs)];
      reflexivity.
  - rewrite !map_cons, (IH _ _ Hp), (bridge_no_feed _ Hs), draw_feed.
    reflexivity.
Qed.

(** X6.  For every valid drawing the program has, after the header,
    one draw move per segment read and, before it, one bridging move
    for each segment that does not start where the one before it ends
    (the first being compared with the zeros of index 0): between N and
    2N move lines.  When the numbers and the feed rate print on one
    line, the lines that carry the feed rate are, line by line
    ([feeds]), the draw moves that follow a bridging move, and the first
    draw move when no bridging move precedes it; no bridging move and
    no other draw move carries it. *)
Theorem move_count bs eof trailer feedrate :
  valid_drawing bs eof = true ->
  exists c text lines,
    compile qty (drawing_lines bs eof ++ trailer) feedrate = Return (c, text)
    /\ text = header +:+ concat_str lines
    /\ lines = moves feedrate origin true (take (qty - 1) (segments bs))
    /\ forallb is_move lines = true
    /\ length lines
       = length (take (qty - 1) (segments bs))
         + breaks origin (take (qty - 1) (segments bs))
    /\ length (take (qty - 1) (segments bs)) <= length lines
       <= 2 * length (take (qty - 1) (segments bs))
    /\ (printable (take (qty - 1) (segments bs)) = true ->
        no_newline feedrate = true ->
        readlines text = header :: lines
        /\ map has_feed lines
           = feeds origin true (take (qty - 1) (segments bs))
        /\ length (List.filter has_feed lines)
           = breaks origin (take (qty - 1) (segments bs))
             + match take (qty - 1) (segments bs) with
               | s :: _ => if off_zero s then 0 else 1
               | [] => 0
               end).
Proof.
  intros Hv.
  pose proof (compile_program qty bs eof trailer feedrate qty_large Hv) as Hc.
  set (segs := take (qty - 1) (segments bs)) in *.
  exists (if S (length (segments bs)) <? qty then parsed qty segs ""
          else with_error (parsed qty segs "")),
    (program feedrate segs), (moves feedrate origin true segs).
  split; [exact Hc|]. split; [reflexivity|]. split; [reflexivity|].
  split; [apply moves_are_moves|].
  split; [apply moves_length|].
  split; [rewrite moves_length; pose proof (breaks_le segs origin); lia|].
  intros Hp Hf. split; [apply program_lines; assumption|].
  split; [apply moves_feed_map, Hp|].
  rewrite (moves_feeds _ _ _ _ Hp). f_equal.
  destruct segs as [|s segs']; [reflexivity|].
  rewrite chained_origin, andb_true_r. destruct (off_zero s); reflexivity.
Qed.

Lemma running_app beyond vs ws m :
  running beyond (vs ++ ws) m = running beyond ws (running beyond vs m).
Proof. unfold running. apply fold_left_app. Qed.

Lemma xs_of_app segs more : xs_of (segs ++ more) = xs_of segs ++ xs_of more.
Proof. unfold xs_of. apply flat_map_app. Qed.

Lemma ys_of_app segs more : ys_of (segs ++ more) = ys_of segs ++ ys_of more.
Proof. unfold ys_of. apply flat_map_app. Qed.

Lemma running_above_grows vs m : py_lt (running above vs m) m = false.
Proof.
  destruct (running_bound above above_irrefl above_trans vs m) as [_ Hub].
  apply (Hub m). left.
Qed.

Lemma running_below_grows vs m : py_gt (running below vs m) m = false.
Proof.
  destruct (running_bound below below_irrefl below_trans vs m) as [_ Hub].
  apply (Hub m). left.
Qed.

Lemma moves_app feedrate segs more : forall prev pending,
  exists prev' pending',
    moves feedrate prev pending (segs ++ more)
    = moves feedrate prev pending segs ++ moves feedrate prev' pending' more.
Proof.
  induction segs as [|s segs IH]; intros prev pending.
  - exists prev, pending. reflexivity.
  - destruct (IH s false) as (prev' & pending' & Hm).
    exists prev', pending'.
    change ((s :: segs) ++ more) with (s :: (segs ++ more)).
    rewrite !moves_step, Hm. destruct (chained prev s); reflexivity.
Qed.

Lemma box_of_parsed (b : bool) n segs :
  let c := if b then parsed n segs "" else with_error (parsed n segs "") in
  xmax c = xmax_of segs /\ xmin c = xmin_of segs
  /\ ymax c = ymax_of segs /\ ymin c = ymin_of segs.
Proof. destruct b; repeat split; reflexivity. Qed.

(** X7.  Entities appended to a valid drawing (the whole still fitting
    the arrays) can only add to what the compiler produces: the program
    of the longer drawing starts with the whole program of the shorter
    one, and no side of the bounding box moves inwards. *)
Theorem appended_entities_extend bs more eof trailer feedrate :
  valid_drawing (bs ++ more) eof = true ->
  length (segments (bs ++ more)) < qty ->
  exists c c' text tail,
    compile qty (drawing_lines bs eof ++ trailer) feedrate = Return (c, text)
    /\ compile qty (drawing_lines (bs ++ more) eof ++ trailer) feedrate
       = Return (c', text +:+ tail)
    /\ py_lt (xmax c') (xmax c) = false /\ py_gt (xmin c') (xmin c) = false
    /\ py_lt (ymax c') (ymax c) = false /\ py_gt (ymin c') (ymin c) = false.
Proof.
  intros Hv Hfit.
  assert (Hv0 : valid_drawing bs eof = true).
  { unfold valid_drawing in *. rewrite forallb_app in Hv.
    apply andb_prop in Hv as [Hv He]. apply andb_prop in Hv as [Hv _].
    rewrite Hv, He. reflexivity. }
  pose proof (compile_program qty bs eof trailer feedrate qty_large Hv0) as Hc.
  pose proof (compile_program qty (bs ++ more) eof trailer feedrate qty_large Hv)
    as Hc'.
  assert (Hfit0 : length (segments bs) < qty)
    by (rewrite segments_app, length_app in Hfit; lia).
  rewrite (take_ge (segments bs)) in Hc by (unfold qty in *; lia).
  rewrite (take_ge (segments (bs ++ more))) in Hc' by (unfold qty in *; lia).
  rewrite segments_app in Hc'.
  destruct (moves_app feedrate (segments bs) (segments more) origin true)
    as (prev' & pending' & Hm).
  eexists _, _, _, (concat_str (moves feedrate prev' pending' (segments more))).
  split; [exact Hc|]. split.
  - rewrite Hc'. unfold program. rewrite Hm, concat_str_app, append_assoc.
    reflexivity.
  - destruct (box_of_parsed (S (length (segments bs)) <? qty) qty (segments bs))
      as (-> & -> & -> & ->).
    destruct (box_of_parsed (S (length (segments bs ++ segments more)) <? qty) qty
                (segments bs ++ segments more)) as (-> & -> & -> & ->).
    rewrite !xmax_running, !xmin_running, !ymax_running, !ymin_running.
    rewrite xs_of_app, ys_of_app, !running_app.
    split; [apply running_above_grows|]. split; [apply running_below_grows|].
    split; [apply running_above_grows | apply running_below_grows].
Qed.

End CompilerExtras2.

(** ** The compiler properties on sample files *)

Lemma compile_raises_value_error_only_witness :
  compile (H := decimal) qty garbled "600" = Raise (ValueError "abc")
  /\ exists text,
       ValueError "abc" = ValueError text
       /\ float_of_str (Python := decimal) text = None
       /\ (text = "" \/ exists line, line ∈ garbled /\ text = strip line).
Proof.
  assert (H1 : compile (H := decimal) qty garbled "600"
               = Raise (ValueError "abc")) by (vm_compute; reflexivity).
  split; [exact H1|].
  exact (compile_raises_value_error_only (H := decimal) garbled "600"
           (ValueError "abc") H1).
Defined.

Lemma compile_returns_in_bounds_witness :
  exists c text,
    compile (H := decimal) qty ("hello" :: drawing_lines corner "EOF") "600"
    = Return (c, text)
    /\ 1 <= linecount c <= qty
    /\ (error c = "" /\ linecount c < qty
        \/ error c = capacity_message /\ linecount c = qty)
    /\ sized qty c /\ boxed c
    /\ exists more, text = header +:+ more.
Proof.
  destruct (compile (H := decimal) qty ("hello" :: drawing_lines corner "EOF")
              "600") as [[c text]|e|] eqn:H1;
    [| vm_compute in H1; discriminate H1 | vm_compute in H1; discriminate H1].
  exists c, text. split; [reflexivity|].
  exact (compile_returns_in_bounds (H := decimal) _ _ c text H1).
Defined.

Lemma missing_eof_hangs_witness :
  forallb (valid_block (H := decimal)) (map stored corner) = true
  /\ S (length (segments (H := decimal) (map stored corner))) < qty
  /\ compile (H := decimal) qty (concat (map block_lines (map stored corner)))
       "600" = Hang
  /\ compile (H := decimal) qty
       (concat (map block_lines (map stored corner))
        ++ "AcDbLine" :: concat (map item_lines
                                   [Field " 10" "1.0"; Other " 30"])) "600"
     = Hang
  /\ readlines (text_of (concat (map block_lines corner)))
     = concat (map block_lines (map stored corner))
  /\ dxf_to_gcode (H := decimal) "open.dxf" "open.txt" "600"
       (with_files {["open.dxf" := text_of (concat (map block_lines corner))]}
          quiet) = Stuck.
Proof.
  assert (H1 : forallb (valid_block (H := decimal)) (map stored corner) = true)
    by (vm_compute; reflexivity).
  assert (H2 : S (length (segments (H := decimal) (map stored corner))) < qty)
    by (apply Nat.ltb_lt; vm_compute; reflexivity).
  assert (H3 : readlines (text_of (concat (map block_lines corner)))
               = concat (map block_lines (map stored corner)))
    by (vm_compute; reflexivity).
  split; [exact H1|]. split; [exact H2|].
  destruct (missing_eof_hangs (H := decimal) (map stored corner) "600" H1 H2)
    as (Hend & Hcut & Hfile).
  split; [exact Hend|].
  split; [apply Hcut; vm_compute; reflexivity|].
  split; [exact H3|].
  apply (Hfile "open.dxf" "open.txt" _
           (text_of (concat (map block_lines corner))));
    [apply lookup_singleton_eq | left; exact H3].
Defined.

Lemma compile_depends_on_segments_witness :
  valid_drawing (H := decimal) cut_short "EOF" = true
  /\ valid_drawing (H := decimal) start_only " eof " = false
  /\ valid_drawing (H := decimal) start_only " EOF " = true
  /\ segments (H := decimal) cut_short = segments (H := decimal) start_only
  /\ compile (H := decimal) qty (drawing_lines cut_short "EOF" ++ []) "600"
     = compile (H := decimal) qty
         (drawing_lines start_only " EOF " ++ ["SECTION"]) "600".
Proof.
  assert (H1 : valid_drawing (H := decimal) cut_short "EOF" = true)
    by (vm_compute; reflexivity).
  assert (H2 : valid_drawing (H := decimal) start_only " EOF " = true)
    by (vm_compute; reflexivity).
  assert (H3 : segments (H := decimal) cut_short
               = segments (H := decimal) start_only)
    by (vm_compute; reflexivity).
  split; [exact H1|]. split; [vm_compute; reflexivity|]. split; [exact H2|].
  split; [exact H3|].
  exact (compile_depends_on_segments (H := decimal) cut_short start_only
           "EOF" " EOF " [] ["SECTION"] "600" H1 H2 H3).
Defined.

Lemma cell_holds_last_field_witness :
  valid_drawing (H := decimal) [Junk "LINE"; Line twice] "EOF" = true
  /\ entities [Junk "LINE"; Line twice] !! 0 = Some twice
  /\ 1 < qty
  /\ float_of_str (Python := decimal) (strip "3.0")
     = Some (default (S754_zero false) (Decimal.float "3.0"))
  /\ exists c text,
       compile (H := decimal) qty
         (drawing_lines [Junk "LINE"; Line twice] "EOF" ++ []) "600"
       = Return (c, text)
       /\ array_of G10 c !! 1
          = Some (Float (default (S754_zero false) (Decimal.float "3.0"))).
Proof.
  assert (H1 : valid_drawing (H := decimal) [Junk "LINE"; Line twice] "EOF"
               = true) by (vm_compute; reflexivity).
  assert (H2 : entities [Junk "LINE"; Line twice] !! 0 = Some twice)
    by reflexivity.
  assert (H3 : 1 < qty) by (unfold qty; lia).
  assert (H4 : float_of_str (Python := decimal) (strip "3.0")
               = Some (default (S754_zero false) (Decimal.float "3.0")))
    by (vm_compute; reflexivity).
  split; [exact H1|]. split; [exact H2|]. split; [exact H3|].
  split; [exact H4|].
  destruct (cell_holds_last_field (H := decimal) [Junk "LINE"; Line twice]
              "EOF" [] "600" 0 twice G10 H1 H2 H3)
    as (c & text & Hc & _ & Hlast).
  exists c, text. split; [exact Hc|].
  exact (Hlast [Field "10" "1.0"] " 10" "3.0" [Field "20" "2.0"] _
           eq_refl eq_refl H4 eq_refl).
Defined.

Lemma move_count_witness :
  valid_drawing (H := decimal) dashes "EOF" = true
  /\ breaks origin (segments (H := decimal) dashes) = 1
  /\ exists c text lines,
       compile (H := decimal) qty (drawing_lines dashes "EOF" ++ []) "600"
       = Return (c, text)
       /\ text = header +:+ concat_str lines
       /\ lines = ["G1 X1.0 Y1.0 F600" +:+ nl; "G1 X5.0 Y5.0" +:+ nl;
                   "G1 X6.0 Y6.0 F600" +:+ nl]
       /\ length lines = 3
       /\ readlines text = header :: lines
       /\ map has_feed lines = [true; false; true]
       /\ length (List.filter has_feed lines) = 2.
Proof.
  assert (H1 : valid_drawing (H := decimal) dashes "EOF" = true)
    by (vm_compute; reflexivity).
  assert (Hp : printable (H := decimal)
                 (take (qty - 1) (segments (H := decimal) dashes)) = true)
    by (vm_compute; reflexivity).
  assert (Hf : no_newline "600" = true) by (vm_compute; reflexivity).
  split; [exact H1|]. split; [vm_compute; reflexivity|].
  destruct (move_count (H := decimal) dashes "EOF" [] "600" H1)
    as (c & text & lines & Hc & Ht & Hl & _ & Hn & _ & Hshow).
  destruct (Hshow Hp Hf) as (Hr & Hmap & Hfeed).
  exists c, text, lines.
  split; [exact Hc|]. split; [exact Ht|].
  split; [rewrite Hl; vm_compute; reflexivity|]. split; [exact Hn|].
  split; [exact Hr|].
  split; [rewrite Hmap; vm_compute; reflexivity | exact Hfeed].
Defined.

Lemma appended_entities_extend_witness :
  valid_drawing (H := decimal)
    ([line_entity "0.0" "0.0" "1.0" "1.0"]
     ++ [line_entity "5.0" "5.0" "6.0" "-6.0"]) "EOF" = true
  /\ length (segments (H := decimal)
               ([line_entity "0.0" "0.0" "1.0" "1.0"]
                ++ [line_entity "5.0" "5.0" "6.0" "-6.0"])) < qty
  /\ exists c c' text tail,
       compile (H := decimal) qty
         (drawing_lines [line_entity "0.0" "0.0" "1.0" "1.0"] "EOF" ++ []) "600"
       = Return (c, text)
       /\ compile (H := decimal) qty
            (drawing_lines ([line_entity "0.0" "0.0" "1.0" "1.0"]
                            ++ [line_entity "5.0" "5.0" "6.0" "-6.0"]) "EOF"
             ++ []) "600"
          = Return (c', text +:+ tail)
       /\ py_lt (xmax c') (xmax c) = false /\ py_gt (xmin c') (xmin c) = false
       /\ py_lt (ymax c') (ymax c) = false /\ py_gt (ymin c') (ymin c) = false.
Proof.
  assert (H1 : valid_drawing (H := decimal)
                 ([line_entity "0.0" "0.0" "1.0" "1.0"]
                  ++ [line_entity "5.0" "5.0" "6.0" "-6.0"]) "EOF" = true)
    by (vm_compute; reflexivity).
  assert (H2 : length (segments (H := decimal)
                         ([line_entity "0.0" "0.0" "1.0" "1.0"]
                          ++ [line_entity "5.0" "5.0" "6.0" "-6.0"])) < qty)
    by (apply Nat.ltb_lt; vm_compute; reflexivity).
  split; [exact H1|]. split; [exact H2|].
  exact (appended_entities_extend (H := decimal)
           [line_entity "0.0" "0.0" "1.0" "1.0"]
           [line_entity "5.0" "5.0" "6.0" "-6.0"] "EOF" [] "600" H1 H2).
Defined.

(** ** Further properties: what a call leaves of the world *)

Lemma after_intro k w w' new :
  locked w' = locked w -> clock w' = clock w -> link w' = link w ->
  ticks w <= ticks w' -> sent w' = sent w ++ new -> length new <= k ->
  after k w w'.
Proof.
  intros L C K T S N. split; [exact L|]. split; [exact C|]. split; [exact K|].
  split; [exact T|]. exists new. split; [exact S | exact N].
Qed.

Lemma after_refl w : after 0 w w.
Proof.
  apply (after_intro 0 w w []); try reflexivity. symmetry. apply app_nil_r.
Qed.

Lemma after_trans j k w w1 w2 :
  after j w w1 -> after k w1 w2 -> after (j + k) w w2.
Proof.
  intros (L1 & C1 & K1 & T1 & n1 & S1 & N1) (L2 & C2 & K2 & T2 & n2 & S2 & N2).
  split; [congruence|]. split; [congruence|]. split; [congruence|].
  split; [lia|]. exists (n1 ++ n2).
  split; [rewrite S2, S1, app_assoc; reflexivity|].
  rewrite length_app. lia.
Qed.

Lemma after_more j k w w' : after j w w' -> j <= k -> after k w w'.
Proof.
  intros (L1 & C1 & K1 & T1 & n1 & S1 & N1) Hjk.
  apply (after_intro k w w' n1); try assumption. lia.
Qed.

Lemma after_tick w :
  after 0 w (World (files w) (locked w) (clock w) (S (ticks w)) (sent w) (link w)).
Proof.
  apply (after_intro 0 w _ []); simpl; try reflexivity; try lia.
  symmetry. apply app_nil_r.
Qed.

Lemma after_files fs w : after 0 w (with_files fs w).
Proof.
  apply (after_intro 0 w _ []); simpl; try reflexivity; try lia.
  symmetry. apply app_nil_r.
Qed.

Lemma settles_and_then {A B} j k w (m : reply A) (f : A -> world -> reply B) :
  settles j w m ->
  (forall a w1, m = Done a w1 -> settles k w1 (f a w1)) ->
  settles (j + k) w (and_then m f).
Proof.
  intros Hm Hf. destruct m as [a w1|e w1|]; simpl in *.
  - specialize (Hf a w1 eq_refl).
    destruct (f a w1) as [b w2|e w2|]; simpl in *; trivial;
      eapply after_trans; eassumption.
  - eapply after_more; [exact Hm | lia].
  - exact I.
Qed.

Lemma settles_from {A} j k w w1 (m : reply A) :
  after j w w1 -> settles k w1 m -> settles (j + k) w m.
Proof.
  intros Hw Hm. destruct m as [a w2|e w2|]; simpl in *; trivial;
    eapply after_trans; eassumption.
Qed.

Lemma settles_try_except {A} j k w (m : reply A) (h : exn -> world -> reply A) :
  settles j w m ->
  (forall e w1, m = Fail e w1 -> settles k w1 (h e w1)) ->
  settles (j + k) w (try_except m h).
Proof.
  intros Hm Hh. destruct m as [a w1|e w1|]; simpl in *.
  - eapply after_more; [exact Hm | lia].
  - specialize (Hh e w1 eq_refl).
    destruct (h e w1) as [b w2|e2 w2|]; simpl in *; trivial;
      eapply after_trans; eassumption.
  - exact I.
Qed.

Lemma settles_more {A} j k w (m : reply A) :
  settles j w m -> j <= k -> settles k w m.
Proof.
  destruct m; simpl; trivial; intros; eapply after_more; eassumption.
Qed.

Lemma settles_lift {A} w (m : outcome A) : settles 0 w (lift m w).
Proof. destruct m; simpl; trivial; apply after_refl. Qed.

Lemma settles_open_read path w : settles 0 w (open_read path w).
Proof. unfold open_read. destruct (files w !! path); simpl; apply after_refl. Qed.

Lemma settles_write_file path text w : settles 0 w (write_file path text w).
Proof.
  unfold write_file. destruct (decide (path ∈ locked w)); simpl;
    [apply after_refl | apply after_files].
Qed.

Lemma settles_append_file path text w : settles 0 w (append_file path text w).
Proof.
  unfold append_file. destruct (decide (path ∈ locked w)); simpl;
    [apply after_refl | apply after_files].
Qed.

Lemma settles_send text w : settles 1 w (send text w).
Proof.
  unfold send. destruct (link w) eqn:Hl; simpl.
  - apply (after_intro 1 w _ [text]); simpl; try reflexivity; try lia.
    symmetry. exact Hl.
  - eapply after_more; [apply after_refl | lia].
Qed.

Section Frames.
Context `{Python}.

Lemma error_log_done err w :
  "error_log.txt" ∉ locked w -> error_log err w = Done tt (noted err w).
Proof.
  intros Hfree. unfold error_log, now, append_file. cbv beta iota zeta.
  change (locked (World _ ?l _ _ _ _)) with l.
  destruct (decide ("error_log.txt" ∈ locked w)) as [Hin | _];
    [contradiction|].
  reflexivity.
Qed.

Lemma settles_error_log err w : settles 0 w (error_log err w).
Proof.
  unfold error_log, now. cbv beta iota zeta.
  apply (settles_from 0 0 w _ _ (after_tick w)).
  apply settles_append_file.
Qed.

Lemma settles_dxf_to_gcode openfilepath savefile feedrate w :
  settles 0 w (dxf_to_gcode openfilepath savefile feedrate w).
Proof.
  unfold dxf_to_gcode.
  apply (settles_and_then 0 0); [apply settles_open_read|]. intros text w1 _.
  apply (settles_and_then 0 0); [apply settles_lift|]. intros r w2 _.
  apply settles_write_file.
Qed.

Lemma settles_logged_g0 (err : exn) w :
  settles 0 w (and_then (error_log err w) (fun _ w => Done "G0" w)).
Proof.
  apply (settles_and_then 0 0); [apply settles_error_log|].
  intros a w1 _. apply after_refl.
Qed.

Lemma settles_gcode gcode feed log w : settles 0 w (__gcode__ gcode feed log w).
Proof.
  unfold __gcode__.
  destruct (String.eqb (lower gcode) "home"); [apply after_refl|].
  destruct (String.eqb (lower gcode) "absolute"); [apply after_refl|].
  destruct (contains "pulse x" (lower gcode)); [apply after_refl|].
  destruct (contains "pulse y" (lower gcode)); [apply after_refl|].
  destruct (contains "scandxf" (lower gcode)).
  - unfold open_read. destruct (files w !! slice_from 8 gcode).
    + cbv zeta. apply (settles_and_then 0 0); [apply settles_dxf_to_gcode|].
      intros a w1 _. apply after_refl.
    + apply settles_logged_g0.
  - destruct (contains "viewpath" (lower gcode)); [|apply after_refl].
    cbv zeta. apply (settles_try_except 0 0).
    + apply (settles_and_then 0 0); [apply settles_open_read|]. intros text w1 _.
      apply (settles_and_then 0 0); [apply settles_lift|]. intros x w2 _.
      apply (settles_and_then 0 0); [apply settles_lift|]. intros y w3 _.
      apply after_refl.
    + intros e w1 _. apply settles_logged_g0.
Qed.

Lemma settles_transmit gcode s w : settles 1 w (transmit gcode s w).
Proof.
  unfold transmit. apply (settles_try_except 1 0).
  - apply (settles_and_then 0 1); [apply settles_gcode|]. intros cmd w1 _.
    apply settles_send.
  - intros e w1 _. apply settles_error_log.
Qed.

Lemma settles_directive gcode s w : settles 0 w (directive gcode s w).
Proof.
  unfold directive.
  destruct (contains "delta" (lower gcode)); [apply after_refl|].
  destruct (if String.eqb gcode "" then repeat s else None); [apply after_refl|].
  destruct (contains "save" (lower gcode)).
  - cbv zeta. apply (settles_and_then 0 0); [apply settles_write_file|].
    intros a w1 _. apply after_refl.
  - destruct (String.eqb gcode "clear"); [apply after_refl|].
    destruct (contains "feedrate" (lower gcode)); apply after_refl.
Qed.

Lemma settles_respond gcode s w : settles 1 w (respond gcode s w).
Proof.
  unfold respond.
  apply (settles_and_then 0 1); [apply settles_directive|].
  intros [g s1] w1 _.
  apply (settles_and_then 1 0); [apply settles_transmit|].
  intros a w2 _. apply after_refl.
Qed.

Lemma drain_cons text inbox pos s w :
  drain (text :: inbox) pos s w
  = if has_space pos then Done (text :: inbox, s) w
    else
      let '(t1, w) := now w in
      and_then
        (if negb (String.eqb (check s) (posix t1))
            && negb (String.eqb (check s) "")
         then and_then (lift (format_position (split "," text)) w)
                (fun line w => Done (record s +:+ line +:+ check s +:+ nl) w)
         else Done (record s) w)
        (fun record' w =>
      let '(t2, w) := now w in
      let s' := Session (feedrate s) (repeat s) record' (posix t2) in
      and_then (lift (sender_time (split "," text)) w) (fun _ w =>
      drain inbox (Text text) s' w)).
Proof. reflexivity. Qed.

Lemma settles_drain inbox : forall pos s w, settles 0 w (drain inbox pos s w).
Proof.
  induction inbox as [|text inbox IH]; intros pos s w.
  - simpl. destruct (has_space pos); simpl; [apply after_refl | exact I].
  - rewrite drain_cons. destruct (has_space pos); [apply after_refl|].
    unfold now. cbv beta iota zeta.
    apply (settles_from 0 0 w _ _ (after_tick w)).
    apply (settles_and_then 0 0).
    + destruct (_ && _); [|apply after_refl].
      apply (settles_and_then 0 0); [apply settles_lift|].
      intros line w1 _. apply after_refl.
    + intros record' w2 _.
      apply (settles_from 0 0 w2 _ _ (after_tick w2)).
      apply (settles_and_then 0 0); [apply settles_lift|].
      intros f w3 _. apply IH.
Qed.

Lemma settles_cycle gcode inbox s w : settles 1 w (cycle gcode inbox s w).
Proof.
  unfold cycle. destruct inbox as [|text inbox]; [exact I|]. cbv zeta.
  apply (settles_and_then 0 1); [apply settles_lift|]. intros f w1 _.
  apply (settles_and_then 0 1); [apply settles_lift|]. intros line w2 _.
  unfold now. cbv beta iota zeta.
  apply (settles_from 0 1 w2 _ _ (after_tick w2)).
  apply (settles_and_then 1 0); [apply settles_respond|].
  intros s2 w3 _. apply settles_drain.
Qed.

End Frames.

Section TransmitExtras.
Context `{Python}.

Lemma after_locked k w w' : after k w w' -> locked w' = locked w.
Proof. intros (L & _). exact L. Qed.

Lemma after_link k w w' : after k w w' -> link w' = link w.
Proof. intros (_ & _ & K & _). exact K. Qed.

Lemma after_sent_0 w w' : after 0 w w' -> sent w' = sent w.
Proof.
  intros (_ & _ & _ & _ & new & S & N).
  destruct new; [rewrite app_nil_r in S; exact S | simpl in N; lia].
Qed.

(** X8.  While the error record can be written, no exception leaves
    the [try] block around the send: whatever the operator's text, the
    session and the world, [transmit] returns (or hangs inside
    [dxf_to_gcode]), having sent at most one payload and left the locks,
    the clock and the link as they were. *)
Theorem transmit_swallows_exceptions gcode s w :
  "error_log.txt" ∉ locked w ->
  transmit gcode s w = Stuck
  \/ exists w', transmit gcode s w = Done tt w' /\ after 1 w w'.
Proof.
  intros Hlog.
  pose proof (settles_transmit gcode s w) as Hs.
  unfold transmit in *.
  pose proof (settles_gcode gcode (feedrate s) (record s) w) as Hg.
  destruct (__gcode__ gcode (feedrate s) (record s) w) as [cmd w1|e w1|];
    simpl in Hg.
  - unfold and_then in *. unfold send in *. destruct (link w1).
    + right. eexists. split; [reflexivity | exact Hs].
    + simpl try_except in *.
      rewrite error_log_done in *
        by (rewrite (after_locked _ _ _ Hg); exact Hlog).
      right. eexists. split; [reflexivity | exact Hs].
  - simpl in *.
    rewrite error_log_done in * by (rewrite (after_locked _ _ _ Hg); exact Hlog).
    right. eexists. split; [reflexivity | exact Hs].
  - left. reflexivity.
Qed.

(** X9.  When the peer is gone, the command [__gcode__] returns is
    not sent: the failure of [conn.send] is written to the error record
    with its time stamp and the loop goes on. *)
Theorem send_failure_is_logged gcode s w command w1 :
  __gcode__ gcode (feedrate s) (record s) w = Done command w1 ->
  link w = false ->
  "error_log.txt" ∉ locked w ->
  transmit gcode s w = Done tt (noted SendError w1)
  /\ sent (noted SendError w1) = sent w.
Proof.
  intros Hg Hlink Hlog.
  pose proof (settles_gcode gcode (feedrate s) (record s) w) as Hs.
  rewrite Hg in Hs. simpl in Hs.
  unfold transmit. rewrite Hg. unfold and_then, send.
  rewrite (after_link _ _ _ Hs), Hlink. simpl try_except.
  rewrite error_log_done by (rewrite (after_locked _ _ _ Hs); exact Hlog).
  split; [reflexivity|]. simpl. apply (after_sent_0 _ _ Hs).
Qed.

End TransmitExtras.

Lemma transmit_swallows_exceptions_witness :
  ("error_log.txt" ∉ locked offline)
  /\ (transmit (H := decimal) "viewpath plot" startup offline = Stuck
      \/ exists w', transmit (H := decimal) "viewpath plot" startup offline
                    = Done tt w'
                    /\ after 1 offline w').
Proof.
  assert (H1 : "error_log.txt" ∉ locked offline) by apply not_elem_of_empty.
  split; [exact H1|].
  exact (transmit_swallows_exceptions (H := decimal) "viewpath plot" startup
           offline H1).
Defined.

Lemma send_failure_is_logged_witness :
  __gcode__ (H := decimal) "G0 X1" (feedrate startup) (record startup) offline
  = Done "G0 X1" offline
  /\ link offline = false
  /\ ("error_log.txt" ∉ locked offline)
  /\ transmit (H := decimal) "G0 X1" startup offline
     = Done tt (noted (H := decimal) SendError offline)
  /\ sent (noted (H := decimal) SendError offline) = sent offline.
Proof.
  assert (H1 : __gcode__ (H := decimal) "G0 X1" (feedrate startup)
                 (record startup) offline = Done "G0 X1" offline)
    by (vm_compute; reflexivity).
  assert (H2 : link offline = false) by reflexivity.
  assert (H3 : "error_log.txt" ∉ locked offline) by apply not_elem_of_empty.
  split; [exact H1|]. split; [exact H2|]. split; [exact H3|].
  exact (send_failure_is_logged (H := decimal) "G0 X1" startup offline
           "G0 X1" offline H1 H2 H3).
Defined.

(** ** Further properties: the session over many turns *)

Section LoopExtras.
Context `{Python}.

Lemma steps_same gcode s :
  contains "delta" (lower gcode) = false -> steps gcode s s.
Proof.
  intros Hd. split; [left; reflexivity|]. split.
  - unfold last_delta. simpl. rewrite Hd. reflexivity.
  - intros _. exists "". rewrite append_empty_r. reflexivity.
Qed.

Lemma directive_steps gcode s w g' s' w' :
  directive gcode s w = Done (g', s') w' -> steps gcode s s'.
Proof.
  unfold directive.
  destruct (contains "delta" (lower gcode)) eqn:Hd.
  - intros [= <- <- <-]. split; [left; reflexivity|]. split.
    + unfold last_delta. simpl. rewrite Hd. reflexivity.
    + intros _. exists "". rewrite append_empty_r. reflexivity.
  - destruct (if String.eqb gcode "" then repeat s else None).
    + intros [= <- <- <-]. apply steps_same, Hd.
    + destruct (contains "save" (lower gcode)).
      * cbv zeta. unfold write_file. destruct (decide _); [discriminate|].
        simpl. intros [= <- <- <-]. apply steps_same, Hd.
      * destruct (String.eqb gcode "clear") eqn:Hc.
        -- intros [= <- <- <-]. split; [left; reflexivity|]. split.
           ++ unfold last_delta. simpl. rewrite Hd. reflexivity.
           ++ intros Hc'. congruence.
        -- destruct (contains "feedrate" (lower gcode)).
           ++ intros [= <- <- <-]. split; [right; reflexivity|]. split.
              ** unfold last_delta. simpl. rewrite Hd. reflexivity.
              ** intros _. exists "". rewrite append_empty_r. reflexivity.
           ++ intros [= <- <- <-]. apply steps_same, Hd.
Qed.

Lemma respond_steps gcode s w s' w' :
  respond gcode s w = Done s' w' -> steps gcode s s'.
Proof.
  unfold respond.
  destruct (directive gcode s w) as [[g1 s1] w1|e w1|] eqn:Hd; try discriminate.
  simpl. destruct (transmit g1 s1 w1) as [a w2|e w2|]; try discriminate.
  simpl. intros [= <- <-]. apply (directive_steps _ _ _ _ _ _ Hd).
Qed.

Lemma drain_keeps inbox : forall pos s w rest s' w',
  drain inbox pos s w = Done (rest, s') w' ->
  feedrate s' = feedrate s /\ repeat s' = repeat s
  /\ exists more, record s' = record s +:+ more.
Proof.
  induction inbox as [|text inbox IH]; intros pos s w rest s' w'.
  - simpl. destruct (has_space pos); [|discriminate].
    intros [= <- <- <-]. split; [reflexivity|]. split; [reflexivity|].
    exists "". rewrite append_empty_r. reflexivity.
  - rewrite drain_cons. destruct (has_space pos).
    + intros [= <- <- <-]. split; [reflexivity|]. split; [reflexivity|].
      exists "". rewrite append_empty_r. reflexivity.
    + unfold now. cbv beta iota zeta.
      set (w1 := World (files w) (locked w) (clock w) (S (ticks w)) (sent w)
                   (link w)).
      assert (Hfirst : forall record' w2,
                (if negb (String.eqb (check s) (posix (clock w (ticks w))))
                    && negb (String.eqb (check s) "")
                 then and_then (lift (format_position (split "," text)) w1)
                        (fun line w =>
                           Done (record s +:+ line +:+ check s +:+ nl) w)
                 else Done (record s) w1) = Done record' w2 ->
                exists more, record' = record s +:+ more).
      { intros record' w2. destruct (_ && _).
        - destruct (format_position (split "," text)) as [line| |];
            unfold lift, and_then; try discriminate.
          intros Heq. injection Heq as <- _. eexists. reflexivity.
        - intros Heq. injection Heq as <- _. exists "".
          rewrite append_empty_r. reflexivity. }
      destruct (if negb (String.eqb (check s) (posix (clock w (ticks w))))
                   && negb (String.eqb (check s) "")
                then _ else _) as [record' w2|e w2|]; try discriminate.
      destruct (Hfirst record' w2 eq_refl) as (m1 & ->).
      simpl and_then.
      destruct (sender_time (split "," text)) as [f| |]; simpl; try discriminate.
      intros Hd. apply IH in Hd. simpl in Hd.
      destruct Hd as (Hf & Hr & m2 & Hrec).
      split; [exact Hf|]. split; [exact Hr|].
      exists (m1 +:+ m2). rewrite Hrec, append_assoc. reflexivity.
Qed.

Lemma cycle_steps gcode inbox s w rest s' w' :
  cycle gcode inbox s w = Done (rest, s') w' -> steps gcode s s'.
Proof.
  unfold cycle. destruct inbox as [|text inbox]; [discriminate|]. cbv zeta.
  destruct (sender_time (split "," text)) as [f| |]; simpl; try discriminate.
  destruct (format_position (split "," text)) as [line| |]; simpl;
    try discriminate.
  set (s1 := Session _ _ _ _).
  destruct (respond gcode s1 _) as [s2 w2|e w2|] eqn:Hr; try discriminate.
  simpl. intros Hd. apply drain_keeps in Hd. destruct Hd as (Hf & Hp & m2 & Hrec).
  apply respond_steps in Hr. destruct Hr as (Hf1 & Hp1 & Hrec1).
  split; [rewrite Hf; exact Hf1|]. split; [rewrite Hp; exact Hp1|].
  intros Hc. destruct (Hrec1 Hc) as (m1 & Hm1).
  exists (line +:+ posix (clock w (ticks w)) +:+ nl +:+ m1 +:+ m2).
  rewrite Hrec, Hm1. subst s1. simpl. rewrite !append_assoc. reflexivity.
Qed.

Lemma session_loop_cons gcode inputs inbox s w :
  session_loop (gcode :: inputs) inbox s w
  = and_then (cycle gcode inbox s w) (fun r w =>
    session_loop inputs (fst r) (snd r) w).
Proof. reflexivity. Qed.

Lemma session_loop_steps (Q : string -> Prop) (P : session -> Prop) inputs :
  (forall gcode s s', Q gcode -> P s -> steps gcode s s' -> P s') ->
  Forall Q inputs ->
  forall inbox s w rest s' w',
    P s -> session_loop inputs inbox s w = Done (rest, s') w' -> P s'.
Proof.
  intros Hstep.
  induction inputs as [|gcode inputs IH]; intros HQ inbox s w rest s' w' Hs.
  - intros [= <- <- <-]. exact Hs.
  - apply Forall_cons in HQ as [Hq HQ]. rewrite session_loop_cons.
    destruct (cycle gcode inbox s w) as [[r1 s1] w1|e w1|] eqn:Hc;
      try discriminate.
    simpl. apply (IH HQ).
    apply (Hstep gcode s s1 Hq Hs), (cycle_steps _ _ _ _ _ _ _ Hc).
Qed.

(** X10.  From the start of the session on, whatever the operator
    types and whatever the peer sends, the stored feed rate is the
    initial [600] or the empty text: the [feedrate] routine slices the
    stored value, so no input can set another one. *)
Theorem feedrate_is_600_or_empty inputs inbox w rest s' w' :
  session_loop inputs inbox startup w = Done (rest, s') w' ->
  feedrate s' = "600" \/ feedrate s' = "".
Proof.
  apply (session_loop_steps (fun _ => True)
           (fun s => feedrate s = "600" \/ feedrate s = "")).
  - intros gcode s s1 _ Hs ([Hf | Hf] & _); rewrite Hf.
    + exact Hs.
    + right. destruct Hs as [-> | ->]; reflexivity.
  - apply Forall_forall. trivial.
  - left. reflexivity.
Qed.

(** X11.  The log only grows: over any run of the main loop in which
    the operator never types [clear], the log at the end starts with the
    whole log of the beginning ([save], [delta], [feedrate] and the
    drain loop never remove or rewrite a line). *)
Theorem log_only_grows inputs inbox s w rest s' w' :
  forallb (fun gcode => negb (String.eqb gcode "clear")) inputs = true ->
  session_loop inputs inbox s w = Done (rest, s') w' ->
  exists more, record s' = record s +:+ more.
Proof.
  intros Hclear.
  apply (session_loop_steps (fun gcode => String.eqb gcode "clear" = false)
           (fun s1 => exists more, record s1 = record s +:+ more)).
  - intros gcode s1 s2 Hq (m1 & Hm1) (_ & _ & Hrec).
    destruct (Hrec Hq) as (m2 & Hm2). exists (m1 +:+ m2).
    rewrite Hm2, Hm1, append_assoc. reflexivity.
  - apply Forall_forall. intros gcode Hin.
    rewrite forallb_forall in Hclear.
    apply negb_true_iff, Hclear, list_elem_of_In, Hin.
  - exists "". rewrite append_empty_r. reflexivity.
Qed.

(** X12.  The repeat command is set by [delta] and by nothing else:
    after any run of the main loop it is the command asked for by the
    last input that held [delta], and the one stored before the run
    when no input did. *)
Theorem repeat_is_last_delta inputs : forall inbox s w rest s' w',
  session_loop inputs inbox s w = Done (rest, s') w' ->
  repeat s' = last_delta inputs (repeat s).
Proof.
  induction inputs as [|gcode inputs IH]; intros inbox s w rest s' w'.
  - intros [= <- <- <-]. reflexivity.
  - rewrite session_loop_cons.
    destruct (cycle gcode inbox s w) as [[r1 s1] w1|e w1|] eqn:Hc;
      try discriminate.
    simpl. intros Hl. apply IH in Hl. rewrite Hl.
    destruct (cycle_steps _ _ _ _ _ _ _ Hc) as (_ & -> & _). reflexivity.
Qed.

(** X13.  A run of the main loop sends at most one payload per input
    of the operator and never takes back what was sent; it leaves the
    locks, the clock and the link alone and only reads the clock
    further.  This holds when the run ends with an exception too. *)
Theorem one_payload_per_input inputs : forall inbox s w,
  settles (length inputs) w (session_loop inputs inbox s w).
Proof.
  induction inputs as [|gcode inputs IH]; intros inbox s w.
  - apply after_refl.
  - change (length (gcode :: inputs)) with (1 + length inputs).
    rewrite session_loop_cons.
    apply settles_and_then; [apply settles_cycle|].
    intros r w1 _. apply IH.
Qed.

End LoopExtras.

Lemma feedrate_is_600_or_empty_witness :
  exists rest s' w',
    session_loop (H := decimal) ["feedrate 200"; "delta X1"; ""] telemetry
      startup quiet = Done (rest, s') w'
    /\ (feedrate s' = "600" \/ feedrate s' = "").
Proof.
  destruct (session_loop (H := decimal) ["feedrate 200"; "delta X1"; ""]
              telemetry startup quiet) as [[rest s'] w'|e w'|] eqn:H1;
    [| vm_compute in H1; discriminate H1 | vm_compute in H1; discriminate H1].
  exists rest, s', w'. split; [reflexivity|].
  exact (feedrate_is_600_or_empty (H := decimal) _ _ _ _ _ _ H1).
Defined.

Lemma log_only_grows_witness :
  forallb (fun gcode => negb (String.eqb gcode "clear"))
    ["save run"; "delta X1"; ""] = true
  /\ exists rest s' w',
       session_loop (H := decimal) ["save run"; "delta X1"; ""] telemetry
         logging quiet = Done (rest, s') w'
       /\ exists more, record s' = record logging +:+ more.
Proof.
  assert (H0 : forallb (fun gcode => negb (String.eqb gcode "clear"))
                 ["save run"; "delta X1"; ""] = true) by reflexivity.
  split; [exact H0|].
  destruct (session_loop (H := decimal) ["save run"; "delta X1"; ""]
              telemetry logging quiet) as [[rest s'] w'|e w'|] eqn:H1;
    [| vm_compute in H1; discriminate H1 | vm_compute in H1; discriminate H1].
  exists rest, s', w'. split; [reflexivity|].
  exact (log_only_grows (H := decimal) _ _ _ _ _ _ _ H0 H1).
Defined.

Lemma repeat_is_last_delta_witness :
  exists rest s' w',
    session_loop (H := decimal) ["delta X1"; "feedrate 200"; "delta Y2"; ""]
      (telemetry ++ telemetry) startup quiet = Done (rest, s') w'
    /\ repeat s'
       = last_delta ["delta X1"; "feedrate 200"; "delta Y2"; ""] (repeat startup)
    /\ last_delta ["delta X1"; "feedrate 200"; "delta Y2"; ""] (repeat startup)
       = Some "G91 G0 Y2".
Proof.
  destruct (session_loop (H := decimal)
              ["delta X1"; "feedrate 200"; "delta Y2"; ""]
              (telemetry ++ telemetry) startup quiet)
    as [[rest s'] w'|e w'|] eqn:H1;
    [| vm_compute in H1; discriminate H1 | vm_compute in H1; discriminate H1].
  exists rest, s', w'. split; [reflexivity|].
  split; [|reflexivity].
  exact (repeat_is_last_delta (H := decimal) _ _ _ _ _ _ _ H1).
Defined.

(** ** Further properties: the routines of [__gcode__] *)

Section RoutineExtras.
Context `{Python}.

(** The routine [scandxf <path>], the file being there. *)
Lemma gcode_scandxf path feed log w text :
  contains "pulse x" (lower ("scandxf " +:+ path)) = false ->
  contains "pulse y" (lower ("scandxf " +:+ path)) = false ->
  files w !! path = Some text ->
  __gcode__ ("scandxf " +:+ path) feed log w
  = and_then (dxf_to_gcode path (scan_target path) feed w) (fun _ w =>
    Done (scan_target path) w).
Proof.
  intros Hx Hy Hfile. unfold __gcode__. rewrite Hx, Hy.
  change (String.eqb (lower ("scandxf " +:+ path)) "home") with false.
  change (String.eqb (lower ("scandxf " +:+ path)) "absolute") with false.
  replace (contains "scandxf" (lower ("scandxf " +:+ path))) with true
    by (symmetry; apply contains_prefix, (prefix_app "scandxf")).
  cbv beta iota.
  change (slice_from 8 ("scandxf " +:+ path)) with path.
  unfold open_read at 1. rewrite Hfile. reflexivity.
Qed.

(** X14.  A value line that [float] rejects stops the compiler with
    the ValueError of that text, and [dxf_to_gcode] then writes no file.
    For an operator input [scandxf <path>] (with neither [pulse x] nor
    [pulse y] in it, and with [save] in it only together with [delta])
    the exception reaches the [try] block of the main loop: the error is
    written to the error record, nothing is sent to the peer in that
    turn, and the turn ends normally. *)
Theorem bad_number_is_logged bs op its tag value rest g path s w text :
  forallb valid_block bs = true ->
  S (length (segments bs)) < qty ->
  String.eqb (lower (strip op)) "acdbline" = true ->
  forallb valid_item its = true ->
  group_of (strip tag) = Some g ->
  float_of_str (strip value) = None ->
  files w !! path = Some text ->
  readlines text
  = concat (map block_lines bs)
    ++ op :: concat (map item_lines its) ++ tag :: value :: rest ->
  contains "pulse x" (lower ("scandxf " +:+ path)) = false ->
  contains "pulse y" (lower ("scandxf " +:+ path)) = false ->
  contains "delta" (lower ("scandxf " +:+ path)) = true
  \/ contains "save" (lower ("scandxf " +:+ path)) = false ->
  "error_log.txt" ∉ locked w ->
  (forall feed,
     dxf_to_gcode path (scan_target path) feed w
     = Fail (ValueError (strip value)) w)
  /\ respond ("scandxf " +:+ path) s w
     = Done (handed_on ("scandxf " +:+ path) s)
         (noted (ValueError (strip value)) w)
  /\ sent (noted (ValueError (strip value)) w) = sent w
  /\ files (noted (ValueError (strip value)) w) !! "error_log.txt"
     = Some (default "" (files w !! "error_log.txt")
             +:+ stamp (clock w (ticks w))
             +:+ str_exn (ValueError (strip value)) +:+ nl).
Proof.
  intros Hv Hfit Hop Hits Htag Hval Hfile Hlines Hx Hy Hsave Hlog.
  assert (Hd : forall feed,
            dxf_to_gcode path (scan_target path) feed w
            = Fail (ValueError (strip value)) w).
  { intros feed. unfold dxf_to_gcode, open_read. rewrite Hfile.
    unfold and_then at 1. rewrite Hlines.
    rewrite (compile_bad_value qty bs op its tag value rest feed g
               qty_large Hv Hfit Hop Hits Htag Hval).
    reflexivity. }
  split; [exact Hd|]. split; [|split; [reflexivity|]].
  - rewrite (respond_handed_on ("scandxf " +:+ path) s w eq_refl eq_refl Hsave).
    unfold transmit. rewrite (gcode_scandxf _ _ _ _ _ Hx Hy Hfile), Hd.
    cbn [and_then try_except]. rewrite (error_log_done _ _ Hlog).
    reflexivity.
  - unfold noted. simpl files. rewrite lookup_insert_eq. reflexivity.
Qed.

(** X15.  When [dxf_to_gcode] returns, the output file is the only
    thing it has changed (no clock reading, nothing sent, no other
    file); and run again on the same drawing, with an output path other
    than the drawing's, it returns again and changes nothing. *)
Theorem dxf_to_gcode_again openfilepath savefile feedrate w w1 :
  dxf_to_gcode openfilepath savefile feedrate w = Done tt w1 ->
  openfilepath <> savefile ->
  (exists gcode, w1 = with_files (<[savefile := gcode]> (files w)) w)
  /\ dxf_to_gcode openfilepath savefile feedrate w1 = Done tt w1.
Proof.
  unfold dxf_to_gcode, open_read.
  destruct (files w !! openfilepath) as [text|] eqn:Hfile; [|discriminate].
  unfold and_then at 1.
  destruct (compile qty (readlines text) feedrate) as [[c gcode]| |] eqn:Hc;
    try discriminate.
  unfold lift, and_then at 1. simpl snd. unfold write_file.
  destruct (decide (savefile ∈ locked w)) as [|Hfree]; [discriminate|].
  intros [= <-] Hne. split; [exists gcode; reflexivity|].
  simpl files. rewrite lookup_insert_ne by congruence. rewrite Hfile.
  unfold and_then at 1. rewrite Hc. unfold lift, and_then. simpl snd.
  simpl locked.
  destruct (decide (savefile ∈ locked w)) as [|_]; [contradiction|].
  unfold with_files. simpl. rewrite insert_insert_eq. reflexivity.
Qed.

(** X16.  For an operator input [viewpath <path>] (with none of
    [pulse x], [pulse y], [scandxf] in it, and with [save] in it only
    together with [delta]) whose point file, [<path>] or [<path>.txt] by
    the rule of [save], cannot be opened, [__gcode__] writes the error
    to the error record and returns [G0]; the turn of the main loop on
    that input sends [G0] to the peer and ends normally. *)
Theorem viewpath_missing_file path s w :
  contains "pulse x" (lower ("viewpath " +:+ path)) = false ->
  contains "pulse y" (lower ("viewpath " +:+ path)) = false ->
  contains "scandxf" (lower ("viewpath " +:+ path)) = false ->
  contains "delta" (lower ("viewpath " +:+ path)) = true
  \/ contains "save" (lower ("viewpath " +:+ path)) = false ->
  files w !! save_target path = None ->
  "error_log.txt" ∉ locked w ->
  link w = true ->
  (forall feed log,
     __gcode__ ("viewpath " +:+ path) feed log w
     = Done "G0" (noted (FileError (save_target path)) w))
  /\ respond ("viewpath " +:+ path) s w
     = Done (handed_on ("viewpath " +:+ path) s)
         (with_sent ("G0" +:+ nl) (noted (FileError (save_target path)) w)).
Proof.
  intros Hx Hy Hs Hsave Hmiss Hlog Hlink.
  assert (Hg : forall feed log,
            __gcode__ ("viewpath " +:+ path) feed log w
            = Done "G0" (noted (FileError (save_target path)) w)).
  { intros feed log. unfold __gcode__. rewrite Hx, Hy, Hs.
    change (String.eqb (lower ("viewpath " +:+ path)) "home") with false.
    change (String.eqb (lower ("viewpath " +:+ path)) "absolute") with false.
    replace (contains "viewpath" (lower ("viewpath " +:+ path))) with true
      by (symmetry; apply contains_prefix, (prefix_app "viewpath")).
    cbv beta iota zeta.
    change (slice_from 9 ("viewpath " +:+ path)) with path.
    replace (if negb (contains ".txt" path) then path +:+ ".txt" else path)
      with (save_target path)
      by (unfold save_target; destruct (contains ".txt" path); reflexivity).
    unfold open_read. rewrite Hmiss. simpl.
    rewrite (error_log_done _ _ Hlog). reflexivity. }
  split; [exact Hg|].
  rewrite (respond_handed_on ("viewpath " +:+ path) s w eq_refl eq_refl Hsave).
  unfold transmit. rewrite Hg. unfold and_then, try_except.
  rewrite send_up by exact Hlink. reflexivity.
Qed.

(** X17.  [viewpath] cannot show a file written by the compiler: the
    first line of every compiled program is the header [G90 G17 G21],
    whose first word is no number, so (when [float] rejects [G90], as
    Python's does) the routine stops at that line, writes the ValueError
    to the error record and returns [G0]. *)
Theorem viewpath_rejects_programs path s w lines feed c text :
  contains "pulse x" (lower ("viewpath " +:+ path)) = false ->
  contains "pulse y" (lower ("viewpath " +:+ path)) = false ->
  contains "scandxf" (lower ("viewpath " +:+ path)) = false ->
  compile qty lines feed = Return (c, text) ->
  files w !! save_target path = Some text ->
  float_of_str "G90" = None ->
  "error_log.txt" ∉ locked w ->
  __gcode__ ("viewpath " +:+ path) (feedrate s) (record s) w
  = Done "G0" (noted (ValueError "G90") w).
Proof.
  intros Hx Hy Hs Hc Hfile Hfloat Hlog.
  destruct (compile_finished lines feed c text Hc) as (_ & more & ->).
  unfold __gcode__. rewrite Hx, Hy, Hs.
  change (String.eqb (lower ("viewpath " +:+ path)) "home") with false.
  change (String.eqb (lower ("viewpath " +:+ path)) "absolute") with false.
  replace (contains "viewpath" (lower ("viewpath " +:+ path))) with true
    by (symmetry; apply contains_prefix, (prefix_app "viewpath")).
  cbv beta iota zeta.
  change (slice_from 9 ("viewpath " +:+ path)) with path.
  replace (if negb (contains ".txt" path) then path +:+ ".txt" else path)
    with (save_target path)
    by (unfold save_target; destruct (contains ".txt" path); reflexivity).
  unfold open_read. rewrite Hfile. unfold and_then at 1.
  unfold readlines. rewrite (readlines_from_line header "" more eq_refl).
  change (String.rev_app "" header) with header.
  change (column 0 (header :: readlines more))
    with (match float_of_str "G90" with
          | None => Raise (ValueError "G90")
          | Some f => fs ← column 0 (readlines more); Return (f :: fs)
          end).
  rewrite Hfloat. simpl.
  rewrite (error_log_done _ _ Hlog). reflexivity.
Qed.

(** X18.  For an operator input [scandxf <path>] (with neither
    [pulse x] nor [pulse y] in it, and with [save] in it only together
    with [delta]) whose file holds a valid drawing, the turn of the main
    loop writes the program of the first [qty - 1] segments to [<path>]
    without its [.dxf] plus [.txt], and sends that path to the peer.
    The feed rate in the program is the one the session holds after the
    routines of the main loop: the stored one, unless the input holds
    [feedrate] (and no [delta]), which cuts it first. *)
Theorem scandxf_writes_and_sends path s w text bs eof trailer :
  contains "pulse x" (lower ("scandxf " +:+ path)) = false ->
  contains "pulse y" (lower ("scandxf " +:+ path)) = false ->
  contains "delta" (lower ("scandxf " +:+ path)) = true
  \/ contains "save" (lower ("scandxf " +:+ path)) = false ->
  files w !! path = Some text ->
  readlines text = drawing_lines bs eof ++ trailer ->
  valid_drawing bs eof = true ->
  scan_target path ∉ locked w ->
  link w = true ->
  exists s',
    s' = handed_on ("scandxf " +:+ path) s
    /\ respond ("scandxf " +:+ path) s w
       = Done s'
           (with_sent (scan_target path +:+ nl)
              (with_files
                 (<[scan_target path
                    := program (feedrate s') (take (qty - 1) (segments bs))]>
                    (files w)) w))
    /\ (contains "delta" (lower ("scandxf " +:+ path)) = true
        \/ contains "feedrate" (lower ("scandxf " +:+ path)) = false ->
        feedrate s' = feedrate s).
Proof.
  intros Hx Hy Hsave Hfile Hlines Hv Hfree Hlink.
  exists (handed_on ("scandxf " +:+ path) s).
  split; [reflexivity|]. split.
  - rewrite (respond_handed_on ("scandxf " +:+ path) s w eq_refl eq_refl Hsave).
    unfold transmit. rewrite (gcode_scandxf _ _ _ _ _ Hx Hy Hfile).
    pose proof (compile_program qty bs eof trailer
                  (feedrate (handed_on ("scandxf " +:+ path) s)) qty_large Hv)
      as Hc.
    rewrite <- Hlines in Hc.
    rewrite (dxf_to_gcode_writes _ _ _ _ _ _ _ Hfile Hc Hfree).
    unfold and_then, try_except. rewrite send_up by exact Hlink. reflexivity.
  - unfold handed_on. intros [-> | Hf]; [reflexivity|].
    rewrite Hf.
    destruct (contains "delta" (lower ("scandxf " +:+ path))); reflexivity.
Qed.

Lemma log_all_cons err errs w :
  log_all (err :: errs) w
  = and_then (error_log err w) (fun _ w => log_all errs w).
Proof. reflexivity. Qed.

(** X19.  Errors logged one after the other are appended to the error
    record in that order, each behind the time stamp of its own clock
    reading, after what the record held before; one clock reading is
    made per error and nothing else changes. *)
Theorem error_log_appends_in_order errs : forall err w,
  "error_log.txt" ∉ locked w ->
  log_all (err :: errs) w
  = Done tt
      (World (<["error_log.txt"
                := default "" (files w !! "error_log.txt")
                   +:+ entries (clock w) (ticks w) (err :: errs)]> (files w))
         (locked w) (clock w) (ticks w + S (length errs)) (sent w) (link w)).
Proof.
  induction errs as [|err2 errs IH]; intros err w Hlog.
  - rewrite log_all_cons, (error_log_done _ _ Hlog). simpl.
    unfold noted. rewrite ?append_empty_r.
    replace (ticks w + 1) with (S (ticks w)) by lia. reflexivity.
  - rewrite log_all_cons, (error_log_done _ _ Hlog).
    unfold and_then. rewrite IH by exact Hlog.
    unfold noted. simpl. rewrite lookup_insert_eq, insert_insert_eq. simpl.
    rewrite ?append_assoc.
    replace (S (ticks w + S (length errs))) with (ticks w + S (S (length errs)))
      by lia.
    reflexivity.
Qed.

End RoutineExtras.

Lemma bad_number_is_logged_witness :
  forallb (valid_block (H := decimal)) [] = true
  /\ S (length (segments (H := decimal) [])) < qty
  /\ String.eqb (lower (strip ("AcDbLine" +:+ nl))) "acdbline" = true
  /\ forallb (valid_item (H := decimal)) [] = true
  /\ group_of (strip (" 10" +:+ nl)) = Some G10
  /\ float_of_str (Python := decimal) (strip ("abc" +:+ nl)) = None
  /\ files scrapyard !! "bad.dxf"
     = Some (text_of ["AcDbLine"; " 10"; "abc"; "  0"; "EOF"])
  /\ readlines (text_of ["AcDbLine"; " 10"; "abc"; "  0"; "EOF"])
     = concat (map block_lines [])
       ++ ("AcDbLine" +:+ nl)
          :: concat (map item_lines [])
             ++ (" 10" +:+ nl) :: ("abc" +:+ nl)
                :: ["  0" +:+ nl; "EOF" +:+ nl]
  /\ contains "pulse x" (lower ("scandxf " +:+ "bad.dxf")) = false
  /\ contains "pulse y" (lower ("scandxf " +:+ "bad.dxf")) = false
  /\ (contains "delta" (lower ("scandxf " +:+ "bad.dxf")) = true
      \/ contains "save" (lower ("scandxf " +:+ "bad.dxf")) = false)
  /\ ("error_log.txt" ∉ locked scrapyard)
  /\ (forall feed,
        dxf_to_gcode (H := decimal) "bad.dxf" (scan_target "bad.dxf") feed
          scrapyard
        = Fail (ValueError (strip ("abc" +:+ nl))) scrapyard)
  /\ respond (H := decimal) ("scandxf " +:+ "bad.dxf") startup scrapyard
     = Done (handed_on ("scandxf " +:+ "bad.dxf") startup)
         (noted (H := decimal) (ValueError (strip ("abc" +:+ nl))) scrapyard)
  /\ sent (noted (H := decimal) (ValueError (strip ("abc" +:+ nl))) scrapyard)
     = sent scrapyard
  /\ files (noted (H := decimal) (ValueError (strip ("abc" +:+ nl))) scrapyard)
       !! "error_log.txt"
     = Some (default "" (files scrapyard !! "error_log.txt")
             +:+ stamp (clock scrapyard (ticks scrapyard))
             +:+ str_exn (Python := decimal) (ValueError (strip ("abc" +:+ nl)))
             +:+ nl).
Proof.
  assert (H1 : forallb (valid_block (H := decimal)) [] = true) by reflexivity.
  assert (H2 : S (length (segments (H := decimal) [])) < qty)
    by (apply Nat.ltb_lt; vm_compute; reflexivity).
  assert (H3 : String.eqb (lower (strip ("AcDbLine" +:+ nl))) "acdbline" = true)
    by (vm_compute; reflexivity).
  assert (H4 : forallb (valid_item (H := decimal)) [] = true) by reflexivity.
  assert (H5 : group_of (strip (" 10" +:+ nl)) = Some G10)
    by (vm_compute; reflexivity).
  assert (H6 : float_of_str (Python := decimal) (strip ("abc" +:+ nl)) = None)
    by (vm_compute; reflexivity).
  assert (H7 : files scrapyard !! "bad.dxf"
               = Some (text_of ["AcDbLine"; " 10"; "abc"; "  0"; "EOF"]))
    by (vm_compute; reflexivity).
  assert (H8 : readlines (text_of ["AcDbLine"; " 10"; "abc"; "  0"; "EOF"])
               = concat (map block_lines [])
                 ++ ("AcDbLine" +:+ nl)
                    :: concat (map item_lines [])
                       ++ (" 10" +:+ nl) :: ("abc" +:+ nl)
                          :: ["  0" +:+ nl; "EOF" +:+ nl])
    by (vm_compute; reflexivity).
  assert (H9 : contains "pulse x" (lower ("scandxf " +:+ "bad.dxf")) = false)
    by (vm_compute; reflexivity).
  assert (H10 : contains "pulse y" (lower ("scandxf " +:+ "bad.dxf")) = false)
    by (vm_compute; reflexivity).
  assert (H11 : "error_log.txt" ∉ locked scrapyard) by apply not_elem_of_empty.
  assert (H12 : contains "delta" (lower ("scandxf " +:+ "bad.dxf")) = true
                \/ contains "save" (lower ("scandxf " +:+ "bad.dxf")) = false)
    by (right; vm_compute; reflexivity).
  split; [exact H1|]. split; [exact H2|]. split; [exact H3|].
  split; [exact H4|]. split; [exact H5|]. split; [exact H6|].
  split; [exact H7|]. split; [exact H8|]. split; [exact H9|].
  split; [exact H10|]. split; [exact H12|]. split; [exact H11|].
  exact (bad_number_is_logged (H := decimal) [] ("AcDbLine" +:+ nl) []
           (" 10" +:+ nl) ("abc" +:+ nl) ["  0" +:+ nl; "EOF" +:+ nl] G10
           "bad.dxf" startup scrapyard _ H1 H2 H3 H4 H5 H6 H7 H8 H9 H10 H12
           H11).
Defined.

Lemma dxf_to_gcode_again_witness :
  "corner.dxf" <> "corner.txt"
  /\ exists w1,
       dxf_to_gcode (H := decimal) "corner.dxf" "corner.txt" "600" workshop
       = Done tt w1
       /\ (exists gcode,
             w1 = with_files (<["corner.txt" := gcode]> (files workshop))
                    workshop)
       /\ dxf_to_gcode (H := decimal) "corner.dxf" "corner.txt" "600" w1
          = Done tt w1.
Proof.
  assert (H2 : "corner.dxf" <> "corner.txt") by discriminate.
  split; [exact H2|].
  destruct (dxf_to_gcode (H := decimal) "corner.dxf" "corner.txt" "600"
              workshop) as [[] w1|e w1|] eqn:H1;
    [| vm_compute in H1; discriminate H1 | vm_compute in H1; discriminate H1].
  exists w1. split; [reflexivity|].
  exact (dxf_to_gcode_again (H := decimal) "corner.dxf" "corner.txt" "600"
           workshop w1 H1 H2).
Defined.

Lemma viewpath_missing_file_witness :
  contains "pulse x" (lower ("viewpath " +:+ "plot")) = false
  /\ contains "pulse y" (lower ("viewpath " +:+ "plot")) = false
  /\ contains "scandxf" (lower ("viewpath " +:+ "plot")) = false
  /\ (contains "delta" (lower ("viewpath " +:+ "plot")) = true
      \/ contains "save" (lower ("viewpath " +:+ "plot")) = false)
  /\ files quiet !! save_target "plot" = None
  /\ ("error_log.txt" ∉ locked quiet)
  /\ link quiet = true
  /\ save_target "plot" = "plot.txt"
  /\ (forall feed log,
        __gcode__ (H := decimal) ("viewpath " +:+ "plot") feed log quiet
        = Done "G0"
            (noted (H := decimal) (FileError (save_target "plot")) quiet))
  /\ respond (H := decimal) ("viewpath " +:+ "plot") startup quiet
     = Done (handed_on ("viewpath " +:+ "plot") startup)
         (with_sent ("G0" +:+ nl)
            (noted (H := decimal) (FileError (save_target "plot")) quiet)).
Proof.
  assert (H1 : contains "pulse x" (lower ("viewpath " +:+ "plot")) = false)
    by (vm_compute; reflexivity).
  assert (H2 : contains "pulse y" (lower ("viewpath " +:+ "plot")) = false)
    by (vm_compute; reflexivity).
  assert (H3 : contains "scandxf" (lower ("viewpath " +:+ "plot")) = false)
    by (vm_compute; reflexivity).
  assert (H0 : contains "delta" (lower ("viewpath " +:+ "plot")) = true
               \/ contains "save" (lower ("viewpath " +:+ "plot")) = false)
    by (right; vm_compute; reflexivity).
  assert (H4 : files quiet !! save_target "plot" = None) by apply lookup_empty.
  assert (H5 : "error_log.txt" ∉ locked quiet) by apply not_elem_of_empty.
  assert (H6 : link quiet = true) by reflexivity.
  split; [exact H1|]. split; [exact H2|]. split; [exact H3|].
  split; [exact H0|].
  split; [exact H4|]. split; [exact H5|]. split; [exact H6|].
  split; [reflexivity|].
  exact (viewpath_missing_file (H := decimal) "plot" startup quiet
           H1 H2 H3 H0 H4 H5 H6).
Defined.

Lemma viewpath_rejects_programs_witness :
  contains "pulse x" (lower ("viewpath " +:+ "corner")) = false
  /\ contains "pulse y" (lower ("viewpath " +:+ "corner")) = false
  /\ contains "scandxf" (lower ("viewpath " +:+ "corner")) = false
  /\ float_of_str (Python := decimal) "G90" = None
  /\ exists c text,
       compile (H := decimal) qty (drawing_lines corner "EOF") "600"
       = Return (c, text)
       /\ files (with_files {[save_target "corner" := text]} quiet)
            !! save_target "corner" = Some text
       /\ ("error_log.txt"
           ∉ locked (with_files {[save_target "corner" := text]} quiet))
       /\ __gcode__ (H := decimal) ("viewpath " +:+ "corner")
            (feedrate startup) (record startup)
            (with_files {[save_target "corner" := text]} quiet)
          = Done "G0"
              (noted (H := decimal) (ValueError "G90")
                 (with_files {[save_target "corner" := text]} quiet)).
Proof.
  assert (H1 : contains "pulse x" (lower ("viewpath " +:+ "corner")) = false)
    by (vm_compute; reflexivity).
  assert (H2 : contains "pulse y" (lower ("viewpath " +:+ "corner")) = false)
    by (vm_compute; reflexivity).
  assert (H3 : contains "scandxf" (lower ("viewpath " +:+ "corner")) = false)
    by (vm_compute; reflexivity).
  assert (H4 : float_of_str (Python := decimal) "G90" = None)
    by (vm_compute; reflexivity).
  split; [exact H1|]. split; [exact H2|]. split; [exact H3|].
  split; [exact H4|].
  destruct (compile (H := decimal) qty (drawing_lines corner "EOF") "600")
    as [[c text]|e|] eqn:H5;
    [| vm_compute in H5; discriminate H5 | vm_compute in H5; discriminate H5].
  assert (H6 : files (with_files {[save_target "corner" := text]} quiet)
                 !! save_target "corner" = Some text)
    by apply lookup_singleton_eq.
  assert (H7 : "error_log.txt"
               ∉ locked (with_files {[save_target "corner" := text]} quiet))
    by apply not_elem_of_empty.
  exists c, text. split; [reflexivity|]. split; [exact H6|].
  split; [exact H7|].
  exact (viewpath_rejects_programs (H := decimal) "corner" startup _
           (drawing_lines corner "EOF") "600" c text H1 H2 H3 H5 H6 H4 H7).
Defined.

Lemma scandxf_writes_and_sends_witness :
  contains "pulse x" (lower ("scandxf " +:+ "corner.dxf")) = false
  /\ contains "pulse y" (lower ("scandxf " +:+ "corner.dxf")) = false
  /\ (contains "delta" (lower ("scandxf " +:+ "corner.dxf")) = true
      \/ contains "save" (lower ("scandxf " +:+ "corner.dxf")) = false)
  /\ files workshop !! "corner.dxf" = Some (text_of (drawing_lines corner "EOF"))
  /\ readlines (text_of (drawing_lines corner "EOF"))
     = drawing_lines (map stored corner) ("EOF" +:+ nl) ++ []
  /\ valid_drawing (H := decimal) (map stored corner) ("EOF" +:+ nl) = true
  /\ (scan_target "corner.dxf" ∉ locked workshop)
  /\ link workshop = true
  /\ scan_target "corner.dxf" = "corner.txt"
  /\ exists s',
       s' = handed_on ("scandxf " +:+ "corner.dxf") startup
       /\ respond (H := decimal) ("scandxf " +:+ "corner.dxf") startup workshop
          = Done s'
              (with_sent (scan_target "corner.dxf" +:+ nl)
                 (with_files
                    (<[scan_target "corner.dxf"
                       := program (H := decimal) (feedrate s')
                            (take (qty - 1)
                               (segments (H := decimal) (map stored corner)))]>
                       (files workshop)) workshop))
       /\ feedrate s' = feedrate startup.
Proof.
  assert (H1 : contains "pulse x" (lower ("scandxf " +:+ "corner.dxf")) = false)
    by (vm_compute; reflexivity).
  assert (H2 : contains "pulse y" (lower ("scandxf " +:+ "corner.dxf")) = false)
    by (vm_compute; reflexivity).
  assert (H0 : contains "delta" (lower ("scandxf " +:+ "corner.dxf")) = true
               \/ contains "save" (lower ("scandxf " +:+ "corner.dxf")) = false)
    by (right; vm_compute; reflexivity).
  assert (H3 : files workshop !! "corner.dxf"
               = Some (text_of (drawing_lines corner "EOF")))
    by (vm_compute; reflexivity).
  assert (H4 : readlines (text_of (drawing_lines corner "EOF"))
               = drawing_lines (map stored corner) ("EOF" +:+ nl) ++ [])
    by (vm_compute; reflexivity).
  assert (H5 : valid_drawing (H := decimal) (map stored corner) ("EOF" +:+ nl)
               = true) by (vm_compute; reflexivity).
  assert (H6 : scan_target "corner.dxf" ∉ locked workshop)
    by apply not_elem_of_empty.
  assert (H7 : link workshop = true) by reflexivity.
  split; [exact H1|]. split; [exact H2|]. split; [exact H0|].
  split; [exact H3|].
  split; [exact H4|]. split; [exact H5|]. split; [exact H6|].
  split; [exact H7|]. split; [reflexivity|].
  destruct (scandxf_writes_and_sends (H := decimal) "corner.dxf" startup
              workshop _ (map stored corner) ("EOF" +:+ nl) []
              H1 H2 H0 H3 H4 H5 H6 H7) as (s' & Hs & Hr & Hfeed).
  exists s'. split; [exact Hs|]. split; [exact Hr|].
  apply Hfeed. right. vm_compute. reflexivity.
Defined.

Lemma error_log_appends_in_order_witness :
  ("error_log.txt" ∉ locked quiet)
  /\ log_all (H := decimal) [FileError "a.dxf"; SendError; IndexError] quiet
     = Done tt
         (World (<["error_log.txt"
                   := default "" (files quiet !! "error_log.txt")
                      +:+ entries (H := decimal) (clock quiet) (ticks quiet)
                            [FileError "a.dxf"; SendError; IndexError]]>
                   (files quiet))
            (locked quiet) (clock quiet) (ticks quiet + 3) (sent quiet)
            (link quiet))
  /\ entries (H := decimal) (clock quiet) (ticks quiet)
       [FileError "a.dxf"; SendError; IndexError]
     = "[0][Errno 2] No such file or directory: 'a.dxf'" +:+ nl
       +:+ "[1][Errno 32] Broken pipe" +:+ nl
       +:+ "[2]list index out of range" +:+ nl.
Proof.
  assert (H1 : "error_log.txt" ∉ locked quiet) by apply not_elem_of_empty.
  split; [exact H1|].
  split; [|vm_compute; reflexivity].
  exact (error_log_appends_in_order (H := decimal) [SendError; IndexError]
           (FileError "a.dxf") quiet H1).
Defined.

(** ** Further properties: failures and edges of the main loop *)

Section SessionExtras.
Context `{Python}.

Lemma short_sender_time text :
  length (split "," text) < 4 -> sender_time (split "," text) = Raise IndexError.
Proof.
  intros Hlen. unfold sender_time.
  destruct (split "," text !! 3) eqn:Hl; [|reflexivity].
  apply lookup_lt_Some in Hl. lia.
Qed.

(** X20.  A telemetry text with fewer than four comma-separated
    fields (the empty text a closed connection delivers, for one) ends
    the session with an IndexError, which no [try] block catches: at the
    top of the main loop before the operator is asked anything, and in
    the drain loop; nothing is sent. *)
Theorem short_telemetry_ends_session text gcode inputs inbox pos s w :
  length (split "," text) < 4 ->
  has_space pos = false ->
  session_loop (gcode :: inputs) (text :: inbox) s w = Fail IndexError w
  /\ exists w', drain (text :: inbox) pos s w = Fail IndexError w'
                /\ after 0 w w'.
Proof.
  intros Hlen Hpos. split.
  - rewrite session_loop_cons. unfold cycle. cbv zeta.
    rewrite (short_sender_time _ Hlen). reflexivity.
  - pose proof (settles_drain (text :: inbox) pos s w) as Hs.
    rewrite drain_cons in *. rewrite Hpos in *.
    unfold now in *. cbv beta iota zeta in *.
    rewrite (short_sender_time _ Hlen) in *.
    destruct (negb (String.eqb (check s) (posix (clock w (ticks w))))
              && negb (String.eqb (check s) "")).
    + destruct (format_position (split "," text)) as [line| |] eqn:Hf.
      * simpl in *. eexists. split; [reflexivity | exact Hs].
      * unfold format_position in Hf.
        destruct (format3 (split "," text)); [discriminate|].
        injection Hf as <-. simpl in *.
        eexists. split; [reflexivity | exact Hs].
      * unfold format_position in Hf.
        destruct (format3 (split "," text)); discriminate.
    + simpl in *. eexists. split; [reflexivity | exact Hs].
Qed.

(** X21.  The drain loop cannot end without the stop marker: entered
    without it and given well-formed texts none of which holds a space,
    it reads them all and then waits for ever on the next one. *)
Theorem drain_waits_for_marker texts : forall pos s w,
  has_space pos = false ->
  forallb (fun t => negb (contains " " t) && well_formed t) texts = true ->
  drain texts pos s w = Stuck.
Proof.
  induction texts as [|text texts IH]; intros pos s w Hpos Hall.
  - simpl. rewrite Hpos. reflexivity.
  - rewrite forallb_cons in Hall. apply andb_prop in Hall as [Ht Hall].
    apply andb_prop in Ht as [Hns Hwf]. apply negb_true_iff in Hns.
    rewrite (drain_step _ _ _ _ _ Hpos Hwf). apply IH; [exact Hns | exact Hall].
Qed.

Lemma directive_save path s w :
  contains "delta" (lower ("save " +:+ path)) = false ->
  directive ("save " +:+ path) s w
  = and_then (write_file (save_target path) (record s) w) (fun _ w =>
    Done (save_target path, s) w).
Proof.
  intros Hdelta. unfold directive. rewrite Hdelta.
  change (String.eqb ("save " +:+ path) "") with false.
  replace (contains "save" (lower ("save " +:+ path))) with true
    by (symmetry; apply contains_prefix, (prefix_app "save")).
  cbv beta iota zeta.
  change (slice_from 5 ("save " +:+ path)) with path.
  replace (if negb (contains ".txt" path) then path +:+ ".txt" else path)
    with (save_target path)
    by (unfold save_target; destruct (contains ".txt" path); reflexivity).
  reflexivity.
Qed.

(** X22.  A [save] whose target cannot be written ends the session:
    the write is outside every [try] block, so the exception leaves the
    main loop; nothing is sent and no file is changed. *)
Theorem save_failure_ends_session path text inputs inbox s w :
  contains "delta" (lower ("save " +:+ path)) = false ->
  save_target path ∈ locked w ->
  well_formed text = true ->
  respond ("save " +:+ path) s w = Fail (FileError (save_target path)) w
  /\ session_loop (("save " +:+ path) :: inputs) (text :: inbox) s w
     = Fail (FileError (save_target path)) (ticked w).
Proof.
  intros Hdelta Hlocked Hwf.
  assert (Hr : forall s1 w1, locked w1 = locked w ->
            respond ("save " +:+ path) s1 w1
            = Fail (FileError (save_target path)) w1).
  { intros s1 w1 Hl. unfold respond. rewrite (directive_save _ _ _ Hdelta).
    unfold write_file. rewrite Hl.
    destruct (decide (save_target path ∈ locked w)); [reflexivity|contradiction]. }
  split; [apply Hr; reflexivity|].
  rewrite session_loop_cons. unfold cycle. cbv zeta.
  destruct (well_formed_position text Hwf) as (Hline & f & Htime).
  rewrite Htime, Hline. cbn [lift and_then].
  unfold now. cbv beta iota zeta.
  rewrite Hr by reflexivity. reflexivity.
Qed.

Lemma gcode_keywordless gcode feed log w :
  lower gcode = "clear" \/ gcode = "" ->
  __gcode__ gcode feed log w = Done gcode w.
Proof.
  intros Hg. apply gcode_verbatim.
  - destruct Hg as [-> | ->]; reflexivity.
  - destruct Hg as [-> | ->]; reflexivity.
  - unfold free_of, gcode_keywords. destruct Hg as [-> | ->]; reflexivity.
Qed.

(** X23.  The routine [clear] answers to the exact text [clear] only:
    for an input that reads [clear] in any letter case, the log is
    emptied when the text is exactly [clear] and kept otherwise; in both
    cases the input itself is sent to the peer. *)
Theorem clear_is_case_sensitive gcode s w :
  lower gcode = "clear" ->
  link w = true ->
  respond gcode s w
  = Done (if String.eqb gcode "clear"
          then Session (feedrate s) (repeat s) "" (check s) else s)
      (with_sent (gcode +:+ nl) w).
Proof.
  intros Hlow Hlink.
  assert (Hne : String.eqb gcode "" = false)
    by (destruct gcode; [discriminate Hlow | reflexivity]).
  assert (Ht : forall s1, transmit gcode s1 w = Done tt (with_sent (gcode +:+ nl) w)).
  { intros s1. unfold transmit.
    rewrite gcode_keywordless by (left; exact Hlow).
    unfold and_then, try_except. rewrite send_up by exact Hlink. reflexivity. }
  unfold respond, directive. rewrite Hlow, Hne.
  change (contains "delta" "clear") with false.
  change (contains "save" "clear") with false.
  change (contains "feedrate" "clear") with false.
  cbv beta iota.
  destruct (String.eqb gcode "clear"); unfold and_then at 1; rewrite Ht;
    reflexivity.
Qed.

(** X24.  An empty input while no repeat command is stored (no
    [delta] yet) sends an empty line to the peer and leaves the session
    as it was. *)
Theorem empty_input_sends_empty_line s w :
  repeat s = None ->
  link w = true ->
  respond "" s w = Done s (with_sent nl w).
Proof.
  intros Hrep Hlink. unfold respond, directive.
  change (contains "delta" (lower "")) with false.
  change (String.eqb "" "") with true.
  cbv beta iota. rewrite Hrep.
  change (contains "save" (lower "")) with false.
  change (String.eqb "" "clear") with false.
  change (contains "feedrate" (lower "")) with false.
  cbv beta iota. unfold and_then at 1. unfold transmit.
  rewrite gcode_keywordless by (right; reflexivity).
  unfold and_then, try_except. rewrite send_up by exact Hlink. reflexivity.
Qed.

Lemma drain_files inbox : forall pos s w rest s' w',
  drain inbox pos s w = Done (rest, s') w' ->
  files w' = files w /\ sent w' = sent w.
Proof.
  induction inbox as [|text inbox IH]; intros pos s w rest s' w'.
  - simpl. destruct (has_space pos); [|discriminate].
    intros [= <- <- <-]. split; reflexivity.
  - rewrite drain_cons. destruct (has_space pos).
    + intros [= <- <- <-]. split; reflexivity.
    + unfold now. cbv beta iota zeta.
      destruct (negb (String.eqb (check s) (posix (clock w (ticks w))))
                && negb (String.eqb (check s) "")).
      * destruct (format_position (split "," text)) as [line| |];
          simpl; try discriminate.
        destruct (sender_time (split "," text)) as [f| |]; simpl;
          try discriminate.
        intros Hd. apply IH in Hd. exact Hd.
      * simpl.
        destruct (sender_time (split "," text)) as [f| |]; simpl;
          try discriminate.
        intros Hd. apply IH in Hd. exact Hd.
Qed.

Lemma contains_txt_dot s :
  contains ".txt" s = true -> contains "." (lower s) = true.
Proof.
  induction s as [|c s IH]; [discriminate|].
  rewrite contains_cons. intros Hc. apply orb_prop in Hc as [Hp | Hc].
  - rewrite prefix_cons in Hp.
    destruct (ascii_dec "." c) as [<-|]; [|discriminate].
    change (lower (String "." s)) with (String "." (lower s)).
    apply contains_prefix. rewrite prefix_cons.
    destruct (ascii_dec "." "."); [|congruence].
    destruct (lower s); reflexivity.
  - change (lower (String c s)) with (String (lower_char c) (lower s)).
    rewrite contains_cons, (IH Hc). apply orb_true_r.
Qed.

Lemma save_target_txt path : contains ".txt" (save_target path) = true.
Proof.
  unfold save_target. destruct (contains ".txt" path) eqn:Hc; [exact Hc|].
  apply contains_app_r. reflexivity.
Qed.

(** A [save] target holds [.txt], so it is neither [home] nor
    [absolute], in whatever case. *)
Lemma save_target_no_routine path :
  String.eqb (lower (save_target path)) "home" = false
  /\ String.eqb (lower (save_target path)) "absolute" = false.
Proof.
  pose proof (contains_txt_dot _ (save_target_txt path)) as Hdot.
  split; apply String.eqb_neq; intros Heq; rewrite Heq in Hdot;
    discriminate Hdot.
Qed.

(** X25.  [save] writes the log as it stands in that very turn of the
    loop: when a turn on the input [save <path>] completes (no [delta]
    in the input, none of [pulse x], [pulse y], [scandxf], [viewpath] in
    the target, the link being up), the saved file holds the log of
    before followed by the line recorded at the top of that turn, the
    position just received with the clock reading, and the one payload
    sent to the peer in that turn is the target path. *)
Theorem save_keeps_latest_sample path text inbox s w rest s' w' :
  contains "delta" (lower ("save " +:+ path)) = false ->
  free_of gcode_keywords (save_target path) = true ->
  link w = true ->
  cycle ("save " +:+ path) (text :: inbox) s w = Done (rest, s') w' ->
  files w' !! save_target path
  = Some (record s +:+ position text +:+ posix (clock w (ticks w)) +:+ nl)
  /\ sent w' = sent w ++ [save_target path +:+ nl].
Proof.
  intros Hdelta Hfree Hlink. unfold cycle. cbv zeta.
  destruct (sender_time (split "," text)) as [f| |] eqn:Htime;
    try discriminate.
  assert (Hwf : well_formed text = true)
    by (unfold well_formed; rewrite Htime; reflexivity).
  destruct (well_formed_position text Hwf) as (Hline & _).
  rewrite Hline. cbn [lift and_then].
  unfold now. cbv beta iota zeta.
  unfold respond. rewrite (directive_save _ _ _ Hdelta).
  unfold write_file. simpl locked.
  destruct (decide (save_target path ∈ locked w)); [discriminate|].
  cbn [and_then]. unfold transmit.
  destruct (save_target_no_routine path) as [Hhome Habs].
  rewrite (gcode_verbatim _ _ _ _ Hhome Habs Hfree). cbn [and_then].
  rewrite send_up by exact Hlink.
  cbn [try_except and_then].
  intros Hd. apply drain_files in Hd. destruct Hd as [-> ->]. simpl.
  split; [apply lookup_insert_eq | reflexivity].
Qed.

End SessionExtras.

Lemma short_telemetry_ends_session_witness :
  length (split "," "") < 4
  /\ has_space (Fields ["1.0"; "2.0"; "0.0"; "1000"]) = false
  /\ session_loop (H := decimal) ("home" :: ["absolute"]) ("" :: []) startup
       quiet = Fail IndexError quiet
  /\ exists w',
       drain (H := decimal) ("" :: []) (Fields ["1.0"; "2.0"; "0.0"; "1000"])
         startup quiet = Fail IndexError w'
       /\ after 0 quiet w'.
Proof.
  assert (H1 : length (split "," "") < 4) by (vm_compute; lia).
  assert (H2 : has_space (Fields ["1.0"; "2.0"; "0.0"; "1000"]) = false)
    by (vm_compute; reflexivity).
  split; [exact H1|]. split; [exact H2|].
  exact (short_telemetry_ends_session (H := decimal) "" "home" ["absolute"] []
           (Fields ["1.0"; "2.0"; "0.0"; "1000"]) startup quiet H1 H2).
Defined.

Lemma drain_waits_for_marker_witness :
  has_space (Fields ["0.0"; "0.0"; "0.0"; "1000"]) = false
  /\ forallb (fun t => negb (contains " " t) && well_formed (H := decimal) t)
       ["1.0,0.0,0.0,1001"; "2.0,0.0,0.0,1002"] = true
  /\ drain (H := decimal) ["1.0,0.0,0.0,1001"; "2.0,0.0,0.0,1002"]
       (Fields ["0.0"; "0.0"; "0.0"; "1000"]) startup quiet = Stuck.
Proof.
  assert (H1 : has_space (Fields ["0.0"; "0.0"; "0.0"; "1000"]) = false)
    by (vm_compute; reflexivity).
  assert (H2 : forallb (fun t => negb (contains " " t)
                                 && well_formed (H := decimal) t)
                 ["1.0,0.0,0.0,1001"; "2.0,0.0,0.0,1002"] = true)
    by (vm_compute; reflexivity).
  split; [exact H1|]. split; [exact H2|].
  exact (drain_waits_for_marker (H := decimal) _ _ startup quiet H1 H2).
Defined.

Lemma save_failure_ends_session_witness :
  contains "delta" (lower ("save " +:+ "run")) = false
  /\ save_target "run" ∈ locked readonly
  /\ well_formed (H := decimal) "1.0,2.0,0.0,1000, " = true
  /\ respond (H := decimal) ("save " +:+ "run") logging readonly
     = Fail (FileError (save_target "run")) readonly
  /\ session_loop (H := decimal) (("save " +:+ "run") :: ["home"])
       ("1.0,2.0,0.0,1000, " :: []) logging readonly
     = Fail (FileError (save_target "run")) (ticked readonly).
Proof.
  assert (H1 : contains "delta" (lower ("save " +:+ "run")) = false)
    by (vm_compute; reflexivity).
  assert (H2 : save_target "run" ∈ locked readonly)
    by (change ("run.txt" ∈ ({["run.txt"]} : gset string));
        apply elem_of_singleton_2; reflexivity).
  assert (H3 : well_formed (H := decimal) "1.0,2.0,0.0,1000, " = true)
    by (vm_compute; reflexivity).
  split; [exact H1|]. split; [exact H2|]. split; [exact H3|].
  exact (save_failure_ends_session (H := decimal) "run" "1.0,2.0,0.0,1000, "
           ["home"] [] logging readonly H1 H2 H3).
Defined.

Lemma clear_is_case_sensitive_witness :
  lower "Clear" = "clear"
  /\ link quiet = true
  /\ respond (H := decimal) "Clear" logging quiet
     = Done (if String.eqb "Clear" "clear"
             then Session (feedrate logging) (repeat logging) "" (check logging)
             else logging)
         (with_sent ("Clear" +:+ nl) quiet)
  /\ String.eqb "Clear" "clear" = false.
Proof.
  assert (H1 : lower "Clear" = "clear") by reflexivity.
  assert (H2 : link quiet = true) by reflexivity.
  split; [exact H1|]. split; [exact H2|]. split; [|reflexivity].
  exact (clear_is_case_sensitive (H := decimal) "Clear" logging quiet H1 H2).
Defined.

Lemma empty_input_sends_empty_line_witness :
  repeat startup = None
  /\ link quiet = true
  /\ respond (H := decimal) "" startup quiet = Done startup (with_sent nl quiet).
Proof.
  assert (H1 : repeat startup = None) by reflexivity.
  assert (H2 : link quiet = true) by reflexivity.
  split; [exact H1|]. split; [exact H2|].
  exact (empty_input_sends_empty_line (H := decimal) startup quiet H1 H2).
Defined.

Lemma save_keeps_latest_sample_witness :
  contains "delta" (lower ("save " +:+ "run")) = false
  /\ free_of gcode_keywords (save_target "run") = true
  /\ link quiet = true
  /\ save_target "run" = "run.txt"
  /\ exists rest s' w',
       cycle (H := decimal) ("save " +:+ "run") ("3.0,4.0,0.0,1000, " :: [])
         logging quiet = Done (rest, s') w'
       /\ files w' !! save_target "run"
          = Some (record logging +:+ position "3.0,4.0,0.0,1000, "
                  +:+ posix (clock quiet (ticks quiet)) +:+ nl)
       /\ sent w' = sent quiet ++ [save_target "run" +:+ nl].
Proof.
  assert (H1 : contains "delta" (lower ("save " +:+ "run")) = false)
    by (vm_compute; reflexivity).
  assert (H2 : free_of gcode_keywords (save_target "run") = true)
    by (vm_compute; reflexivity).
  assert (H4 : link quiet = true) by reflexivity.
  split; [exact H1|]. split; [exact H2|]. split; [exact H4|].
  split; [reflexivity|].
  destruct (cycle (H := decimal) ("save " +:+ "run")
              ("3.0,4.0,0.0,1000, " :: []) logging quiet)
    as [[rest s'] w'|e w'|] eqn:H5;
    [| vm_compute in H5; discriminate H5 | vm_compute in H5; discriminate H5].
  exists rest, s', w'. split; [reflexivity|].
  exact (save_keeps_latest_sample (H := decimal) "run" "3.0,4.0,0.0,1000, " []
           logging quiet rest s' w' H1 H2 H4 H5).
Defined.

(** ** Where [scandxf] writes *)

Ltac split_char c := destruct c as [[] [] [] [] [] [] [] []].

Lemma remove_dxf_cons c r :
  String.prefix ".dxf" (String c r) = false ->
  remove_dxf (String c r) = String c (remove_dxf r).
Proof.
  split_char c; try (intros _; reflexivity).
  destruct r as [|d r]; [intros _; reflexivity|].
  split_char d; try (intros _; reflexivity).
  destruct r as [|x r]; [intros _; reflexivity|].
  split_char x; try (intros _; reflexivity).
  destruct r as [|f r]; [intros _; reflexivity|].
  split_char f; try (intros _; reflexivity).
  intros Hp. destruct r; discriminate Hp.
Qed.

Lemma prefix_dxf_app c r :
  String.prefix ".dxf" (String c (r +:+ ".dxf")) = true ->
  String.prefix ".dxf" (String c r) = true.
Proof.
  rewrite !prefix_cons. destruct (ascii_dec "." c) as [_|]; [|discriminate].
  destruct r as [|d r]; [discriminate|].
  change (String d r +:+ ".dxf") with (String d (r +:+ ".dxf")).
  rewrite !prefix_cons. destruct (ascii_dec "d" d) as [_|]; [|discriminate].
  destruct r as [|x r]; [discriminate|].
  change (String x r +:+ ".dxf") with (String x (r +:+ ".dxf")).
  rewrite !prefix_cons. destruct (ascii_dec "x" x) as [_|]; [|discriminate].
  destruct r as [|f r]; [discriminate|].
  change (String f r +:+ ".dxf") with (String f (r +:+ ".dxf")).
  rewrite !prefix_cons. destruct (ascii_dec "f" f) as [_|]; [|discriminate].
  intros _. destruct r; reflexivity.
Qed.

Lemma remove_dxf_free s : contains ".dxf" s = false -> remove_dxf s = s.
Proof.
  induction s as [|c s IH]; [reflexivity|].
  rewrite contains_cons. intros Hc. apply orb_false_elim in Hc as [Hp Hc].
  rewrite (remove_dxf_cons _ _ Hp), (IH Hc). reflexivity.
Qed.

Lemma remove_dxf_extension s :
  contains ".dxf" s = false -> remove_dxf (s +:+ ".dxf") = s.
Proof.
  induction s as [|c s IH]; [reflexivity|].
  rewrite contains_cons. intros Hc. apply orb_false_elim in Hc as [Hp Hc].
  change (String c s +:+ ".dxf") with (String c (s +:+ ".dxf")).
  rewrite remove_dxf_cons, (IH Hc); [reflexivity|].
  destruct (String.prefix ".dxf" (String c (s +:+ ".dxf"))) eqn:Hq; [|reflexivity].
  rewrite (prefix_dxf_app _ _ Hq) in Hp. discriminate Hp.
Qed.

(** X26.  The program of [scandxf] lands beside the drawing: for a
    name that does not hold [.dxf], both [scandxf <name>.dxf] and
    [scandxf <name>] write to [<name>.txt]. *)
Theorem scan_target_beside_drawing name :
  contains ".dxf" name = false ->
  scan_target (name +:+ ".dxf") = name +:+ ".txt"
  /\ scan_target name = name +:+ ".txt".
Proof.
  intros Hfree. unfold scan_target.
  rewrite (remove_dxf_extension _ Hfree), (remove_dxf_free _ Hfree).
  split; reflexivity.
Qed.

Lemma scan_target_beside_drawing_witness :
  contains ".dxf" "parts/bracket" = false
  /\ scan_target ("parts/bracket" +:+ ".dxf") = "parts/bracket" +:+ ".txt"
  /\ scan_target "parts/bracket" = "parts/bracket" +:+ ".txt".
Proof.
  assert (H1 : contains ".dxf" "parts/bracket" = false)
    by (vm_compute; reflexivity).
  split; [exact H1|].
  exact (scan_target_beside_drawing "parts/bracket" H1).
Defined.
